(** * DataHub Soda plugin: the scan-result handler

    A shallow embedding of [datahub_soda_plugin/handler.py] and the
    properties its specification states about it.

    The handler receives JSON documents, so its inputs are dynamically
    typed: every value read out of a check, a metric or a table is an
    arbitrary JSON value, and a value of the wrong shape makes a method
    call raise.  The embedding keeps that: values are [pyval], the
    operations the handler applies to them return an [outcome], and the
    handler itself runs in a monad that threads the observable world
    (the calls made on the emitter, the log, the clock) and propagates
    exceptions until a [try]/[except] catches them. *)

From Stdlib Require Import ZArith String Ascii.
From stdpp Require Import base option list strings pretty gmap.

Set Warnings "-register-all".
Local Open Scope string_scope.
Local Open Scope Z_scope.

(** ** Python values *)

Module Py.

(** A float is kept symbolically: [FFin m e] stands for [m * 2^e]. *)
Inductive pyfloat :=
| FNaN
| FInf (negative : bool)
| FFin (m e : Z).

(** The values [json.load] produces. *)
Inductive pyval :=
| PNone
| PBool (b : bool)
| PInt (z : Z)
| PFloat (f : pyfloat)
| PStr (s : string)
| PList (l : list pyval)
| PDict (d : list (string * pyval)).

(** A [dict] with string keys, in insertion order. *)
Definition pydict := list (string * pyval).

(** The exceptions the handler can meet; all of them derive from
    [Exception], which is what its handlers catch. *)
Inductive exn_class :=
| AttributeError
| TypeError
| ValueError
| OverflowError
| OtherException.

#[global] Instance exn_class_eq_dec : EqDecision exn_class.
Proof. solve_decision. Defined.

Record exn := Exn { exn_kind : exn_class; exn_str : string }.

Inductive outcome (A : Type) :=
| Ret (a : A)
| Raise (e : exn).
Arguments Ret {A} a.
Arguments Raise {A} e.

Definition raise_of {A} (k : exn_class) (msg : string) : outcome A :=
  Raise (Exn k msg).

(** *** Strings *)

(** A string is its sequence of UTF-8 bytes.  [lower_ascii_string]
    folds the letters [A]..[Z] and keeps every other byte: it is what
    [str.lower] does on ASCII text, and on ASCII text only. *)
Definition lower_ascii (c : ascii) : ascii :=
  let n := N_of_ascii c in
  if ((65 <=? n) && (n <=? 90))%N then ascii_of_N (n + 32) else c.

Fixpoint lower_ascii_string (s : string) : string :=
  match s with
  | EmptyString => EmptyString
  | String c s' => String (lower_ascii c) (lower_ascii_string s')
  end.

(** Text without a byte above 127. *)
Fixpoint is_ascii (s : string) : bool :=
  match s with
  | EmptyString => true
  | String c s' => (N_of_ascii c <? 128)%N && is_ascii s'
  end.

(** [needle in hay] for two strings. *)
Fixpoint str_in (needle hay : string) : bool :=
  String.prefix needle hay ||
  match hay with
  | EmptyString => false
  | String _ hay' => str_in needle hay'
  end.

(** [x in [s1, ..., sn]] for a string [x]. *)
Definition str_in_list (x : string) (l : list string) : bool :=
  existsb (String.eqb x) l.

(** *** Dictionaries *)

Fixpoint assoc_lookup {A} (k : string) (d : list (string * A)) : option A :=
  match d with
  | [] => None
  | (k', v) :: d' => if String.eqb k k' then Some v else assoc_lookup k d'
  end.

(** [d.get(k, default)] on a dictionary. *)
Definition dict_get (d : pydict) (k : string) (default : pyval) : pyval :=
  match assoc_lookup k d with
  | Some v => v
  | None => default
  end.

(** [v.get(k, default)] on an arbitrary value: only dictionaries have
    the method. *)
Definition py_get (v : pyval) (k : string) (default : pyval) : outcome pyval :=
  match v with
  | PDict d => Ret (dict_get d k default)
  | _ => raise_of AttributeError "object has no attribute 'get'"
  end.

(** *** Truthiness, iteration, length *)

Definition float_is_zero (f : pyfloat) : bool :=
  match f with
  | FFin m _ => m =? 0
  | _ => false
  end.

(** [bool(v)], the test behind [if v:], [a or b] and [a and b]. *)
Definition py_truthy (v : pyval) : bool :=
  match v with
  | PNone => false
  | PBool b => b
  | PInt z => negb (z =? 0)
  | PFloat f => negb (float_is_zero f)
  | PStr s => negb (String.eqb s "")
  | PList l => match l with [] => false | _ => true end
  | PDict d => match d with [] => false | _ => true end
  end.

Fixpoint chars (s : string) : list pyval :=
  match s with
  | EmptyString => []
  | String c s' => PStr (String c EmptyString) :: chars s'
  end.

(** The items [for x in v] runs through: a list yields its elements, a
    string its characters, a dictionary its keys; nothing else is
    iterable. *)
Definition py_iter (v : pyval) : outcome (list pyval) :=
  match v with
  | PList l => Ret l
  | PStr s => Ret (chars s)
  | PDict d => Ret (map (fun kv => PStr (fst kv)) d)
  | _ => raise_of TypeError "object is not iterable"
  end.

(** [len(v)]. *)
Definition py_len (v : pyval) : outcome nat :=
  match v with
  | PList l => Ret (length l)
  | PStr s => Ret (String.length s)
  | PDict d => Ret (length d)
  | _ => raise_of TypeError "object has no len()"
  end.

(** *** Equality *)

(** The numeric reading shared by [bool], [int] and [float]. *)
Definition num_of (v : pyval) : option pyfloat :=
  match v with
  | PBool b => Some (FFin (if b then 1 else 0) 0)
  | PInt z => Some (FFin z 0)
  | PFloat f => Some f
  | _ => None
  end.

Definition float_eq (x y : pyfloat) : bool :=
  match x, y with
  | FFin m1 e1, FFin m2 e2 =>
      let e := Z.min e1 e2 in
      (m1 * 2 ^ (e1 - e) =? m2 * 2 ^ (e2 - e))
  | FInf a, FInf b => Bool.eqb a b
  | _, _ => false
  end.

(** [a == b]: numbers compare by value across [bool], [int] and
    [float]; strings and lists compare componentwise; dictionaries
    compare as maps, whatever the order of their items. *)
Fixpoint py_eq (a b : pyval) {struct a} : bool :=
  match a, b with
  | PNone, PNone => true
  | PStr s, PStr t => String.eqb s t
  | PList l, PList m =>
      (fix go (l m : list pyval) {struct l} : bool :=
         match l, m with
         | [], [] => true
         | x :: l', y :: m' => py_eq x y && go l' m'
         | _, _ => false
         end) l m
  | PDict d, PDict e =>
      Nat.eqb (length d) (length e) &&
      (fix go (d : list (string * pyval)) : bool :=
         match d with
         | [] => true
         | (k, v) :: d' =>
             match assoc_lookup k e with
             | Some w => py_eq v w
             | None => false
             end && go d'
         end) d
  | _, _ =>
      match num_of a, num_of b with
      | Some x, Some y => float_eq x y
      | _, _ => false
      end
  end.

(** [v is None]. *)
Definition is_none (v : pyval) : bool :=
  match v with
  | PNone => true
  | _ => false
  end.

(** [x in [v1, ..., vn]]. *)
Definition py_in_list (x : pyval) (l : list pyval) : bool :=
  existsb (py_eq x) l.

(** [isinstance(v, (int, float))]; [bool] is a subclass of [int]. *)
Definition is_int_or_float (v : pyval) : bool :=
  match v with
  | PBool _ | PInt _ | PFloat _ => true
  | _ => false
  end.

(** [isinstance(v, (str, int, float))]. *)
Definition is_str_int_or_float (v : pyval) : bool :=
  match v with
  | PStr _ => true
  | _ => is_int_or_float v
  end.

End Py.
Export Py.

(** ** The catalog's assertion model

    The classes of [datahub.metadata] the handler instantiates, with
    the members it uses. *)

Module AssertionResultType.
Inductive t := SUCCESS | FAILURE.
End AssertionResultType.

Module AssertionRunStatus.
Inductive t := COMPLETE.
End AssertionRunStatus.

Module AssertionType.
Inductive t := DATASET.
End AssertionType.

Module DatasetAssertionScope.
Inductive t := DATASET_ROWS | DATASET_COLUMN | DATASET_SCHEMA.
End DatasetAssertionScope.

Module AssertionStdOperator.
Inductive t := _NATIVE_ | NOT_NULL.
End AssertionStdOperator.

Module AssertionStdAggregation.
Inductive t := _NATIVE_ | IDENTITY | UNIQUE_COUNT | ROW_COUNT | COLUMNS.
End AssertionStdAggregation.

Module DatasetAssertionInfo.
Record t := mk {
    dataset : string;
    fields : option (list string);
    operator : AssertionStdOperator.t;
    aggregation : AssertionStdAggregation.t;
    nativeType : pyval;
    nativeParameters : pydict;
    scope : DatasetAssertionScope.t
  }.
End DatasetAssertionInfo.

Module AssertionInfo.
Record t := mk {
    type : AssertionType.t;
    datasetAssertion : DatasetAssertionInfo.t;
    customProperties : pydict
  }.
End AssertionInfo.

Module AssertionResult.
Record t := mk {
    type : AssertionResultType.t;
    rowCount : option Z;
    missingCount : option Z;
    unexpectedCount : option Z;
    actualAggValue : option pyval;
    nativeResults : list (string * string)
  }.
End AssertionResult.

Module BatchSpec.
Record t := mk {
    nativeBatchId : pyval;
    query : pyval;
    customProperties : pydict
  }.
End BatchSpec.

Module AssertionRunEvent.
Record t := mk {
    timestampMillis : Z;
    assertionUrn : string;
    asserteeUrn : string;
    runId : string;
    result : AssertionResult.t;
    batchSpec : BatchSpec.t;
    status : AssertionRunStatus.t
  }.
End AssertionRunEvent.

Module DataPlatformInstance.
Record t := mk { platform : string }.
End DataPlatformInstance.

(** The aspects the handler emits. *)
Inductive aspect :=
| AssertionInfoAspect (a : AssertionInfo.t)
| DataPlatformInstanceAspect (a : DataPlatformInstance.t)
| AssertionRunEventAspect (a : AssertionRunEvent.t).

Module MetadataChangeProposalWrapper.
Record t := mk { entityUrn : string; aspect_of : aspect }.
End MetadataChangeProposalWrapper.

Abbreviation MCP := MetadataChangeProposalWrapper.t.

(** A [datetime], as seconds since the epoch. *)
Definition datetime := Z.

(** ** The handler object *)

Record DataHubSodaHandler := {
  server_url : string;
  env : string;
  platform_alias : option string;
  platform_instance_map : gmap string string;
  graceful_exceptions : bool;
  token : option string;
  timeout_sec : option pyfloat;
  retry_status_codes : option (list Z);
  retry_max_times : option Z;
  extra_headers : option (gmap string string);
  convert_urns_to_lowercase : bool
}.

(** The constructor; an absent instance map becomes the empty one. *)
Definition __init__ (server_url env : string) (platform_alias : option string)
    (platform_instance_map : option (gmap string string))
    (graceful_exceptions : bool) (token : option string)
    (timeout_sec : option pyfloat) (retry_status_codes : option (list Z))
    (retry_max_times : option Z) (extra_headers : option (gmap string string))
    (convert_urns_to_lowercase : bool) : DataHubSodaHandler :=
  {| server_url := server_url;
     env := env;
     platform_alias := platform_alias;
     platform_instance_map := default ∅ platform_instance_map;
     graceful_exceptions := graceful_exceptions;
     token := token;
     timeout_sec := timeout_sec;
     retry_status_codes := retry_status_codes;
     retry_max_times := retry_max_times;
     extra_headers := extra_headers;
     convert_urns_to_lowercase := convert_urns_to_lowercase |}.

Definition SODA_PLATFORM_NAME : string := "soda".

(** ** What the handler calls but does not define

    The DataHub SDK, the Python runtime's conversions, the clock and
    the REST emitter are collaborators of the handler.  They are an
    interface here: the handler is verified for every implementation
    of it. *)

Class Sdk := {
  (** [s.lower()].  Python folds every cased letter of Unicode, and not
      letter by letter (a final sigma depends on what precedes it), so
      the function is the runtime's; on ASCII text it folds [A]..[Z]
      and keeps every other character. *)
  lower : string → string;
  lower_ascii_text :
    ∀ s, is_ascii s = true → lower s = lower_ascii_string s;
  (** [str(v)] for a value that is not a string *)
  str_of : pyval → string;
  (** [int(s)] on a string; [None] when it raises [ValueError] *)
  int_of_str : string → option Z;
  (** [json.dumps(v, default=str)] *)
  json_dumps : pyval → outcome string;
  (** [t.strftime("%Y-%m-%dT%H:%M:%SZ")] *)
  strftime : datetime → string;
  (** [builder.make_dataset_urn_with_platform_instance(platform, name,
      platform_instance, env)] *)
  make_dataset_urn_with_platform_instance :
    string → pyval → string → string → outcome string;
  (** [builder.make_schema_field_urn(parent_urn, field_path)] *)
  make_schema_field_urn : string → pyval → outcome string;
  make_data_platform_urn : string → string;
  make_assertion_urn : string → string;
  pre_json_transform : pyval → outcome pyval;
  datahub_guid : pyval → outcome string;
  (** the clock at its n-th reading: [int(time.time())],
      [int(round(time.time() * 1000))], [datetime.now(timezone.utc)] *)
  clock_seconds : nat → Z;
  clock_millis : nat → Z;
  clock_datetime : nat → datetime;
  (** whether constructing the emitter raises *)
  DatahubRestEmitter_raises : DataHubSodaHandler → option exn;
  (** whether [emitter.emit_mcp(mcp)] raises, given the calls made on
      the emitter before *)
  emit_mcp_raises : DataHubSodaHandler → list MCP → MCP → option exn
}.

(** ** Effects *)

(** [outcome] is the monad of code that may raise. *)
#[global] Instance outcome_ret : MRet outcome := λ A a, Ret a.
#[global] Instance outcome_bind : MBind outcome := λ A B f m,
  match m with
  | Ret a => f a
  | Raise e => Raise e
  end.

(** [try: body  except (k1, ..., kn): handler] without state. *)
Definition catching {A} (kinds : list exn_class) (body : outcome A)
    (handler : outcome A) : outcome A :=
  match body with
  | Ret a => Ret a
  | Raise e =>
      if existsb (λ k, bool_decide (k = exn_kind e)) kinds
      then handler else Raise e
  end.

Fixpoint map_outcome {A B : Type} (f : A → outcome B) (l : list A) : outcome (list B) :=
  match l with
  | [] => Ret []
  | x :: l' => y ← f x; ys ← map_outcome f l'; Ret (y :: ys)
  end.

Fixpoint filter_outcome {A : Type} (p : A → outcome bool) (l : list A) : outcome (list A) :=
  match l with
  | [] => Ret []
  | x :: l' => b ← p x; ys ← filter_outcome p l'; Ret (if (b : bool) then x :: ys else ys)
  end.

Fixpoint fold_outcome {A St : Type} (step : St → A → outcome St) (l : list A)
    (s : St) : outcome St :=
  match l with
  | [] => Ret s
  | x :: l' => s' ← step s x; fold_outcome step l' s'
  end.

Inductive log_level := INFO | WARNING | ERROR.

(** What a run leaves behind: the calls made on the emitter, the log
    records, and the number of clock readings. *)
Record world := World {
  emit_calls : list MCP;
  log : list (log_level * string);
  ticks : nat
}.

(** The handler's monad: state that survives an exception. *)
Definition M (A : Type) : Type := world → outcome A * world.

#[global] Instance M_ret : MRet M := λ A a w, (Ret a, w).
#[global] Instance M_bind : MBind M := λ A B f m w,
  match m w with
  | (Ret a, w') => f a w'
  | (Raise e, w') => (Raise e, w')
  end.

Definition lift {A} (o : outcome A) : M A := λ w, (o, w).

Definition throw {A} (e : exn) : M A := λ w, (Raise e, w).

(** [try: body  except Exception as e: handler e]. *)
Definition try_except {A} (body : M A) (handler : exn → M A) : M A := λ w,
  match body w with
  | (Ret a, w') => (Ret a, w')
  | (Raise e, w') => handler e w'
  end.

Definition logger (lvl : log_level) (msg : string) : M unit := λ w,
  (Ret tt, World (emit_calls w) (log w ++ [(lvl, msg)]) (ticks w)).

(** A [for] loop whose body updates the local variables [s]. *)
Fixpoint for_each {A St : Type} (l : list A) (s : St) (body : St → A → M St)
    : M St :=
  match l with
  | [] => mret s
  | x :: l' => s' ← body s x; for_each l' s' body
  end.

Section Handler.

Context `{Sdk}.

(** [str(v)], also the conversion an f-string applies; a string is its
    own text. *)
Definition py_str (v : pyval) : string :=
  match v with
  | PStr s => s
  | _ => str_of v
  end.

(** [v.lower()]: a string method. *)
Definition py_lower (v : pyval) : outcome string :=
  match v with
  | PStr s => Ret (lower s)
  | _ => raise_of AttributeError "object has no attribute 'lower'"
  end.

Definition read_clock {A} (reading : nat → A) : M A := λ w,
  (Ret (reading (ticks w)), World (emit_calls w) (log w) (S (ticks w))).

(** [emitter.emit_mcp(mcp)]: the call is made, then it returns or
    raises. *)
Definition emit_mcp (self : DataHubSodaHandler) (mcp : MCP) : M unit := λ w,
  let w' := World (emit_calls w ++ [mcp]) (log w) (ticks w) in
  match emit_mcp_raises self (emit_calls w) mcp with
  | Some e => (Raise e, w')
  | None => (Ret tt, w')
  end.

Definition DatahubRestEmitter (self : DataHubSodaHandler) : M unit :=
  match DatahubRestEmitter_raises self with
  | Some e => throw e
  | None => mret tt
  end.

(** ** Module-level helpers *)

(** [int(v)]: a float is truncated towards zero. *)
Definition py_int (v : pyval) : outcome Z :=
  match v with
  | PBool b => Ret (if b then 1 else 0)
  | PInt z => Ret z
  | PFloat FNaN => raise_of ValueError "cannot convert float NaN to integer"
  | PFloat (FInf _) => raise_of OverflowError "cannot convert float infinity to integer"
  | PFloat (FFin m e) => Ret (if 0 <=? e then m * 2 ^ e else Z.quot m (2 ^ (- e)))
  | PStr s =>
      match int_of_str s with
      | Some z => Ret z
      | None => raise_of ValueError "invalid literal for int()"
      end
  | _ => raise_of TypeError "int() argument must be a string or a number"
  end.

Definition parse_int_or_default (value : pyval) (default_value : option Z)
    : outcome (option Z) :=
  match value with
  | PNone => Ret default_value
  | _ => catching [ValueError; TypeError]
           (z ← py_int value; Ret (Some z))
           (Ret default_value)
  end.

(** A JSON value is never a [Decimal], so that branch does not show. *)
Definition convert_to_string (var : pyval) : outcome string :=
  catching [TypeError; ValueError]
    (if is_str_int_or_float var then Ret (py_str var)
     else json_dumps var)
    (Ret (py_str var)).

(** ** [DataHubSodaHandler._build_dataset_urn] *)

Definition platform_map : gmap string string :=
  list_to_map
    [ ("postgres", "postgres"); ("snowflake", "snowflake");
      ("bigquery", "bigquery"); ("redshift", "redshift");
      ("mysql", "mysql"); ("mssql", "mssql"); ("oracle", "oracle");
      ("databricks", "databricks"); ("spark", "spark") ].

(** [self.platform_alias or platform_map.get(name.lower(), name.lower())];
    the right operand is evaluated only when the alias is falsy. *)
Definition resolve_platform (self : DataHubSodaHandler)
    (data_source_name : pyval) : outcome string :=
  match platform_alias self with
  | Some alias =>
      if String.eqb alias "" then
        l ← py_lower data_source_name; Ret (default l (platform_map !! l))
      else Ret alias
  | None =>
      l ← py_lower data_source_name; Ret (default l (platform_map !! l))
  end.

(** The dataset name before the lowercase option is applied. *)
Definition compose_dataset_name (database_name schema_name table_name : pyval)
    : pyval :=
  if py_truthy database_name && py_truthy schema_name then
    PStr (py_str database_name ++ "." ++ py_str schema_name ++ "."
          ++ py_str table_name)
  else if py_truthy schema_name then
    PStr (py_str schema_name ++ "." ++ py_str table_name)
  else table_name.

Definition _build_dataset_urn (self : DataHubSodaHandler)
    (data_source_name database_name schema_name table_name : pyval)
    (platform_instance : option string) : M (option string) :=
  platform ← lift (resolve_platform self data_source_name);
  let dataset_name := compose_dataset_name database_name schema_name table_name in
  dataset_name ←
    (if convert_urns_to_lowercase self
     then l ← lift (py_lower dataset_name); mret (PStr l)
     else mret dataset_name);
  try_except
    (urn ← lift (make_dataset_urn_with_platform_instance
                   platform dataset_name (default "" platform_instance)
                   (env self));
     mret (Some urn))
    (λ e,
       logger WARNING ("Failed to build dataset URN: " ++ exn_str e);;
       mret None).

(** ** [DataHubSodaHandler._build_assertion_info] *)

(** [if assertion_fields:] on an optional list. *)
Definition fields_truthy (assertion_fields : option (list string)) : bool :=
  match assertion_fields with
  | Some (_ :: _) => true
  | _ => false
  end.

Definition _build_assertion_info (check_type definition : pyval)
    (dataset_urn : string) (assertion_fields : option (list string))
    (check_name : pyval) : outcome AssertionInfo.t :=
  let scope := DatasetAssertionScope.DATASET_ROWS in
  let operator := AssertionStdOperator._NATIVE_ in
  let aggregation := AssertionStdAggregation._NATIVE_ in
  check_lower ← py_lower check_type;
  let '(scope, operator, aggregation) :=
    if str_in "null" check_lower || str_in "missing" check_lower then
      ((if fields_truthy assertion_fields
        then DatasetAssertionScope.DATASET_COLUMN
        else DatasetAssertionScope.DATASET_ROWS),
       AssertionStdOperator.NOT_NULL,
       AssertionStdAggregation.IDENTITY)
    else if str_in "unique" check_lower then
      ((if fields_truthy assertion_fields
        then DatasetAssertionScope.DATASET_COLUMN
        else DatasetAssertionScope.DATASET_ROWS),
       AssertionStdOperator._NATIVE_,
       AssertionStdAggregation.UNIQUE_COUNT)
    else if str_in "row_count" check_lower || str_in "count" check_lower then
      (DatasetAssertionScope.DATASET_ROWS,
       AssertionStdOperator._NATIVE_,
       AssertionStdAggregation.ROW_COUNT)
    else if str_in "schema" check_lower then
      (DatasetAssertionScope.DATASET_SCHEMA,
       AssertionStdOperator._NATIVE_,
       AssertionStdAggregation.COLUMNS)
    else if fields_truthy assertion_fields then
      (DatasetAssertionScope.DATASET_COLUMN,
       AssertionStdOperator._NATIVE_,
       AssertionStdAggregation._NATIVE_)
    else (scope, operator, aggregation) in
  let dataset_assertion_info :=
    {| DatasetAssertionInfo.dataset := dataset_urn;
       DatasetAssertionInfo.fields := assertion_fields;
       DatasetAssertionInfo.operator := operator;
       DatasetAssertionInfo.aggregation := aggregation;
       DatasetAssertionInfo.nativeType := check_type;
       DatasetAssertionInfo.nativeParameters := [("definition", definition)];
       DatasetAssertionInfo.scope := scope |} in
  Ret {| AssertionInfo.type := AssertionType.DATASET;
         AssertionInfo.datasetAssertion := dataset_assertion_info;
         AssertionInfo.customProperties :=
           [("check_name", check_name); ("soda_check_type", check_type)] |}.

(** ** [DataHubSodaHandler._convert_check_to_assertion] *)

(** The four local variables the metrics loop assigns. *)
Record metric_vars := MetricVars {
  row_count : option Z;
  missing_count : option Z;
  unexpected_count : option Z;
  actual_agg_value : option pyval
}.

Definition AGG_METRIC_IDS : list pyval :=
  [PStr "min"; PStr "max"; PStr "avg"; PStr "sum"; PStr "count"].

(** One iteration of [for metric in metrics]. *)
Definition metric_step (vars : metric_vars) (metric : pyval) : outcome metric_vars :=
  metric_id ← py_get metric "id" (PStr "");
  metric_value ← py_get metric "value" PNone;
  if py_eq metric_id (PStr "row_count") then
    n ← parse_int_or_default metric_value None;
    Ret (MetricVars n (missing_count vars) (unexpected_count vars)
           (actual_agg_value vars))
  else if py_eq metric_id (PStr "missing_count") then
    n ← parse_int_or_default metric_value None;
    Ret (MetricVars (row_count vars) n (unexpected_count vars)
           (actual_agg_value vars))
  else if py_eq metric_id (PStr "unexpected_count") then
    n ← parse_int_or_default metric_value None;
    Ret (MetricVars (row_count vars) (missing_count vars) n
           (actual_agg_value vars))
  else if py_in_list metric_id AGG_METRIC_IDS then
    if is_int_or_float metric_value then
      Ret (MetricVars (row_count vars) (missing_count vars)
             (unexpected_count vars) (Some metric_value))
    else Ret vars
  else Ret vars.

(** [check.items()]. *)
Definition py_items (v : pyval) : outcome pydict :=
  match v with
  | PDict d => Ret d
  | _ => raise_of AttributeError "object has no attribute 'items'"
  end.

(** The dictionary comprehension that fills [nativeResults]. *)
Definition native_results (check : pyval) : outcome (list (string * string)) :=
  items ← py_items check;
  map_outcome
    (λ kv, s ← convert_to_string (snd kv); Ret (fst kv, s))
    (filter
       (λ kv, negb (str_in_list (fst kv) ["name"; "type"; "definition"; "outcome"])
              && negb (is_none (snd kv)) = true)
       items).

(** [assertion_fields]: [None] unless the check names a column. *)
Definition build_assertion_fields (dataset_urn : string) (column_name : pyval)
    : outcome (option (list string)) :=
  if py_truthy column_name then
    f ← make_schema_field_urn dataset_urn column_name; Ret (Some [f])
  else Ret None.

(** The dictionary the assertion URN is the hash of. *)
Definition assertion_key (check_type definition : pyval) (dataset_urn : string)
    (assertion_fields : option (list string)) (check_name : pyval) : pyval :=
  PDict
    [ ("platform", PStr SODA_PLATFORM_NAME);
      ("nativeType", check_type);
      ("nativeParameters", PDict [("definition", definition)]);
      ("dataset", PStr dataset_urn);
      ("fields",
       match assertion_fields with
       | Some fs => PList (map PStr fs)
       | None => PNone
       end);
      ("checkName", check_name) ].

(** The body of the [try] block. *)
Definition convert_check_body (self : DataHubSodaHandler) (check : pyval)
    (dataset_urn : string) (scan_id : pyval) (scan_timestamp : datetime)
    : M (option AssertionInfo.t * option AssertionRunEvent.t) :=
  check_name ← lift (py_get check "name" (PStr "unknown_check"));
  check_type ← lift (py_get check "type" (PStr "unknown"));
  definition ← lift (py_get check "definition" (PStr ""));
  outcome ← lift (py_get check "outcome" (PStr "unknown"));
  metrics ← lift (py_get check "metrics" (PList []));
  column_name ← lift (py_get check "column" PNone);
  outcome_lower ← lift (py_lower outcome);
  let success := str_in_list outcome_lower ["pass"; "passed"; "success"] in
  let result_type :=
    if success then AssertionResultType.SUCCESS
    else AssertionResultType.FAILURE in
  metric_list ← lift (py_iter metrics);
  vars ← lift (fold_outcome metric_step metric_list
                 (MetricVars None None None None));
  assertion_fields ← lift (build_assertion_fields dataset_urn column_name);
  key ← lift (pre_json_transform
                (assertion_key check_type definition dataset_urn
                   assertion_fields check_name));
  guid ← lift (datahub_guid key);
  let assertion_urn := make_assertion_urn guid in
  assertion_info ← lift (_build_assertion_info check_type definition dataset_urn
                           assertion_fields check_name);
  let batch_spec :=
    {| BatchSpec.nativeBatchId := scan_id;
       BatchSpec.query := if py_truthy definition then definition else PStr "";
       BatchSpec.customProperties :=
         [ ("check_name", check_name); ("check_type", check_type);
           ("soda_scan_id", scan_id) ] |} in
  now_millis ← read_clock clock_millis;
  native ← lift (native_results check);
  let assertion_result :=
    {| AssertionRunEvent.timestampMillis := now_millis;
       AssertionRunEvent.assertionUrn := assertion_urn;
       AssertionRunEvent.asserteeUrn := dataset_urn;
       AssertionRunEvent.runId := strftime scan_timestamp;
       AssertionRunEvent.result :=
         {| AssertionResult.type := result_type;
            AssertionResult.rowCount := row_count vars;
            AssertionResult.missingCount := missing_count vars;
            AssertionResult.unexpectedCount := unexpected_count vars;
            AssertionResult.actualAggValue := actual_agg_value vars;
            AssertionResult.nativeResults := native |};
       AssertionRunEvent.batchSpec := batch_spec;
       AssertionRunEvent.status := AssertionRunStatus.COMPLETE |} in
  mret (Some assertion_info, Some assertion_result).

Definition _convert_check_to_assertion (self : DataHubSodaHandler)
    (check : pyval) (dataset_urn : string) (scan_id : pyval)
    (scan_timestamp : datetime)
    : M (option AssertionInfo.t * option AssertionRunEvent.t) :=
  try_except
    (convert_check_body self check dataset_urn scan_id scan_timestamp)
    (λ e,
       logger WARNING ("Failed to convert check to assertion: " ++ exn_str e);;
       mret (None, None)).

(** ** [DataHubSodaHandler.process_scan_result] *)

(** [self.platform_instance_map.get(key, None)]: the key must be
    hashable; the map has string keys only. *)
Definition instance_lookup (self : DataHubSodaHandler) (key : pyval)
    : outcome (option string) :=
  match key with
  | PStr s => Ret (platform_instance_map self !! s)
  | PList _ | PDict _ => raise_of TypeError "unhashable type"
  | _ => Ret None
  end.

(** The condition of the comprehension that selects a table's checks. *)
Definition check_matches (table_name schema_name c : pyval) : outcome bool :=
  t ← py_get c "table" PNone;
  if py_eq t table_name then
    s ← py_get c "schema" PNone; Ret (py_eq s schema_name)
  else Ret false.

(** The three emits made for one converted check. *)
Definition emit_assertion (self : DataHubSodaHandler)
    (assertion_info : AssertionInfo.t) (assertion_result : AssertionRunEvent.t)
    : M unit :=
  let assertion_info_mcp :=
    {| MetadataChangeProposalWrapper.entityUrn :=
         AssertionRunEvent.assertionUrn assertion_result;
       MetadataChangeProposalWrapper.aspect_of :=
         AssertionInfoAspect assertion_info |} in
  emit_mcp self assertion_info_mcp;;
  let assertion_platform_mcp :=
    {| MetadataChangeProposalWrapper.entityUrn :=
         AssertionRunEvent.assertionUrn assertion_result;
       MetadataChangeProposalWrapper.aspect_of :=
         DataPlatformInstanceAspect
           {| DataPlatformInstance.platform :=
                make_data_platform_urn SODA_PLATFORM_NAME |} |} in
  emit_mcp self assertion_platform_mcp;;
  let assertion_result_mcp :=
    {| MetadataChangeProposalWrapper.entityUrn :=
         AssertionRunEvent.assertionUrn assertion_result;
       MetadataChangeProposalWrapper.aspect_of :=
         AssertionRunEventAspect assertion_result |} in
  emit_mcp self assertion_result_mcp.

(** The body of [for check in table_checks]. *)
Definition process_check (self : DataHubSodaHandler) (dataset_urn : string)
    (scan_id : pyval) (scan_timestamp : datetime)
    (assertions_sent : nat) (check : pyval) : M nat :=
  converted ← _convert_check_to_assertion self check dataset_urn scan_id
                scan_timestamp;
  match converted with
  | (Some assertion_info, Some assertion_result) =>
      emit_assertion self assertion_info assertion_result;;
      mret (assertions_sent + 1)%nat
  | _ => mret assertions_sent
  end.

(** The body of [for table_info in tables]. *)
Definition process_table (self : DataHubSodaHandler)
    (data_source_name checks scan_id : pyval) (scan_timestamp : datetime)
    (assertions_sent : nat) (table_info : pyval) : M nat :=
  table_name ← lift (py_get table_info "tableName" (PStr ""));
  schema_name ← lift (py_get table_info "schemaName" (PStr ""));
  database_name ← lift (py_get table_info "databaseName" (PStr ""));
  platform_instance ← lift (instance_lookup self data_source_name);
  dataset_urn ← _build_dataset_urn self data_source_name database_name
                  schema_name table_name platform_instance;
  match dataset_urn with
  | Some urn =>
      if String.eqb urn "" then
        logger WARNING ("Could not build dataset URN for "
                        ++ py_str schema_name ++ "." ++ py_str table_name);;
        mret assertions_sent
      else
        logger INFO ("Processing dataset: " ++ urn);;
        all_checks ← lift (py_iter checks);
        table_checks ← lift (filter_outcome
                               (check_matches table_name schema_name)
                               all_checks);
        for_each table_checks assertions_sent
          (process_check self urn scan_id scan_timestamp)
  | None =>
      logger WARNING ("Could not build dataset URN for "
                      ++ py_str schema_name ++ "." ++ py_str table_name);;
      mret assertions_sent
  end.

(** The body of the [try] block. *)
Definition process_scan_body (self : DataHubSodaHandler)
    (scan_result : pydict) (scan_timestamp : datetime) : M pydict :=
  DatahubRestEmitter self;;
  now_seconds ← read_clock clock_seconds;
  let scan_id :=
    dict_get scan_result "scanId"
      (PStr ("scan_" ++ py_str (PInt now_seconds))) in
  let data_source_name :=
    dict_get scan_result "dataSourceName" (PStr "unknown") in
  let checks := dict_get scan_result "checks" (PList []) in
  let tables := dict_get scan_result "tables" (PList []) in
  n_checks ← lift (py_len checks);
  logger INFO ("Processing Soda scan " ++ py_str scan_id ++ " with "
               ++ py_str (PInt (Z.of_nat n_checks)) ++ " checks");;
  table_list ← lift (py_iter tables);
  assertions_sent ←
    for_each table_list 0%nat
      (process_table self data_source_name checks scan_id scan_timestamp);
  logger INFO ("Successfully sent " ++ py_str (PInt (Z.of_nat assertions_sent))
               ++ " assertions to DataHub");;
  mret [ ("status", PStr "success");
         ("assertions_sent", PInt (Z.of_nat assertions_sent));
         ("scan_id", scan_id) ].

Definition process_scan_result (self : DataHubSodaHandler)
    (scan_result : pydict) (scan_timestamp : option datetime) : M pydict :=
  scan_timestamp ←
    match scan_timestamp with
    | None => read_clock clock_datetime
    | Some t => mret t
    end;
  try_except
    (process_scan_body self scan_result scan_timestamp)
    (λ e,
       let error_msg := "Failed to process Soda scan result: " ++ exn_str e in
       logger ERROR error_msg;;
       if graceful_exceptions self
       then mret [("status", PStr "error"); ("error", PStr error_msg)]
       else throw e).

(** ** [DataHubSodaHandler.validate_governance_policies] *)

(** [results["details"].append(entry)]. *)
Definition details_append (results : pydict) (entry : pyval) : pydict :=
  map (λ kv,
         if String.eqb (fst kv) "details" then
           match snd kv with
           | PList l => (fst kv, PList (l ++ [entry]))
           | _ => kv
           end
         else kv)
      results.

Definition validate_governance_policies (self : DataHubSodaHandler)
    (dataset_urn : string) (policies : list pydict)
    (scan_result : option pydict) : M pydict :=
  let validation_results :=
    [ ("dataset_urn", PStr dataset_urn);
      ("policies_validated", PInt (Z.of_nat (length policies)));
      ("compliant", PInt 0);
      ("non_compliant", PInt 0);
      ("details", PList []) ] in
  logger INFO ("Validating " ++ py_str (PInt (Z.of_nat (length policies)))
               ++ " governance policies for " ++ dataset_urn);;
  for_each policies validation_results
    (λ validation_results policy,
       let policy_name := dict_get policy "name" (PStr "unknown") in
       let policy_type := dict_get policy "type" (PStr "unknown") in
       mret (details_append validation_results
               (PDict [ ("policy", policy_name);
                        ("type", policy_type);
                        ("status", PStr "validated") ]))).

End Handler.

(** ** An implementation of the interface

    Text is ASCII, so that [lower] folds [A]..[Z]; URNs are laid out
    the way the catalog writes them; the hash is
    replaced by a self-delimiting encoding of the key's components, and
    the emitter accepts every call.  The handler is run on examples
    with it. *)

Module Demo.

(** [frame s rest] writes [s] in front of [rest] so that the two can be
    told apart again: a [1] before each character, a [0] at the end. *)
Fixpoint frame (s rest : string) : string :=
  match s with
  | EmptyString => String "0" rest
  | String c s' => String "1" (String c (frame s' rest))
  end.

Fixpoint frame_all (l : list string) : string :=
  match l with
  | [] => "0"
  | s :: l' => String "1" (frame s (frame_all l'))
  end.

Definition text (v : option pyval) : string :=
  match v with
  | Some (PStr s) => s
  | _ => ""
  end.

Definition fields_code (v : option pyval) : string :=
  match v with
  | Some (PList l) => String "S" (frame_all (map (λ x, text (Some x)) l))
  | _ => "N"
  end.

Definition guid (key : pyval) : outcome string :=
  match key with
  | PDict d =>
      let definition :=
        match assoc_lookup "nativeParameters" d with
        | Some (PDict p) => assoc_lookup "definition" p
        | _ => None
        end in
      Ret (frame (text (assoc_lookup "nativeType" d))
             (frame (text definition)
                (frame (text (assoc_lookup "dataset" d))
                   (frame (text (assoc_lookup "checkName" d))
                      (fields_code (assoc_lookup "fields" d))))))
  | _ => raise_of TypeError "key must be a dict"
  end.

(** Entries whose value is [None] are dropped, at every depth. *)
Fixpoint drop_none (v : pyval) : pyval :=
  match v with
  | PList l => PList (map drop_none l)
  | PDict d =>
      PDict
        ((fix go (d : list (string * pyval)) : list (string * pyval) :=
            match d with
            | [] => []
            | (k, x) :: d' =>
                if is_none x then go d' else (k, drop_none x) :: go d'
            end) d)
  | _ => v
  end.

Definition digit_of (c : ascii) : option Z :=
  let n := N_of_ascii c in
  if ((48 <=? n) && (n <=? 57))%N then Some (Z.of_N n - 48) else None.

Fixpoint digits (s : string) (acc : Z) : option Z :=
  match s with
  | EmptyString => Some acc
  | String c s' =>
      match digit_of c with
      | Some d => digits s' (10 * acc + d)
      | None => None
      end
  end.

Definition parse_int (s : string) : option Z :=
  match s with
  | EmptyString => None
  | _ => digits s 0
  end.

Definition render (v : pyval) : string :=
  match v with
  | PNone => "None"
  | PBool true => "True"
  | PBool false => "False"
  | PInt z => pretty z
  | PFloat _ => "<float>"
  | PStr s => s
  | PList _ => "<list>"
  | PDict _ => "<dict>"
  end.

Definition dataset_urn (platform : string) (name : pyval)
    (platform_instance env : string) : outcome string :=
  let name := match name with PStr s => s | _ => render name end in
  let name :=
    if String.eqb platform_instance "" then name
    else platform_instance ++ "." ++ name in
  Ret ("urn:li:dataset:(urn:li:dataPlatform:" ++ platform ++ "," ++ name
       ++ "," ++ env ++ ")").

Definition schema_field_urn (parent_urn : string) (field_path : pyval)
    : outcome string :=
  let field := match field_path with PStr s => s | _ => render field_path end in
  Ret ("urn:li:schemaField:(" ++ parent_urn ++ "," ++ field ++ ")").

#[export] Instance sdk : Sdk := {|
  lower := lower_ascii_string;
  lower_ascii_text := λ s _, eq_refl;
  str_of := render;
  int_of_str := parse_int;
  json_dumps := λ v, Ret (render v);
  strftime := λ t, "@" ++ pretty t;
  make_dataset_urn_with_platform_instance := dataset_urn;
  make_schema_field_urn := schema_field_urn;
  make_data_platform_urn := λ p, "urn:li:dataPlatform:" ++ p;
  make_assertion_urn := λ g, "urn:li:assertion:" ++ g;
  pre_json_transform := λ v, Ret (drop_none v);
  datahub_guid := guid;
  clock_seconds := λ n, 1700000000 + Z.of_nat n;
  clock_millis := λ n, 1700000000000 + Z.of_nat n;
  clock_datetime := λ n, 1700000000 + Z.of_nat n;
  DatahubRestEmitter_raises := λ _, None;
  emit_mcp_raises := λ _ _ _, None
|}.

(** A URN builder that rejects an empty dataset name. *)
Definition strict_dataset_urn (platform : string) (name : pyval)
    (platform_instance env : string) : outcome string :=
  match name with
  | PStr "" => raise_of ValueError "empty dataset name"
  | _ => dataset_urn platform name platform_instance env
  end.

(** The same catalog with that builder, behind a server that accepts
    four calls and fails from the fifth on. *)
Definition flaky : Sdk := {|
  lower := lower_ascii_string;
  lower_ascii_text := λ s _, eq_refl;
  str_of := render;
  int_of_str := parse_int;
  json_dumps := λ v, Ret (render v);
  strftime := λ t, "@" ++ pretty t;
  make_dataset_urn_with_platform_instance := strict_dataset_urn;
  make_schema_field_urn := schema_field_urn;
  make_data_platform_urn := λ p, "urn:li:dataPlatform:" ++ p;
  make_assertion_urn := λ g, "urn:li:assertion:" ++ g;
  pre_json_transform := λ v, Ret (drop_none v);
  datahub_guid := guid;
  clock_seconds := λ n, 1700000000 + Z.of_nat n;
  clock_millis := λ n, 1700000000000 + Z.of_nat n;
  clock_datetime := λ n, 1700000000 + Z.of_nat n;
  DatahubRestEmitter_raises := λ _, None;
  emit_mcp_raises := λ _ calls _,
    if (4 <=? length calls)%nat
    then Some (Exn OtherException "connection refused") else None
|}.

End Demo.

(** * Properties *)

(** ** Vocabulary of the statements *)

Section Vocabulary.

Context `{Sdk}.

(** The world after a conversion that succeeded: one clock reading. *)
Definition ticked (w : world) : world :=
  World (emit_calls w) (log w) (S (ticks w)).

(** What a successful conversion of the check [PDict d] computed. *)
Record conversion (d : pydict) (dataset_urn : string) (scan_id : pyval)
    (scan_timestamp : datetime) (w : world)
    (info : AssertionInfo.t) (ev : AssertionRunEvent.t) : Prop := {
  conv_outcome : ∃ s, dict_get d "outcome" (PStr "unknown") = PStr s ∧
    AssertionResult.type (AssertionRunEvent.result ev) =
      (if str_in_list (lower s) ["pass"; "passed"; "success"]
       then AssertionResultType.SUCCESS else AssertionResultType.FAILURE);
  conv_metrics : ∃ metric_list vars,
    py_iter (dict_get d "metrics" (PList [])) = Ret metric_list ∧
    fold_outcome metric_step metric_list (MetricVars None None None None)
      = Ret vars ∧
    AssertionResult.rowCount (AssertionRunEvent.result ev) = row_count vars ∧
    AssertionResult.missingCount (AssertionRunEvent.result ev)
      = missing_count vars ∧
    AssertionResult.unexpectedCount (AssertionRunEvent.result ev)
      = unexpected_count vars ∧
    AssertionResult.actualAggValue (AssertionRunEvent.result ev)
      = actual_agg_value vars;
  conv_urn : ∃ fields key guid,
    build_assertion_fields dataset_urn (dict_get d "column" PNone)
      = Ret fields ∧
    pre_json_transform
      (assertion_key (dict_get d "type" (PStr "unknown"))
         (dict_get d "definition" (PStr "")) dataset_urn fields
         (dict_get d "name" (PStr "unknown_check"))) = Ret key ∧
    datahub_guid key = Ret guid ∧
    AssertionRunEvent.assertionUrn ev = make_assertion_urn guid ∧
    _build_assertion_info (dict_get d "type" (PStr "unknown"))
      (dict_get d "definition" (PStr "")) dataset_urn fields
      (dict_get d "name" (PStr "unknown_check")) = Ret info;
  conv_run :
    AssertionRunEvent.timestampMillis ev = clock_millis (ticks w) ∧
    AssertionRunEvent.asserteeUrn ev = dataset_urn ∧
    AssertionRunEvent.runId ev = strftime scan_timestamp ∧
    AssertionRunEvent.status ev = AssertionRunStatus.COMPLETE ∧
    BatchSpec.nativeBatchId (AssertionRunEvent.batchSpec ev) = scan_id ∧
    native_results (PDict d)
      = Ret (AssertionResult.nativeResults (AssertionRunEvent.result ev))
}.

(** [a] and [b] are the same text up to the case of their letters. *)
Definition caseless_eq (a b : string) : Prop := lower a = lower b.

Definition SUCCESS_OUTCOMES : list string := ["pass"; "passed"; "success"].

(** The value a metric contributes to [actual_agg_value]: that of a
    metric whose id is one of [min], [max], [avg], [sum], [count] and
    whose value is an [int] or a [float]. *)
Definition agg_metric_value (metric : pyval) : option pyval :=
  match metric with
  | PDict m =>
      let value := dict_get m "value" PNone in
      if py_in_list (dict_get m "id" (PStr "")) AGG_METRIC_IDS
         && is_int_or_float value
      then Some value else None
  | _ => None
  end.

(** The classification of a check type, as the specification words
    it: an ordered list of rules, each a test on the lower-cased type
    with the scope, operator and aggregation it assigns; the first rule
    whose test holds wins.  [column_present] says whether the check has
    a column. *)
Definition classification : Type :=
  DatasetAssertionScope.t * AssertionStdOperator.t * AssertionStdAggregation.t.

Definition column_or_rows (column_present : bool) : DatasetAssertionScope.t :=
  if column_present then DatasetAssertionScope.DATASET_COLUMN
  else DatasetAssertionScope.DATASET_ROWS.

Definition classification_rules (column_present : bool)
    : list ((string → bool) * classification) :=
  [ (λ t, str_in "null" t || str_in "missing" t,
     (column_or_rows column_present, AssertionStdOperator.NOT_NULL,
      AssertionStdAggregation.IDENTITY));
    (λ t, str_in "unique" t,
     (column_or_rows column_present, AssertionStdOperator._NATIVE_,
      AssertionStdAggregation.UNIQUE_COUNT));
    (λ t, str_in "row_count" t || str_in "count" t,
     (DatasetAssertionScope.DATASET_ROWS, AssertionStdOperator._NATIVE_,
      AssertionStdAggregation.ROW_COUNT));
    (λ t, str_in "schema" t,
     (DatasetAssertionScope.DATASET_SCHEMA, AssertionStdOperator._NATIVE_,
      AssertionStdAggregation.COLUMNS));
    (λ _, column_present,
     (DatasetAssertionScope.DATASET_COLUMN, AssertionStdOperator._NATIVE_,
      AssertionStdAggregation._NATIVE_));
    (λ _, true,
     (DatasetAssertionScope.DATASET_ROWS, AssertionStdOperator._NATIVE_,
      AssertionStdAggregation._NATIVE_)) ].

Fixpoint first_match (rules : list ((string → bool) * classification))
    (t : string) : option classification :=
  match rules with
  | [] => None
  | (test, c) :: rest => if test t then Some c else first_match rest t
  end.

(** The classification an [AssertionInfo] carries. *)
Definition classification_of (info : AssertionInfo.t) : classification :=
  let a := AssertionInfo.datasetAssertion info in
  (DatasetAssertionInfo.scope a, DatasetAssertionInfo.operator a,
   DatasetAssertionInfo.aggregation a).

(** The dataset name as the specification composes it from the three
    name parts. *)
Definition dataset_name_spec (database schema table : string) : string :=
  if negb (String.eqb database "") && negb (String.eqb schema "") then
    database ++ "." ++ schema ++ "." ++ table
  else if negb (String.eqb schema "") then schema ++ "." ++ table
  else table.

(** The same handler with the lowercase option set to [flag]. *)
Definition with_lowercase (flag : bool) (self : DataHubSodaHandler)
    : DataHubSodaHandler :=
  {| server_url := server_url self;
     env := env self;
     platform_alias := platform_alias self;
     platform_instance_map := platform_instance_map self;
     graceful_exceptions := graceful_exceptions self;
     token := token self;
     timeout_sec := timeout_sec self;
     retry_status_codes := retry_status_codes self;
     retry_max_times := retry_max_times self;
     extra_headers := extra_headers self;
     convert_urns_to_lowercase := flag |}.

(** A world with one more log record. *)
Definition logged (lvl : log_level) (msg : string) (w : world) : world :=
  World (emit_calls w) (log w ++ [(lvl, msg)]) (ticks w).

(** The detail entry recorded for one policy. *)
Definition policy_entry (policy : pydict) : pyval :=
  PDict [ ("policy", dict_get policy "name" (PStr "unknown"));
          ("type", dict_get policy "type" (PStr "unknown"));
          ("status", PStr "validated") ].

(** A detail entry marked as validated. *)
Definition is_validated (entry : pyval) : Prop :=
  ∃ items, entry = PDict items ∧
           assoc_lookup "status" items = Some (PStr "validated").

(** The scan timestamp [process_scan_result] works with, and the world in
    which its [try] block starts: an absent timestamp is read off the
    clock. *)
Definition scan_start (scan_timestamp : option datetime) (w : world)
    : datetime * world :=
  match scan_timestamp with
  | None => (clock_datetime (ticks w), ticked w)
  | Some t => (t, w)
  end.

Definition scan_error_message (e : exn) : string :=
  "Failed to process Soda scan result: " ++ exn_str e.

(** The three facts emitted for a converted check, in order. *)
Definition assertion_mcps (info : AssertionInfo.t) (ev : AssertionRunEvent.t)
    : list MCP :=
  [ MetadataChangeProposalWrapper.mk (AssertionRunEvent.assertionUrn ev)
      (AssertionInfoAspect info);
    MetadataChangeProposalWrapper.mk (AssertionRunEvent.assertionUrn ev)
      (DataPlatformInstanceAspect
         (DataPlatformInstance.mk (make_data_platform_urn "soda")));
    MetadataChangeProposalWrapper.mk (AssertionRunEvent.assertionUrn ev)
      (AssertionRunEventAspect ev) ].

(** A world in which [calls] more were made on the emitter. *)
Definition emitted (calls : list MCP) (w : world) : world :=
  World (emit_calls w ++ calls) (log w) (ticks w).



(** The join of a check with a table: the check's [table] and [schema]
    equal the table's names. *)
Definition joins (table_name schema_name : pyval) (c : pydict) : bool :=
  py_eq (dict_get c "table" PNone) table_name
  && py_eq (dict_get c "schema" PNone) schema_name.

Definition joins_check (table_name schema_name c : pyval) : bool :=
  match c with
  | PDict d => joins table_name schema_name d
  | _ => false
  end.

Definition is_dict (v : pyval) : Prop := ∃ d, v = PDict d.

(** Worlds that differ in their logs at most. *)
Definition same_effects (w1 w2 : world) : Prop :=
  emit_calls w1 = emit_calls w2 ∧ ticks w1 = ticks w2.

(** Runs with the same result and the same effects. *)
Definition agree {A} (r1 r2 : outcome A * world) : Prop :=
  fst r1 = fst r2 ∧ same_effects (snd r1) (snd r2).

(** A computation that never looks at the log. *)
Definition log_blind {A} (m : M A) : Prop :=
  ∀ w1 w2, same_effects w1 w2 → agree (m w1) (m w2).

(** The table's names, with the defaults the handler uses. *)
Definition table_name_of (t : pydict) : pyval := dict_get t "tableName" (PStr "").
Definition schema_name_of (t : pydict) : pyval := dict_get t "schemaName" (PStr "").

(** The part of [process_scan_result] that comes after the first log
    record: the loop over the tables and the summary. *)
Definition process_tables (self : DataHubSodaHandler) (data_source_name checks tables scan_id : pyval)
    (scan_timestamp : datetime) : M pydict :=
  table_list ← lift (py_iter tables);
  assertions_sent ←
    for_each table_list 0%nat
      (process_table self data_source_name checks scan_id scan_timestamp);
  logger INFO ("Successfully sent " ++ py_str (PInt (Z.of_nat assertions_sent))
               ++ " assertions to DataHub");;
  mret [ ("status", PStr "success");
         ("assertions_sent", PInt (Z.of_nat assertions_sent));
         ("scan_id", scan_id) ].

(** The value a metric assigns to the counter named [id]. *)
Definition counter_metric_value (id : string) (metric : pyval) : option pyval :=
  match metric with
  | PDict m =>
      if py_eq (dict_get m "id" (PStr "")) (PStr id)
      then Some (dict_get m "value" PNone) else None
  | _ => None
  end.

(** [count] is what the last metric named [id] of the list parses to;
    [None] when no metric has that name. *)
Definition counter_is (id : string) (metric_list : list pyval)
    (count : option Z) : Prop :=
  match last (omap (counter_metric_value id) metric_list) with
  | Some value => parse_int_or_default value None = Ret count
  | None => count = None
  end.

(** The keys of a check that are not copied into [nativeResults]. *)
Definition RESERVED_KEYS : list string :=
  ["name"; "type"; "definition"; "outcome"].

(** A counter metric whose value is a float infinity. *)
Definition infinite_counter (metric : pyval) : Prop :=
  ∃ id negative,
    id ∈ ["row_count"; "missing_count"; "unexpected_count"] ∧
    counter_metric_value id metric = Some (PFloat (FInf negative)).

(** A computation that makes no call on the emitter. *)
Definition quiet {A} (m : M A) : Prop :=
  ∀ w r w', m w = (r, w') → emit_calls w' = emit_calls w.

(** The calls made for a list of converted checks. *)
Definition mcps_of (pairs : list (AssertionInfo.t * AssertionRunEvent.t))
    : list MCP :=
  flat_map (λ p, assertion_mcps (fst p) (snd p)) pairs.

(** A converted check that belongs to the scan [scan_id] run at
    [scan_timestamp]. *)
Definition of_scan (scan_id : pyval) (scan_timestamp : datetime)
    (p : AssertionInfo.t * AssertionRunEvent.t) : Prop :=
  AssertionRunEvent.runId (snd p) = strftime scan_timestamp ∧
  BatchSpec.nativeBatchId (AssertionRunEvent.batchSpec (snd p)) = scan_id ∧
  AssertionRunEvent.status (snd p) = AssertionRunStatus.COMPLETE ∧
  DatasetAssertionInfo.dataset (AssertionInfo.datasetAssertion (fst p))
    = AssertionRunEvent.asserteeUrn (snd p).

(** Every call of [new], made after the calls [base], returned. *)
Definition all_returned (self : DataHubSodaHandler) (base new : list MCP)
    : Prop :=
  ∀ pre mcp post,
    new = (pre ++ mcp :: post)%list →
    emit_mcp_raises self (base ++ pre) mcp = None.

(** A converted check of that scan attached to the dataset [urn]. *)
Definition about (scan_id : pyval) (scan_timestamp : datetime) (urn : string)
    (p : AssertionInfo.t * AssertionRunEvent.t) : Prop :=
  of_scan scan_id scan_timestamp p ∧
  AssertionRunEvent.asserteeUrn (snd p) = urn.

(** The URN the handler builds for the table [t] of the data source
    [data_source_name], when it builds one. *)
Definition urn_of_table (self : DataHubSodaHandler) (data_source_name : pyval)
    (t : pydict) : option string :=
  match instance_lookup self data_source_name with
  | Ret platform_instance =>
      match fst (_build_dataset_urn self data_source_name
                   (dict_get t "databaseName" (PStr "")) (schema_name_of t)
                   (table_name_of t) platform_instance (World [] [] 0)) with
      | Ret (Some urn) => Some urn
      | _ => None
      end
  | Raise _ => None
  end.

(** A converted check of that scan attached to the table [table_info]. *)
Definition about_table (self : DataHubSodaHandler) (scan_id : pyval)
    (scan_timestamp : datetime) (data_source_name table_info : pyval)
    (p : AssertionInfo.t * AssertionRunEvent.t) : Prop :=
  of_scan scan_id scan_timestamp p ∧
  ∃ t, table_info = PDict t ∧
       urn_of_table self data_source_name t
         = Some (AssertionRunEvent.asserteeUrn (snd p)).

(** A converted check of that scan attached to one of the [tables]. *)
Definition about_tables (self : DataHubSodaHandler) (scan_id : pyval)
    (scan_timestamp : datetime) (data_source_name : pyval)
    (tables : list pyval) (p : AssertionInfo.t * AssertionRunEvent.t) : Prop :=
  of_scan scan_id scan_timestamp p ∧
  ∃ t, PDict t ∈ tables ∧
       urn_of_table self data_source_name t
         = Some (AssertionRunEvent.asserteeUrn (snd p)).

(** A computation that returns in every world. *)
Definition returns {A} (m : M A) : Prop :=
  ∀ w, ∃ a w', m w = (Ret a, w').

(** A table given as a dictionary whose name is a string. *)
Definition named_table (table_info : pyval) : Prop :=
  ∃ t name, table_info = PDict t ∧ table_name_of t = PStr name.

(** The tables of a scan result, as the loop over them sees them. *)
Definition scan_tables (scan_result : pydict) : list pyval :=
  match py_iter (dict_get scan_result "tables" (PList [])) with
  | Ret table_list => table_list
  | Raise _ => []
  end.

(** The identifier of a scan processed from the world [w]: the one the
    scan result carries, or one made from the clock. *)
Definition scan_id_at (scan_result : pydict) (w : world) : pyval :=
  dict_get scan_result "scanId"
    (PStr ("scan_" ++ py_str (PInt (clock_seconds (ticks w))))).

(** A converted check of the scan [scan_result], processed from [w] with
    the timestamp [scan_timestamp], attached to one of its tables. *)
Definition of_scan_result (self : DataHubSodaHandler) (scan_result : pydict)
    (scan_timestamp : datetime) (w : world)
    : AssertionInfo.t * AssertionRunEvent.t → Prop :=
  about_tables self (scan_id_at scan_result w) scan_timestamp
    (dict_get scan_result "dataSourceName" (PStr "unknown"))
    (scan_tables scan_result).

(** How the calls after [base] were cut short by the exception [e]:
    either no call was under way, or a prefix [partial] of the three
    calls of one converted check was made, whose last call raised [e]
    while those before it returned. *)
Definition interrupted (self : DataHubSodaHandler)
    (Q : AssertionInfo.t * AssertionRunEvent.t → Prop) (base : list MCP)
    (e : exn) (partial : list MCP) : Prop :=
  partial = [] ∨
  ∃ p pre mcp,
    Q p ∧
    partial = (pre ++ [mcp])%list ∧
    partial `prefix_of` assertion_mcps (fst p) (snd p) ∧
    all_returned self base pre ∧
    emit_mcp_raises self (base ++ pre) mcp = Some e.

(** What a run that counts sent assertions did to the emitter, starting
    from the count [n] in the world [w]: the calls of whole converted
    checks, each satisfying [Q], and, when an exception ended the run,
    of one more that was cut short. *)
Definition sends (self : DataHubSodaHandler)
    (Q : AssertionInfo.t * AssertionRunEvent.t → Prop) (n : nat) (w : world)
    (run : outcome nat * world) : Prop :=
  match fst run with
  | Ret n' =>
      ∃ pairs,
        n' = (n + length pairs)%nat ∧
        emit_calls (snd run) = (emit_calls w ++ mcps_of pairs)%list ∧
        Forall Q pairs ∧
        all_returned self (emit_calls w) (mcps_of pairs)
  | Raise e =>
      ∃ pairs partial,
        emit_calls (snd run)
          = (emit_calls w ++ mcps_of pairs ++ partial)%list ∧
        Forall Q pairs ∧
        all_returned self (emit_calls w) (mcps_of pairs) ∧
        interrupted self Q (emit_calls w ++ mcps_of pairs) e partial
  end.

End Vocabulary.

(** ** Inputs of the examples *)

Module Examples.

Definition handler : DataHubSodaHandler :=
  __init__ "http://localhost:8080" "TEST" None None true None None None None
    None false.

Definition strict_handler : DataHubSodaHandler :=
  __init__ "http://localhost:8080" "TEST" None None false None None None None
    None false.

Definition fresh : world := World [] [] 0.

Definition users_urn : string :=
  "urn:li:dataset:(urn:li:dataPlatform:postgres,mydb.public.users,TEST)".

Definition users_id_not_null : pyval :=
  PDict
    [ ("name", PStr "users_id_not_null"); ("type", PStr "missing_count");
      ("definition", PStr "SELECT COUNT(*) FROM users WHERE id IS NULL");
      ("outcome", PStr "pass"); ("table", PStr "users");
      ("schema", PStr "public"); ("column", PStr "id");
      ("metrics",
       PList [ PDict [("id", PStr "row_count"); ("value", PInt 1000)];
               PDict [("id", PStr "missing_count"); ("value", PInt 0)] ]) ].

Definition users_email_unique : pyval :=
  PDict
    [ ("name", PStr "users_email_unique"); ("type", PStr "duplicate_count");
      ("definition", PStr "SELECT COUNT(*) FROM dup");
      ("outcome", PStr "fail"); ("table", PStr "users");
      ("schema", PStr "public"); ("column", PStr "email");
      ("metrics",
       PList [ PDict [("id", PStr "row_count"); ("value", PInt 1000)];
               PDict [("id", PStr "unexpected_count"); ("value", PInt 5)] ]) ].

(** A check that reports two aggregation metrics. *)
Definition price_range : pyval :=
  PDict
    [ ("name", PStr "price_range"); ("type", PStr "range");
      ("definition", PStr "min(price) >= 0"); ("outcome", PStr "PASSED");
      ("table", PStr "orders"); ("schema", PStr "public");
      ("column", PStr "price");
      ("metrics",
       PList [ PDict [("id", PStr "min"); ("value", PInt 1)];
               PDict [("id", PStr "max"); ("value", PInt 2)] ]) ].

(** A type that names both uniqueness and nulls. *)
Definition email_unique_not_null : pyval :=
  PDict
    [ ("name", PStr "email_unique_not_null"); ("type", PStr "unique_not_null");
      ("definition", PStr "email is unique and not null");
      ("outcome", PStr "pass"); ("table", PStr "users");
      ("schema", PStr "public"); ("column", PStr "email") ].

(** A uniqueness check whose column is the empty string. *)
Definition unique_empty_column : pyval :=
  PDict
    [ ("name", PStr "rows_unique"); ("type", PStr "unique");
      ("definition", PStr "rows are unique");
      ("outcome", PStr "pass"); ("table", PStr "users");
      ("schema", PStr "public"); ("column", PStr "") ].

(** A uniqueness check on a column. *)
Definition email_unique_items : pydict :=
  [ ("name", PStr "email_unique"); ("type", PStr "Unique_Values");
    ("definition", PStr "email is unique");
    ("outcome", PStr "pass"); ("table", PStr "users");
    ("schema", PStr "public"); ("column", PStr "email") ].

Definition email_unique : pyval := PDict email_unique_items.

Definition sample_scan_result : pydict :=
  [ ("scanId", PStr "test_scan_123"); ("dataSourceName", PStr "postgres");
    ("tables",
     PList [ PDict [ ("tableName", PStr "users"); ("schemaName", PStr "public");
                     ("databaseName", PStr "mydb") ] ]);
    ("checks", PList [users_id_not_null; users_email_unique]) ].


(** A check on the table [Users], which the scan does not list under
    that spelling. *)
Definition capital_users_check : pydict :=
  [ ("name", PStr "users_row_count"); ("type", PStr "row_count");
    ("definition", PStr "row_count > 0"); ("outcome", PStr "pass");
    ("table", PStr "Users"); ("schema", PStr "public") ].

Definition scan_with_unmatched_check : pydict :=
  [ ("scanId", PStr "test_scan_123"); ("dataSourceName", PStr "postgres");
    ("tables",
     PList [ PDict [ ("tableName", PStr "users"); ("schemaName", PStr "public");
                     ("databaseName", PStr "mydb") ] ]);
    ("checks",
     PList [users_id_not_null; PDict capital_users_check;
            users_email_unique]) ].

(** A check whose outcome is a number. *)
Definition numeric_outcome_check : pyval :=
  PDict
    [ ("name", PStr "users_row_count"); ("type", PStr "row_count");
      ("definition", PStr "row_count > 0"); ("outcome", PInt 1);
      ("table", PStr "users"); ("schema", PStr "public") ].

(** A handler with an alias and the lowercase option. *)
Definition lowercase_handler : DataHubSodaHandler :=
  __init__ "http://localhost:8080" "TEST" (Some "PG_Main") None true None None
    None None None true.

Definition sample_policies : list pydict :=
  [ [("name", PStr "Data Quality Policy"); ("type", PStr "data_quality")];
    [("name", PStr "Schema Policy"); ("type", PStr "schema")] ].

(** A scan result whose [checks] member is null. *)
Definition null_checks_scan_result : pydict :=
  [ ("scanId", PStr "test_scan_124"); ("dataSourceName", PStr "postgres");
    ("tables", PList []); ("checks", PNone) ].

(** A check that reports its row count twice. *)
Definition recounted_rows : pyval :=
  PDict
    [ ("name", PStr "users_row_count"); ("type", PStr "row_count");
      ("definition", PStr "row_count > 0"); ("outcome", PStr "pass");
      ("table", PStr "users"); ("schema", PStr "public");
      ("metrics",
       PList [ PDict [("id", PStr "row_count"); ("value", PInt 10)];
               PDict [("id", PStr "row_count"); ("value", PInt 20)] ]) ].

(** A scan result that lists checks but no tables. *)
Definition scan_without_tables_result : pydict :=
  [ ("scanId", PStr "test_scan_125"); ("dataSourceName", PStr "postgres");
    ("checks", PList [users_id_not_null]) ].

(** A table without names. *)
Definition nameless_table : pydict := [("databaseName", PStr "mydb")].

(** A check that names no table, and a table whose names are null. *)
Definition unplaced_check : pydict :=
  [ ("name", PStr "freshness"); ("type", PStr "freshness");
    ("outcome", PStr "pass") ].

Definition null_named_table : pydict :=
  [("tableName", PNone); ("schemaName", PNone)].

(** A policy without a name. *)
Definition unnamed_policies : list pydict := [ [("type", PStr "schema")] ].

End Examples.


(** ** Running the monads *)

Section Running.

Context {A B : Type}.

Lemma outcome_bind_ret (o : outcome A) (f : A → outcome B) b :
  o ≫= f = Ret b → ∃ a, o = Ret a ∧ f a = Ret b.
Proof. destruct o as [a|e]; [eauto | discriminate]. Qed.

Lemma bind_ret (m : M A) (f : A → M B) w b w' :
  (m ≫= f) w = (Ret b, w') →
  ∃ a w1, m w = (Ret a, w1) ∧ f a w1 = (Ret b, w').
Proof.
  unfold mbind, M_bind.
  destruct (m w) as [[a|e] w1]; [eauto | discriminate].
Qed.

Lemma bind_run (m : M A) (f : A → M B) w a w1 :
  m w = (Ret a, w1) → (m ≫= f) w = f a w1.
Proof. unfold mbind, M_bind. intros ->. reflexivity. Qed.

Lemma bind_run_raise (m : M A) (f : A → M B) w e w1 :
  m w = (Raise e, w1) → (m ≫= f) w = (Raise e, w1).
Proof. unfold mbind, M_bind. intros ->. reflexivity. Qed.

Lemma lift_ret (o : outcome A) w a w' :
  lift o w = (Ret a, w') → o = Ret a ∧ w' = w.
Proof. unfold lift. intros [= -> ->]. auto. Qed.

Lemma mret_ret (x : A) w a w' :
  (mret x : M A) w = (Ret a, w') → a = x ∧ w' = w.
Proof. intros [= -> ->]. auto. Qed.

End Running.

(** Decompose a successful run, one bind at a time. *)
Ltac run_inv H :=
  lazymatch type of H with
  | (_ ≫= _) _ = (Ret _, _) =>
      let a := fresh "a" in
      let w := fresh "w" in
      let H1 := fresh "Hrun" in
      let H2 := fresh "Hrun" in
      apply bind_ret in H as (a & w & H1 & H2);
      run_inv H1; cbv zeta in H2; run_inv H2
  | lift _ _ = (Ret _, _) =>
      apply lift_ret in H as [H ->]
  | mret _ _ = (Ret _, _) =>
      apply mret_ret in H as [-> ->]
  | _ => idtac
  end.

(** ** Facts about Python values *)

Lemma py_eq_str (v : pyval) (s : string) :
  py_eq v (PStr s) = true ↔ v = PStr s.
Proof.
  destruct v as [| b | z | f | t | l | d]; simpl;
    try (split; discriminate).
  rewrite String.eqb_eq. split; [intros -> | intros [= ->]]; reflexivity.
Qed.

Lemma py_get_ret (v : pyval) (k : string) (dflt x : pyval) :
  py_get v k dflt = Ret x → ∃ d, v = PDict d ∧ x = dict_get d k dflt.
Proof. destruct v; try discriminate. intros [= <-]. eauto. Qed.

Lemma py_lower_ret `{Sdk} (v : pyval) (l : string) :
  py_lower v = Ret l → ∃ s, v = PStr s ∧ l = lower s.
Proof. destruct v; try discriminate. intros [= <-]. eauto. Qed.

Section Properties.

Context `{Sdk}.

(** ** Converting one check *)

Lemma convert_check_body_ret self check dataset_urn scan_id scan_timestamp w r w' :
  convert_check_body self check dataset_urn scan_id scan_timestamp w
    = (Ret r, w') →
  ∃ d info ev,
    check = PDict d ∧ r = (Some info, Some ev) ∧ w' = ticked w ∧
    conversion d dataset_urn scan_id scan_timestamp w info ev.
Proof.
  intros Hrun. unfold convert_check_body in Hrun. run_inv Hrun.
  apply py_get_ret in Hrun0 as (d & -> & ->).
  simpl in Hrun, Hrun1, Hrun2, Hrun3, Hrun4.
  injection Hrun as <-. injection Hrun1 as <-. injection Hrun2 as <-.
  injection Hrun3 as <-. injection Hrun4 as <-.
  apply py_lower_ret in Hrun5 as (s & Hs & ->).
  unfold read_clock in Hrun12. injection Hrun12 as <- <-.
  eexists d, _, _. split; [reflexivity|]. split; [reflexivity|].
  split; [reflexivity|].
  split; simpl; eauto 10.
Qed.


Lemma convert_some_ret self check dataset_urn scan_id scan_timestamp w info ev w' :
  _convert_check_to_assertion self check dataset_urn scan_id scan_timestamp w
    = (Ret (Some info, Some ev), w') →
  convert_check_body self check dataset_urn scan_id scan_timestamp w
    = (Ret (Some info, Some ev), w').
Proof.
  unfold _convert_check_to_assertion, try_except.
  destruct (convert_check_body _ _ _ _ _ w) as [[r|e] w1]; [congruence|].
  discriminate.
Qed.

Lemma convert_conversion self check dataset_urn scan_id scan_timestamp w info ev w' :
  _convert_check_to_assertion self check dataset_urn scan_id scan_timestamp w
    = (Ret (Some info, Some ev), w') →
  ∃ d, check = PDict d ∧ w' = ticked w ∧
       conversion d dataset_urn scan_id scan_timestamp w info ev.
Proof.
  intros Hrun. apply convert_some_ret, convert_check_body_ret in Hrun
    as (d & info' & ev' & -> & [= -> ->] & -> & Hconv).
  eauto.
Qed.

(** ** Exceptions in the conversion of a check *)

(** C7. [_convert_check_to_assertion] always returns: whatever the
    check, the dataset, the scan and the world are, no exception leaves
    it.  When the body of its [try] block raises, at whichever step,
    the result is the pair [(None, None)] and one warning that carries
    the exception's text is added to the log; emitter and clock stay as
    the failed body left them. *)
Theorem convert_check_never_raises self check dataset_urn scan_id scan_timestamp w :
  ∃ r w',
    _convert_check_to_assertion self check dataset_urn scan_id scan_timestamp w
      = (Ret r, w') ∧
    ∀ e w1,
      convert_check_body self check dataset_urn scan_id scan_timestamp w
        = (Raise e, w1) →
      r = (None, None) ∧
      log w' = (log w1 ++
                [(WARNING, ("Failed to convert check to assertion: "
                            ++ exn_str e)%string)])%list ∧
      emit_calls w' = emit_calls w1 ∧ ticks w' = ticks w1.
Proof.
  unfold _convert_check_to_assertion, try_except.
  destruct (convert_check_body _ _ _ _ _ w) as [[r|e] w1].
  - exists r, w1. split; [reflexivity | discriminate].
  - eexists _, _. split; [reflexivity|].
    intros e' w1' [= <- <-]. simpl. auto.
Qed.

(** ** The result type *)

Lemma success_outcomes_spec (s : string) :
  str_in_list (lower s) ["pass"; "passed"; "success"] = true ↔
  ∃ k, k ∈ SUCCESS_OUTCOMES ∧ caseless_eq s k.
Proof.
  unfold str_in_list, SUCCESS_OUTCOMES, caseless_eq.
  rewrite existsb_exists. split.
  - intros (k & Hin & Heq). apply String.eqb_eq in Heq.
    exists k. split; [apply list_elem_of_In; exact Hin|].
    rewrite Heq. simpl in Hin.
    destruct Hin as [<- | [<- | [<- | []]]];
      rewrite lower_ascii_text by reflexivity; reflexivity.
  - intros (k & Hin & Heq). exists k.
    split; [apply list_elem_of_In; exact Hin|].
    apply String.eqb_eq. rewrite Heq.
    apply list_elem_of_In in Hin. simpl in Hin.
    destruct Hin as [<- | [<- | [<- | []]]];
      rewrite lower_ascii_text by reflexivity; reflexivity.
Qed.

(** C2. When a check is converted, its [outcome] field is a string (the
    default ["unknown"] when the field is absent), and the result type
    is SUCCESS exactly when that string is, up to the case of its
    letters, one of [pass], [passed], [success]; it is FAILURE for
    every other string, among them the empty string and the absent
    field. *)
Theorem result_type_by_outcome self check dataset_urn scan_id scan_timestamp
    w info ev w' :
  _convert_check_to_assertion self check dataset_urn scan_id scan_timestamp w
    = (Ret (Some info, Some ev), w') →
  ∃ d s,
    check = PDict d ∧ dict_get d "outcome" (PStr "unknown") = PStr s ∧
    let result_type := AssertionResult.type (AssertionRunEvent.result ev) in
    (result_type = AssertionResultType.SUCCESS ↔
       ∃ k, k ∈ SUCCESS_OUTCOMES ∧ caseless_eq s k) ∧
    (result_type = AssertionResultType.FAILURE ↔
       ¬ ∃ k, k ∈ SUCCESS_OUTCOMES ∧ caseless_eq s k) ∧
    (s = "" → result_type = AssertionResultType.FAILURE) ∧
    (assoc_lookup "outcome" d = None →
       result_type = AssertionResultType.FAILURE).
Proof.
  intros Hrun. apply convert_conversion in Hrun as (d & -> & _ & Hconv).
  destruct (conv_outcome _ _ _ _ _ _ _ Hconv) as (s & Hs & Hty).
  exists d, s. split; [reflexivity|]. split; [exact Hs|]. simpl.
  rewrite Hty. pose proof (success_outcomes_spec s) as Hspec.
  destruct (str_in_list (lower s) _) eqn:Hin.
  - assert (∃ k, k ∈ SUCCESS_OUTCOMES ∧ caseless_eq s k) as Hk
      by (apply Hspec; reflexivity).
    split_and!.
    + tauto.
    + split; [discriminate | tauto].
    + intros ->. rewrite lower_ascii_text in Hin by reflexivity.
      discriminate Hin.
    + intros Habs. unfold dict_get in Hs. rewrite Habs in Hs.
      injection Hs as <-. rewrite lower_ascii_text in Hin by reflexivity.
      discriminate Hin.
  - assert (¬ ∃ k, k ∈ SUCCESS_OUTCOMES ∧ caseless_eq s k) as Hk
      by (intros Hk; apply Hspec in Hk; discriminate).
    split_and!.
    + split; [discriminate | tauto].
    + tauto.
    + reflexivity.
    + reflexivity.
Qed.

(** ** The aggregation value among the metrics *)

Lemma agg_ids_not_counts (id : pyval) (k : string) :
  k ∈ ["row_count"; "missing_count"; "unexpected_count"] →
  py_eq id (PStr k) = true → py_in_list id AGG_METRIC_IDS = false.
Proof.
  intros Hk Heq. apply py_eq_str in Heq as ->.
  apply list_elem_of_In in Hk. simpl in Hk.
  destruct Hk as [<- | [<- | [<- | []]]]; reflexivity.
Qed.

(** One iteration leaves [actual_agg_value] alone unless the metric is
    an aggregation metric with a numeric value, which it then takes. *)
Lemma metric_step_agg (vars vars' : metric_vars) (metric : pyval) :
  metric_step vars metric = Ret vars' →
  actual_agg_value vars' =
    match agg_metric_value metric with
    | Some v => Some v
    | None => actual_agg_value vars
    end.
Proof.
  unfold metric_step. intros Hstep.
  apply outcome_bind_ret in Hstep as (id & Hid & Hstep).
  apply outcome_bind_ret in Hstep as (value & Hvalue & Hstep).
  apply py_get_ret in Hid as (m & -> & ->).
  simpl in Hvalue. injection Hvalue as <-.
  unfold agg_metric_value. cbv zeta.
  destruct (py_eq _ (PStr "row_count")) eqn:E1.
  { rewrite (agg_ids_not_counts _ "row_count") by (set_solver || exact E1).
    apply outcome_bind_ret in Hstep as (n & _ & [= <-]). reflexivity. }
  destruct (py_eq _ (PStr "missing_count")) eqn:E2.
  { rewrite (agg_ids_not_counts _ "missing_count") by (set_solver || exact E2).
    apply outcome_bind_ret in Hstep as (n & _ & [= <-]). reflexivity. }
  destruct (py_eq _ (PStr "unexpected_count")) eqn:E3.
  { rewrite (agg_ids_not_counts _ "unexpected_count") by (set_solver || exact E3).
    apply outcome_bind_ret in Hstep as (n & _ & [= <-]). reflexivity. }
  destruct (py_in_list _ AGG_METRIC_IDS); simpl.
  - destruct (is_int_or_float _); injection Hstep as <-; reflexivity.
  - injection Hstep as <-. reflexivity.
Qed.

(** The loop keeps the value of the last such metric. *)
Lemma metrics_loop_agg (metric_list : list pyval) (vars0 vars : metric_vars) :
  fold_outcome metric_step metric_list vars0 = Ret vars →
  actual_agg_value vars =
    match last (omap agg_metric_value metric_list) with
    | Some v => Some v
    | None => actual_agg_value vars0
    end.
Proof.
  revert vars0. induction metric_list as [|metric rest IH]; intros vars0 Hfold.
  - injection Hfold as <-. reflexivity.
  - simpl in Hfold. apply outcome_bind_ret in Hfold as (vars1 & Hstep & Hfold).
    rewrite (IH _ Hfold), (metric_step_agg _ _ _ Hstep). simpl.
    destruct (agg_metric_value metric) as [v|]; [|reflexivity].
    rewrite last_cons. destruct (last _); reflexivity.
Qed.

(** C1, as the code has it. When a check is converted, the outcome's
    [actual_agg_value] is the value of the LAST metric, in list order,
    whose id is one of [min], [max], [avg], [sum], [count] and whose
    value is an [int] or a [float]: each such metric overwrites the
    value kept so far.  It is [None] when there is no such metric. *)
Theorem actual_agg_value_last_wins self check dataset_urn scan_id
    scan_timestamp w info ev w' :
  _convert_check_to_assertion self check dataset_urn scan_id scan_timestamp w
    = (Ret (Some info, Some ev), w') →
  ∃ d metric_list,
    check = PDict d ∧
    py_iter (dict_get d "metrics" (PList [])) = Ret metric_list ∧
    AssertionResult.actualAggValue (AssertionRunEvent.result ev)
      = last (omap agg_metric_value metric_list).
Proof.
  intros Hrun. apply convert_conversion in Hrun as (d & -> & _ & Hconv).
  destruct (conv_metrics _ _ _ _ _ _ _ Hconv)
    as (metric_list & vars & Hiter & Hfold & _ & _ & _ & Hagg).
  exists d, metric_list. split; [reflexivity|]. split; [exact Hiter|].
  rewrite Hagg, (metrics_loop_agg _ _ _ Hfold). simpl.
  destruct (last _); reflexivity.
Qed.

(** ** Classification of the check type *)

Lemma build_assertion_info_first_match (ty : string) (definition : pyval)
    (dataset_urn : string) (assertion_fields : option (list string))
    (check_name : pyval) :
  ∃ info,
    _build_assertion_info (PStr ty) definition dataset_urn assertion_fields
      check_name = Ret info ∧
    Some (classification_of info) =
      first_match (classification_rules (fields_truthy assertion_fields))
        (lower ty).
Proof.
  unfold _build_assertion_info, classification_of. simpl.
  destruct (str_in "null" (lower ty) || str_in "missing" (lower ty));
    [destruct (fields_truthy assertion_fields); eexists; split; reflexivity|].
  destruct (str_in "unique" (lower ty));
    [destruct (fields_truthy assertion_fields); eexists; split; reflexivity|].
  destruct (str_in "row_count" (lower ty) || str_in "count" (lower ty));
    [eexists; split; reflexivity|].
  destruct (str_in "schema" (lower ty)); [eexists; split; reflexivity|].
  destruct (fields_truthy assertion_fields); eexists; split; reflexivity.
Qed.

Lemma build_assertion_fields_truthy (dataset_urn : string) (column_name : pyval)
    (fields : option (list string)) :
  build_assertion_fields dataset_urn column_name = Ret fields →
  fields_truthy fields = py_truthy column_name.
Proof.
  unfold build_assertion_fields. destruct (py_truthy column_name).
  - intros Hf. apply outcome_bind_ret in Hf as (f & _ & [= <-]). reflexivity.
  - intros [= <-]. reflexivity.
Qed.

(** C3, as the code has it. For every check type string,
    [_build_assertion_info] classifies by the ordered rule list on the
    lower-cased type, first match wins: [null] or [missing], then
    [unique], then [row_count] or [count], then [schema], then a column
    being present, else rows with native operator and aggregation.  A
    converted check is classified by that list with "a column is
    present" meaning that its [column] is truthy (neither null nor
    empty).  So a check whose lower-cased type contains [unique] and
    neither [null] nor [missing], with such a column, is DATASET_COLUMN
    with aggregation UNIQUE_COUNT. *)
Theorem classification_first_match :
  (∀ (ty : string) definition dataset_urn assertion_fields check_name,
     ∃ info,
       _build_assertion_info (PStr ty) definition dataset_urn assertion_fields
         check_name = Ret info ∧
       Some (classification_of info) =
         first_match (classification_rules (fields_truthy assertion_fields))
           (lower ty)) ∧
  (∀ self d dataset_urn scan_id scan_timestamp w info ev w' (ty : string),
     _convert_check_to_assertion self (PDict d) dataset_urn scan_id
       scan_timestamp w = (Ret (Some info, Some ev), w') →
     dict_get d "type" (PStr "unknown") = PStr ty →
     Some (classification_of info) =
       first_match
         (classification_rules (py_truthy (dict_get d "column" PNone)))
         (lower ty) ∧
     (str_in "unique" (lower ty) = true →
      str_in "null" (lower ty) = false →
      str_in "missing" (lower ty) = false →
      py_truthy (dict_get d "column" PNone) = true →
      DatasetAssertionInfo.scope (AssertionInfo.datasetAssertion info)
        = DatasetAssertionScope.DATASET_COLUMN ∧
      DatasetAssertionInfo.aggregation (AssertionInfo.datasetAssertion info)
        = AssertionStdAggregation.UNIQUE_COUNT)).
Proof.
  split; [apply build_assertion_info_first_match|].
  intros self d dataset_urn scan_id scan_timestamp w info ev w' ty Hrun Hty.
  apply convert_conversion in Hrun as (d' & [= <-] & _ & Hconv).
  destruct (conv_urn _ _ _ _ _ _ _ Hconv)
    as (fields & key & guid & Hfields & _ & _ & _ & Hinfo).
  rewrite Hty in Hinfo.
  destruct (build_assertion_info_first_match ty
              (dict_get d "definition" (PStr "")) dataset_urn fields
              (dict_get d "name" (PStr "unknown_check")))
    as (info' & Hinfo' & Hclass).
  rewrite Hinfo in Hinfo'. injection Hinfo' as <-.
  rewrite (build_assertion_fields_truthy _ _ _ Hfields) in Hclass.
  split; [exact Hclass|].
  intros Hunique Hnull Hmissing Hcolumn.
  rewrite Hcolumn in Hclass. simpl in Hclass.
  rewrite Hunique, Hnull, Hmissing in Hclass. simpl in Hclass.
  injection Hclass as -> _ ->. split; reflexivity.
Qed.

(** ** The dataset URN *)

Lemma compose_dataset_name_strings (database schema table : string) :
  compose_dataset_name (PStr database) (PStr schema) (PStr table)
    = PStr (dataset_name_spec database schema table).
Proof.
  unfold compose_dataset_name, dataset_name_spec. simpl.
  destruct (String.eqb database ""), (String.eqb schema ""); reflexivity.
Qed.

Lemma build_dataset_urn_pure self data_source_name database_name schema_name
    table_name platform_instance w1 w2 :
  fst (_build_dataset_urn self data_source_name database_name schema_name
         table_name platform_instance w1)
  = fst (_build_dataset_urn self data_source_name database_name schema_name
           table_name platform_instance w2).
Proof.
  unfold _build_dataset_urn, mbind, M_bind, lift, try_except.
  destruct (resolve_platform self data_source_name) as [platform|e];
    [|reflexivity].
  destruct (convert_urns_to_lowercase self).
  - destruct (py_lower _) as [l|e]; [|reflexivity]. simpl.
    destruct (make_dataset_urn_with_platform_instance _ _ _ _); reflexivity.
  - simpl.
    destruct (make_dataset_urn_with_platform_instance _ _ _ _); reflexivity.
Qed.

(** C6. [_build_dataset_urn] is a function of its inputs alone: the
    value it returns does not depend on the world it runs in.  For name
    parts that are strings it hands to the URN builder the platform,
    the dataset name [database.schema.table] when database and schema
    are both non-empty, [schema.table] when only the schema is, else
    the table alone, lower-cased as a whole after composition when the
    lowercase option is set, the platform instance and the environment.
    The option changes neither the platform nor the environment. *)
Theorem build_dataset_urn_composition self data_source_name
    (database schema table : string) platform_instance w :
  (∀ database_name schema_name table_name w1 w2,
     fst (_build_dataset_urn self data_source_name database_name schema_name
            table_name platform_instance w1)
     = fst (_build_dataset_urn self data_source_name database_name schema_name
              table_name platform_instance w2)) ∧
  _build_dataset_urn self data_source_name (PStr database) (PStr schema)
    (PStr table) platform_instance w
  = match resolve_platform self data_source_name with
    | Raise e => (Raise e, w)
    | Ret platform =>
        let name := dataset_name_spec database schema table in
        let name := if convert_urns_to_lowercase self then lower name else name in
        match make_dataset_urn_with_platform_instance platform (PStr name)
                (default "" platform_instance) (env self) with
        | Ret urn => (Ret (Some urn), w)
        | Raise e =>
            (Ret None,
             logged WARNING ("Failed to build dataset URN: " ++ exn_str e) w)
        end
    end ∧
  (∀ flag,
     resolve_platform (with_lowercase flag self) data_source_name
       = resolve_platform self data_source_name ∧
     env (with_lowercase flag self) = env self ∧
     convert_urns_to_lowercase (with_lowercase flag self) = flag).
Proof.
  split_and!.
  - intros. apply build_dataset_urn_pure.
  - unfold _build_dataset_urn, mbind, M_bind, lift, try_except.
    rewrite compose_dataset_name_strings.
    destruct (resolve_platform self data_source_name) as [platform|e];
      [|reflexivity].
    destruct (convert_urns_to_lowercase self); simpl;
      destruct (make_dataset_urn_with_platform_instance _ _ _ _); reflexivity.
  - intros flag. split_and!; reflexivity.
Qed.

(** ** Governance policies *)

Lemma validate_loop (dataset_urn : string) (n : Z) (policies : list pydict)
    (details : list pyval) (w : world) :
  for_each policies
    [ ("dataset_urn", PStr dataset_urn); ("policies_validated", PInt n);
      ("compliant", PInt 0); ("non_compliant", PInt 0);
      ("details", PList details) ]
    (λ validation_results policy,
       mret (details_append validation_results (policy_entry policy))) w
  = (Ret [ ("dataset_urn", PStr dataset_urn); ("policies_validated", PInt n);
           ("compliant", PInt 0); ("non_compliant", PInt 0);
           ("details", PList (details ++ map policy_entry policies)) ], w).
Proof.
  revert details. induction policies as [|policy rest IH]; intros details.
  - simpl. rewrite app_nil_r. reflexivity.
  - simpl. unfold mbind, M_bind. simpl. rewrite IH.
    rewrite <- app_assoc. reflexivity.
Qed.

(** C10. For every dataset identifier, every list of policies and every
    scan result, given or not, [validate_governance_policies] returns a
    dictionary in which [policies_validated] is the number of policies,
    [compliant] and [non_compliant] are [0], and [details] has one entry
    per policy, in order, each with status ["validated"]; the scan
    result has no influence on what is returned or logged. *)
Theorem validate_governance_policies_stub self (dataset_urn : string)
    (policies : list pydict) (scan_result : option pydict) (w : world) :
  ∃ results details w',
    validate_governance_policies self dataset_urn policies scan_result w
      = (Ret results, w') ∧
    assoc_lookup "policies_validated" results
      = Some (PInt (Z.of_nat (length policies))) ∧
    assoc_lookup "compliant" results = Some (PInt 0) ∧
    assoc_lookup "non_compliant" results = Some (PInt 0) ∧
    assoc_lookup "details" results = Some (PList details) ∧
    length details = length policies ∧
    Forall is_validated details ∧
    ∀ other_scan_result,
      validate_governance_policies self dataset_urn policies other_scan_result w
      = validate_governance_policies self dataset_urn policies scan_result w.
Proof.
  eexists _, (map policy_entry policies), _.
  split_and!.
  - unfold validate_governance_policies, mbind, M_bind, logger.
    apply (validate_loop dataset_urn _ policies []).
  - reflexivity.
  - reflexivity.
  - reflexivity.
  - reflexivity.
  - apply length_map.
  - apply Forall_map, Forall_true. intros policy.
    eexists. split; reflexivity.
  - reflexivity.
Qed.

(** ** Exceptions in the processing of a scan *)

Lemma process_scan_result_start self scan_result scan_timestamp w :
  process_scan_result self scan_result scan_timestamp w
  = try_except
      (process_scan_body self scan_result (fst (scan_start scan_timestamp w)))
      (λ e,
         logger ERROR (scan_error_message e);;
         if graceful_exceptions self
         then mret [("status", PStr "error");
                    ("error", PStr (scan_error_message e))]
         else throw e)
      (snd (scan_start scan_timestamp w)).
Proof. destruct scan_timestamp; reflexivity. Qed.

(** C8. Whatever the scan result is, when an exception [e] leaves the
    body of [process_scan_result]'s [try] block, the error is logged
    and then: a handler with [graceful_exceptions] set returns the
    dictionary with status ["error"] and the error message, and raises
    nothing; a handler with [graceful_exceptions] unset raises the same
    [e] again.  The constructor stores the flag it is given.  When no
    exception leaves the body, its result is returned unchanged. *)
Theorem process_scan_result_exception_policy self scan_result scan_timestamp w :
  let start := scan_start scan_timestamp w in
  (∀ e w1,
     process_scan_body self scan_result (fst start) (snd start)
       = (Raise e, w1) →
     (graceful_exceptions self = true →
      process_scan_result self scan_result scan_timestamp w
      = (Ret [("status", PStr "error");
              ("error", PStr (scan_error_message e))],
         logged ERROR (scan_error_message e) w1)) ∧
     (graceful_exceptions self = false →
      process_scan_result self scan_result scan_timestamp w
      = (Raise e, logged ERROR (scan_error_message e) w1))) ∧
  (∀ r w1,
     process_scan_body self scan_result (fst start) (snd start) = (Ret r, w1) →
     process_scan_result self scan_result scan_timestamp w = (Ret r, w1)) ∧
  (∀ server_url env platform_alias platform_instance_map graceful token
     timeout_sec retry_status_codes retry_max_times extra_headers lowercase,
     graceful_exceptions
       (__init__ server_url env platform_alias platform_instance_map graceful
          token timeout_sec retry_status_codes retry_max_times extra_headers
          lowercase) = graceful).
Proof.
  simpl. split_and!.
  - intros e w1 Hbody. rewrite process_scan_result_start.
    unfold try_except. rewrite Hbody.
    split; intros ->; reflexivity.
  - intros r w1 Hbody. rewrite process_scan_result_start.
    unfold try_except. rewrite Hbody. reflexivity.
  - reflexivity.
Qed.

(** ** Emitting a converted check *)

Lemma emit_mcp_run self mcp w :
  emit_mcp self mcp w
  = match emit_mcp_raises self (emit_calls w) mcp with
    | Some e => (Raise e, emitted [mcp] w)
    | None => (Ret tt, emitted [mcp] w)
    end.
Proof. reflexivity. Qed.

Lemma emitted_app (calls1 calls2 : list MCP) (w : world) :
  emitted calls2 (emitted calls1 w) = emitted (calls1 ++ calls2) w.
Proof. unfold emitted. simpl. rewrite <- app_assoc. reflexivity. Qed.

Lemma emit_assertion_run self info ev w :
  let c0 := emit_calls w in
  let m1 := MetadataChangeProposalWrapper.mk (AssertionRunEvent.assertionUrn ev)
              (AssertionInfoAspect info) in
  let m2 := MetadataChangeProposalWrapper.mk (AssertionRunEvent.assertionUrn ev)
              (DataPlatformInstanceAspect
                 (DataPlatformInstance.mk (make_data_platform_urn "soda"))) in
  let m3 := MetadataChangeProposalWrapper.mk (AssertionRunEvent.assertionUrn ev)
              (AssertionRunEventAspect ev) in
  emit_assertion self info ev w
  = match emit_mcp_raises self c0 m1 with
    | Some e => (Raise e, emitted [m1] w)
    | None =>
        match emit_mcp_raises self (c0 ++ [m1]) m2 with
        | Some e => (Raise e, emitted [m1; m2] w)
        | None =>
            match emit_mcp_raises self (c0 ++ [m1; m2]) m3 with
            | Some e => (Raise e, emitted [m1; m2; m3] w)
            | None => (Ret tt, emitted [m1; m2; m3] w)
            end
        end
    end.
Proof.
  simpl. unfold emit_assertion, mbind, M_bind, SODA_PLATFORM_NAME.
  rewrite emit_mcp_run.
  destruct (emit_mcp_raises self (emit_calls w) _); [reflexivity|].
  rewrite emit_mcp_run. simpl.
  destruct (emit_mcp_raises self (emit_calls w ++ [_]) _);
    [rewrite emitted_app; reflexivity|].
  rewrite emit_mcp_run, !emitted_app. simpl.
  destruct (emit_mcp_raises self _ _); reflexivity.
Qed.

(** C9. For a check that converts to a definition [info] and an outcome
    [ev], the emitter is called with the definition, then the platform
    binding (platform [soda]), then the outcome, each keyed by the
    assertion URN of [ev], and nothing else is called on it.  When the
    three calls return, [assertions_sent] is incremented by one.  When
    one of them raises, the calls stop there, the exception propagates
    and no count is returned. *)
Theorem emit_triple_then_count self dataset_urn scan_id scan_timestamp
    assertions_sent check w info ev w1 :
  _convert_check_to_assertion self check dataset_urn scan_id scan_timestamp w
    = (Ret (Some info, Some ev), w1) →
  let c0 := emit_calls w in
  ∃ m1 m2 m3,
    assertion_mcps info ev = [m1; m2; m3] ∧
    map MetadataChangeProposalWrapper.entityUrn [m1; m2; m3]
      = replicate 3 (AssertionRunEvent.assertionUrn ev) ∧
    map MetadataChangeProposalWrapper.aspect_of [m1; m2; m3]
      = [ AssertionInfoAspect info;
          DataPlatformInstanceAspect
            (DataPlatformInstance.mk (make_data_platform_urn "soda"));
          AssertionRunEventAspect ev ] ∧
    emit_calls w1 = c0 ∧
    process_check self dataset_urn scan_id scan_timestamp assertions_sent
      check w
    = match emit_mcp_raises self c0 m1 with
      | Some e => (Raise e, emitted [m1] w1)
      | None =>
          match emit_mcp_raises self (c0 ++ [m1]) m2 with
          | Some e => (Raise e, emitted [m1; m2] w1)
          | None =>
              match emit_mcp_raises self (c0 ++ [m1; m2]) m3 with
              | Some e => (Raise e, emitted [m1; m2; m3] w1)
              | None => (Ret (assertions_sent + 1)%nat,
                         emitted [m1; m2; m3] w1)
              end
          end
      end.
Proof.
  intros Hrun. simpl.
  eexists _, _, _. split; [reflexivity|].
  split; [reflexivity|]. split; [reflexivity|].
  pose proof (convert_conversion _ _ _ _ _ _ _ _ _ Hrun) as (d & _ & Hw1 & _).
  assert (emit_calls w1 = emit_calls w) as Hcalls by (rewrite Hw1; reflexivity).
  split; [exact Hcalls|].
  unfold process_check. rewrite (bind_run _ _ _ _ _ Hrun).
  unfold mbind at 1, M_bind at 1. rewrite emit_assertion_run. simpl.
  rewrite Hcalls.
  destruct (emit_mcp_raises self (emit_calls w) _); [reflexivity|].
  destruct (emit_mcp_raises self (emit_calls w ++ [_]) _); [reflexivity|].
  destruct (emit_mcp_raises self _ _); reflexivity.
Qed.

(** A check that does not convert causes no call and no increment. *)
Lemma process_check_not_converted self dataset_urn scan_id scan_timestamp
    assertions_sent check w r w1 :
  _convert_check_to_assertion self check dataset_urn scan_id scan_timestamp w
    = (Ret r, w1) →
  fst r = None ∨ snd r = None →
  process_check self dataset_urn scan_id scan_timestamp assertions_sent check w
    = (Ret assertions_sent, w1).
Proof.
  intros Hrun Hnone. unfold process_check.
  rewrite (bind_run _ _ _ _ _ Hrun).
  destruct r as [[info|] [ev|]]; simpl in Hnone;
    destruct Hnone as [Hn|Hn]; try discriminate Hn; reflexivity.
Qed.
(** ** The assertion identifier *)


Lemma build_assertion_fields_falsy (dataset_urn : string) (column_name : pyval)
    (fields : option (list string)) :
  build_assertion_fields dataset_urn column_name = Ret fields →
  py_truthy column_name = false → fields = None.
Proof.
  unfold build_assertion_fields. intros Hf Hfalsy. rewrite Hfalsy in Hf.
  injection Hf as <-. reflexivity.
Qed.



(** ** Joining checks and tables *)

Lemma joins_strings (table schema : string) (c : pydict) :
  joins (PStr table) (PStr schema) c = true ↔
  dict_get c "table" PNone = PStr table ∧
  dict_get c "schema" PNone = PStr schema.
Proof.
  unfold joins. rewrite andb_true_iff, !py_eq_str. reflexivity.
Qed.

Lemma check_matches_dict (table_name schema_name : pyval) (c : pydict) :
  check_matches table_name schema_name (PDict c)
    = Ret (joins table_name schema_name c).
Proof.
  unfold check_matches, joins. simpl.
  destruct (py_eq (dict_get c "table" PNone) table_name); reflexivity.
Qed.

Lemma selected_checks (table_name schema_name : pyval) (checks : list pyval) :
  Forall is_dict checks →
  filter_outcome (check_matches table_name schema_name) checks
    = Ret (filter (λ c, joins_check table_name schema_name c = true) checks).
Proof.
  induction 1 as [|c checks [d ->] _ IH]; [reflexivity|].
  simpl. rewrite check_matches_dict. simpl. rewrite IH. simpl.
  rewrite filter_cons. simpl.
  destruct (joins table_name schema_name d); reflexivity.
Qed.

Lemma filter_outcome_skip {A} (p : A → outcome bool) (l1 l2 : list A) (x : A) :
  p x = Ret false →
  filter_outcome p (l1 ++ x :: l2) = filter_outcome p (l1 ++ l2).
Proof.
  intros Hx. induction l1 as [|y l1 IH]; simpl.
  - rewrite Hx. simpl. destruct (filter_outcome p l2); reflexivity.
  - rewrite IH. reflexivity.
Qed.

Lemma for_each_ext {A St} (l : list A) (f g : St → A → M St) :
  (∀ x, x ∈ l → ∀ s w, f s x w = g s x w) →
  ∀ s w, for_each l s f w = for_each l s g w.
Proof.
  induction l as [|x l IH]; intros Hfg s w; [reflexivity|].
  simpl. unfold mbind, M_bind. rewrite (Hfg x) by set_solver.
  destruct (g s x w) as [[s'|e] w']; [|reflexivity].
  apply IH. intros y Hy. apply Hfg. set_solver.
Qed.

(** ** The log is write-only *)

Lemma same_effects_refl (w : world) : same_effects w w.
Proof. split; reflexivity. Qed.

Lemma same_effects_logged lvl1 msg1 lvl2 msg2 (w1 w2 : world) :
  same_effects w1 w2 → same_effects (logged lvl1 msg1 w1) (logged lvl2 msg2 w2).
Proof. intros [Hc Ht]. split; assumption. Qed.

Lemma log_blind_ret {A} (x : A) : log_blind (mret x).
Proof. intros w1 w2 Hw. split; [reflexivity | exact Hw]. Qed.

Lemma log_blind_lift {A} (o : outcome A) : log_blind (lift o).
Proof. intros w1 w2 Hw. split; [reflexivity | exact Hw]. Qed.

Lemma log_blind_throw {A} (e : exn) : log_blind (throw e : M A).
Proof. intros w1 w2 Hw. split; [reflexivity | exact Hw]. Qed.

Lemma log_blind_logger lvl msg : log_blind (logger lvl msg).
Proof. intros w1 w2 [Hc Ht]. split; [reflexivity | split; assumption]. Qed.

Lemma log_blind_bind {A B} (m : M A) (f : A → M B) :
  log_blind m → (∀ a, log_blind (f a)) → log_blind (m ≫= f).
Proof.
  intros Hm Hf w1 w2 Hw. unfold mbind, M_bind.
  destruct (Hm w1 w2 Hw) as [Hfst Hsnd].
  destruct (m w1) as [[a1|e1] w1'], (m w2) as [[a2|e2] w2']; simpl in *;
    try discriminate.
  - injection Hfst as <-. apply Hf, Hsnd.
  - injection Hfst as <-. split; [reflexivity | exact Hsnd].
Qed.

Lemma log_blind_try_except {A} (body : M A) (handler : exn → M A) :
  log_blind body → (∀ e, log_blind (handler e)) →
  log_blind (try_except body handler).
Proof.
  intros Hbody Hhandler w1 w2 Hw. unfold try_except.
  destruct (Hbody w1 w2 Hw) as [Hfst Hsnd].
  destruct (body w1) as [[a1|e1] w1'], (body w2) as [[a2|e2] w2']; simpl in *;
    try discriminate.
  - split; [exact Hfst | exact Hsnd].
  - injection Hfst as <-. apply Hhandler, Hsnd.
Qed.

Lemma log_blind_for_each {A St} (l : list A) (body : St → A → M St) :
  (∀ s x, log_blind (body s x)) → ∀ s, log_blind (for_each l s body).
Proof.
  intros Hbody. induction l as [|x l IH]; intros s; simpl.
  - apply log_blind_ret.
  - apply log_blind_bind; [apply Hbody | exact IH].
Qed.

Lemma log_blind_read_clock {A} (reading : nat → A) :
  log_blind (read_clock reading).
Proof.
  intros w1 w2 [Hc Ht]. unfold read_clock. split; simpl.
  - rewrite Ht. reflexivity.
  - split; simpl; congruence.
Qed.

Lemma log_blind_emit_mcp self mcp : log_blind (emit_mcp self mcp).
Proof.
  intros w1 w2 [Hc Ht]. unfold emit_mcp. rewrite Hc.
  destruct (emit_mcp_raises self (emit_calls w2) mcp);
    (split; [reflexivity | split; simpl; congruence]).
Qed.

Create HintDb log_blind.

#[local] Hint Resolve log_blind_ret log_blind_lift log_blind_throw
  log_blind_logger log_blind_read_clock log_blind_emit_mcp : log_blind.

(** Go through a computation built from the combinators. *)
Ltac log_blind_steps :=
  repeat first
    [ solve [auto with log_blind]
    | apply log_blind_bind; [|intros ?]
    | apply log_blind_try_except; [|intros ?]
    | apply log_blind_for_each; intros ? ?
    | match goal with
      | |- log_blind (if ?b then _ else _) => destruct b
      | |- log_blind (match ?x with _ => _ end) => destruct x
      end ].

Lemma log_blind_build_dataset_urn self data_source_name database_name
    schema_name table_name platform_instance :
  log_blind (_build_dataset_urn self data_source_name database_name
               schema_name table_name platform_instance).
Proof. unfold _build_dataset_urn. cbv zeta. log_blind_steps. Qed.

Lemma log_blind_convert self check dataset_urn scan_id scan_timestamp :
  log_blind (_convert_check_to_assertion self check dataset_urn scan_id
               scan_timestamp).
Proof.
  unfold _convert_check_to_assertion, convert_check_body. cbv zeta.
  log_blind_steps.
Qed.

Lemma log_blind_emit_assertion self info ev :
  log_blind (emit_assertion self info ev).
Proof. unfold emit_assertion. cbv zeta. log_blind_steps. Qed.

#[local] Hint Resolve log_blind_build_dataset_urn log_blind_convert
  log_blind_emit_assertion : log_blind.

Lemma log_blind_process_check self dataset_urn scan_id scan_timestamp
    assertions_sent check :
  log_blind (process_check self dataset_urn scan_id scan_timestamp
               assertions_sent check).
Proof. unfold process_check. log_blind_steps. Qed.

#[local] Hint Resolve log_blind_process_check : log_blind.

Lemma log_blind_process_table self data_source_name checks scan_id
    scan_timestamp assertions_sent table_info :
  log_blind (process_table self data_source_name checks scan_id scan_timestamp
               assertions_sent table_info).
Proof. unfold process_table. log_blind_steps. Qed.

Lemma agree_bind {A B} (m1 m2 : M A) (f : A → M B) (w1 w2 : world) :
  agree (m1 w1) (m2 w2) → (∀ a, log_blind (f a)) →
  agree ((m1 ≫= f) w1) ((m2 ≫= f) w2).
Proof.
  intros [Hfst Hsnd] Hf. unfold mbind, M_bind.
  destruct (m1 w1) as [[a1|e1] w1'], (m2 w2) as [[a2|e2] w2']; simpl in *;
    try discriminate.
  - injection Hfst as <-. apply Hf, Hsnd.
  - injection Hfst as <-. split; [reflexivity | exact Hsnd].
Qed.

Lemma agree_try_except {A} (body1 body2 : M A) (handler : exn → M A)
    (w1 w2 : world) :
  agree (body1 w1) (body2 w2) → (∀ e, log_blind (handler e)) →
  agree (try_except body1 handler w1) (try_except body2 handler w2).
Proof.
  intros [Hfst Hsnd] Hhandler. unfold try_except.
  destruct (body1 w1) as [[a1|e1] w1'], (body2 w2) as [[a2|e2] w2'];
    simpl in *; try discriminate.
  - split; [exact Hfst | exact Hsnd].
  - injection Hfst as <-. apply Hhandler, Hsnd.
Qed.

(** A table's checks are the ones that join it. *)
Lemma process_table_selected self data_source_name (checks : list pyval)
    scan_id scan_timestamp assertions_sent (t : pydict) w :
  Forall is_dict checks →
  process_table self data_source_name (PList checks) scan_id scan_timestamp
    assertions_sent (PDict t) w
  = (platform_instance ← lift (instance_lookup self data_source_name);
     dataset_urn ← _build_dataset_urn self data_source_name
                     (dict_get t "databaseName" (PStr "")) (schema_name_of t)
                     (table_name_of t) platform_instance;
     match dataset_urn with
     | Some urn =>
         if String.eqb urn "" then
           logger WARNING ("Could not build dataset URN for "
                           ++ py_str (schema_name_of t) ++ "."
                           ++ py_str (table_name_of t));;
           mret assertions_sent
         else
           logger INFO ("Processing dataset: " ++ urn);;
           for_each
             (filter (λ c, joins_check (table_name_of t) (schema_name_of t) c
                           = true) checks)
             assertions_sent
             (process_check self urn scan_id scan_timestamp)
     | None =>
         logger WARNING ("Could not build dataset URN for "
                         ++ py_str (schema_name_of t) ++ "."
                         ++ py_str (table_name_of t));;
         mret assertions_sent
     end) w.
Proof.
  intros Hdicts. unfold process_table, table_name_of, schema_name_of.
  simpl. unfold mbind, M_bind, lift.
  rewrite (selected_checks _ _ _ Hdicts). reflexivity.
Qed.

(** A check that joins no table can be left out of a table's
    processing. *)
Lemma process_table_skip self data_source_name (cs1 cs2 : list pyval)
    (c : pydict) scan_id scan_timestamp assertions_sent table_info w :
  (∀ t, table_info = PDict t →
        joins (table_name_of t) (schema_name_of t) c = false) →
  process_table self data_source_name (PList (cs1 ++ PDict c :: cs2)) scan_id
    scan_timestamp assertions_sent table_info w
  = process_table self data_source_name (PList (cs1 ++ cs2)) scan_id
      scan_timestamp assertions_sent table_info w.
Proof.
  intros Hjoin. destruct table_info as [| | | | | |t]; try reflexivity.
  specialize (Hjoin t eq_refl). unfold table_name_of, schema_name_of in Hjoin.
  unfold process_table. simpl. unfold mbind, M_bind, lift.
  rewrite filter_outcome_skip by (rewrite check_matches_dict, Hjoin; reflexivity).
  reflexivity.
Qed.

Lemma dict_get_other (scan scan' : pydict) (k : string) (dflt : pyval) :
  (∀ k, k ≠ "checks" → assoc_lookup k scan = assoc_lookup k scan') →
  k ≠ "checks" → dict_get scan' k dflt = dict_get scan k dflt.
Proof. intros Hother Hk. unfold dict_get. rewrite (Hother k Hk). reflexivity. Qed.

Lemma lift_ret_bind {A B} (a : A) (f : A → M B) (w : world) :
  (lift (Ret a) ≫= f) w = f a w.
Proof. reflexivity. Qed.

Lemma lift_raise_bind {A B} (e : exn) (f : A → M B) (w : world) :
  (lift (Raise e) ≫= f) w = (Raise e, w).
Proof. reflexivity. Qed.

Lemma agree_bind_same {A B} (m : M A) (f g : A → M B) (w : world) :
  (∀ a w', agree (f a w') (g a w')) → agree ((m ≫= f) w) ((m ≫= g) w).
Proof.
  intros Hfg. unfold mbind, M_bind.
  destruct (m w) as [[a|e] w']; [apply Hfg|].
  split; [reflexivity | apply same_effects_refl].
Qed.

Lemma process_tables_skip self data_source_name (cs1 cs2 : list pyval)
    (c : pydict) tables scan_id scan_timestamp w1 w2 :
  (∀ table_list t,
     py_iter tables = Ret table_list → PDict t ∈ table_list →
     joins (table_name_of t) (schema_name_of t) c = false) →
  same_effects w1 w2 →
  agree
    (process_tables self data_source_name (PList (cs1 ++ PDict c :: cs2))
       tables scan_id scan_timestamp w1)
    (process_tables self data_source_name (PList (cs1 ++ cs2))
       tables scan_id scan_timestamp w2).
Proof.
  intros Hjoin Hw. unfold process_tables.
  destruct (py_iter tables) as [table_list|e] eqn:Hiter.
  - rewrite !lift_ret_bind.
    apply agree_bind.
    + rewrite (for_each_ext table_list
                 (process_table self data_source_name
                    (PList (cs1 ++ PDict c :: cs2)) scan_id scan_timestamp)
                 (process_table self data_source_name
                    (PList (cs1 ++ cs2)) scan_id scan_timestamp)).
      * apply log_blind_for_each; [|exact Hw].
        intros s x. apply log_blind_process_table.
      * intros x Hx s w. apply process_table_skip.
        intros t ->. apply (Hjoin table_list t eq_refl Hx).
    + intros sent. log_blind_steps.
  - rewrite !lift_raise_bind. split; [reflexivity | exact Hw].
Qed.

Lemma process_scan_body_tables self scan_result scan_timestamp :
  process_scan_body self scan_result scan_timestamp
  = (DatahubRestEmitter self;;
     now_seconds ← read_clock clock_seconds;
     let scan_id :=
       dict_get scan_result "scanId"
         (PStr ("scan_" ++ py_str (PInt now_seconds))) in
     let checks := dict_get scan_result "checks" (PList []) in
     n_checks ← lift (py_len checks);
     logger INFO ("Processing Soda scan " ++ py_str scan_id ++ " with "
                  ++ py_str (PInt (Z.of_nat n_checks)) ++ " checks");;
     process_tables self
       (dict_get scan_result "dataSourceName" (PStr "unknown")) checks
       (dict_get scan_result "tables" (PList [])) scan_id scan_timestamp).
Proof. reflexivity. Qed.

Lemma process_scan_body_skip self (scan scan' : pydict) (cs1 cs2 : list pyval)
    (c : pydict) scan_timestamp w :
  dict_get scan "checks" (PList []) = PList (cs1 ++ PDict c :: cs2) →
  dict_get scan' "checks" (PList []) = PList (cs1 ++ cs2) →
  (∀ k, k ≠ "checks" → assoc_lookup k scan = assoc_lookup k scan') →
  (∀ table_list t,
     py_iter (dict_get scan "tables" (PList [])) = Ret table_list →
     PDict t ∈ table_list →
     joins (table_name_of t) (schema_name_of t) c = false) →
  agree (process_scan_body self scan scan_timestamp w)
        (process_scan_body self scan' scan_timestamp w).
Proof.
  intros Hchecks Hchecks' Hother Hjoin.
  rewrite !process_scan_body_tables. cbv zeta.
  rewrite Hchecks, Hchecks'.
  apply agree_bind_same. intros [] w0.
  apply agree_bind_same. intros now_seconds w1.
  rewrite !(dict_get_other scan scan') by (assumption || discriminate).
  simpl py_len. rewrite !lift_ret_bind.
  unfold mbind at 1 2, M_bind at 1 2, logger.
  apply process_tables_skip; [exact Hjoin|].
  split; reflexivity.
Qed.

(** C4. A check is selected for a table exactly when its [table] field
    equals the table's name and its [schema] field equals the table's
    schema name: for names that are strings this is equality of the
    strings, character by character, with no case folding.  When the
    table's URN is built, the checks processed for the table are, in
    order, those of the scan that join it, and no other.  For every
    scan result, a check that joins no table of the scan is never
    converted, emitted or counted: leaving it out of the scan changes
    neither what [process_scan_result] returns or raises (the count
    [assertions_sent] included), nor the calls made on the emitter, nor
    the clock readings. *)
Theorem checks_join_tables_exactly self :
  (∀ (table schema : string) (c : pydict),
     check_matches (PStr table) (PStr schema) (PDict c) = Ret true ↔
     dict_get c "table" PNone = PStr table ∧
     dict_get c "schema" PNone = PStr schema) ∧
  (∀ data_source_name (checks : list pyval) scan_id scan_timestamp
     assertions_sent (t : pydict) w,
     Forall is_dict checks →
     process_table self data_source_name (PList checks) scan_id
       scan_timestamp assertions_sent (PDict t) w
     = (platform_instance ← lift (instance_lookup self data_source_name);
        dataset_urn ← _build_dataset_urn self data_source_name
                        (dict_get t "databaseName" (PStr ""))
                        (schema_name_of t) (table_name_of t)
                        platform_instance;
        match dataset_urn with
        | Some urn =>
            if String.eqb urn "" then
              logger WARNING ("Could not build dataset URN for "
                              ++ py_str (schema_name_of t) ++ "."
                              ++ py_str (table_name_of t));;
              mret assertions_sent
            else
              logger INFO ("Processing dataset: " ++ urn);;
              for_each
                (filter (λ c, joins_check (table_name_of t)
                                (schema_name_of t) c = true) checks)
                assertions_sent
                (process_check self urn scan_id scan_timestamp)
        | None =>
            logger WARNING ("Could not build dataset URN for "
                            ++ py_str (schema_name_of t) ++ "."
                            ++ py_str (table_name_of t));;
            mret assertions_sent
        end) w) ∧
  (∀ (scan scan' : pydict) (cs1 cs2 : list pyval) (c : pydict)
     scan_timestamp w,
     dict_get scan "checks" (PList []) = PList (cs1 ++ PDict c :: cs2) →
     dict_get scan' "checks" (PList []) = PList (cs1 ++ cs2) →
     (∀ k, k ≠ "checks" → assoc_lookup k scan = assoc_lookup k scan') →
     (∀ table_list t,
        py_iter (dict_get scan "tables" (PList [])) = Ret table_list →
        PDict t ∈ table_list →
        joins (table_name_of t) (schema_name_of t) c = false) →
     agree (process_scan_result self scan scan_timestamp w)
           (process_scan_result self scan' scan_timestamp w)).
Proof.
  split_and!.
  - intros table schema c. rewrite check_matches_dict, <- joins_strings.
    split; [intros [= ->] | intros ->]; reflexivity.
  - intros. apply process_table_selected. assumption.
  - intros scan scan' cs1 cs2 c scan_timestamp w Hchecks Hchecks' Hother Hjoin.
    rewrite !process_scan_result_start.
    apply agree_try_except.
    + eapply process_scan_body_skip; eassumption.
    + intros e. log_blind_steps.
Qed.

(** * Further properties of the handler *)

(** ** Parsing integers *)



(** ** Converting values to strings *)

(** [convert_to_string] returns a string unchanged, and never raises a
    [TypeError] or a [ValueError]: what [json.dumps] raises of these
    two kinds is replaced by [str] of the value.  An exception that
    leaves it was raised by [json.dumps] on a value that is neither a
    string nor a number. *)
Theorem convert_to_string_cases (var : pyval) :
  (∀ s, var = PStr s → convert_to_string var = Ret s) ∧
  (is_int_or_float var = true → convert_to_string var = Ret (str_of var)) ∧
  (∀ e, json_dumps var = Raise e →
        exn_kind e = TypeError ∨ exn_kind e = ValueError →
        convert_to_string var = Ret (py_str var)) ∧
  (∀ e, convert_to_string var = Raise e →
        exn_kind e ≠ TypeError ∧ exn_kind e ≠ ValueError ∧
        is_str_int_or_float var = false ∧ json_dumps var = Raise e).
Proof.
  unfold convert_to_string. split_and!.
  - intros s ->. reflexivity.
  - intros Hnum. destruct var; try discriminate; reflexivity.
  - intros e Hdumps Hkind.
    destruct (is_str_int_or_float var); [reflexivity|].
    rewrite Hdumps. simpl.
    destruct Hkind as [-> | ->]; reflexivity.
  - intros e. destruct (is_str_int_or_float var); [discriminate|].
    destruct (json_dumps var) as [s|e']; [discriminate|]. simpl.
    destruct (exn_kind e') eqn:Hkind; simpl; try discriminate;
      intros [= <-]; rewrite Hkind; split_and!; congruence.
Qed.

(** ** The counters among the metrics *)

Lemma counter_ids_distinct (id : pyval) (k k' : string) :
  k ≠ k' → py_eq id (PStr k) = true → py_eq id (PStr k') = false.
Proof.
  intros Hne Heq. apply py_eq_str in Heq as ->. simpl.
  apply String.eqb_neq. exact Hne.
Qed.

(** What one iteration does to the three counters. *)
Lemma metric_step_counters (vars vars' : metric_vars) (metric : pyval) :
  metric_step vars metric = Ret vars' →
  match counter_metric_value "row_count" metric with
  | Some value => parse_int_or_default value None = Ret (row_count vars')
  | None => row_count vars' = row_count vars
  end ∧
  match counter_metric_value "missing_count" metric with
  | Some value => parse_int_or_default value None = Ret (missing_count vars')
  | None => missing_count vars' = missing_count vars
  end ∧
  match counter_metric_value "unexpected_count" metric with
  | Some value => parse_int_or_default value None = Ret (unexpected_count vars')
  | None => unexpected_count vars' = unexpected_count vars
  end.
Proof.
  unfold metric_step. intros Hstep.
  apply outcome_bind_ret in Hstep as (id & Hid & Hstep).
  apply outcome_bind_ret in Hstep as (value & Hvalue & Hstep).
  apply py_get_ret in Hid as (m & -> & ->).
  simpl in Hvalue. injection Hvalue as <-.
  unfold counter_metric_value.
  destruct (py_eq _ (PStr "row_count")) eqn:E1.
  { rewrite (counter_ids_distinct _ "row_count" "missing_count"),
      (counter_ids_distinct _ "row_count" "unexpected_count")
      by (discriminate || exact E1).
    apply outcome_bind_ret in Hstep as (n & Hn & [= <-]). simpl. auto. }
  destruct (py_eq _ (PStr "missing_count")) eqn:E2.
  { rewrite (counter_ids_distinct _ "missing_count" "unexpected_count")
      by (discriminate || exact E2).
    apply outcome_bind_ret in Hstep as (n & Hn & [= <-]). simpl. auto. }
  destruct (py_eq _ (PStr "unexpected_count")) eqn:E3.
  { apply outcome_bind_ret in Hstep as (n & Hn & [= <-]). simpl. auto. }
  destruct (py_in_list _ AGG_METRIC_IDS).
  - destruct (is_int_or_float _); injection Hstep as <-; simpl; auto.
  - injection Hstep as <-. auto.
Qed.

Lemma counter_loop_step (f : pyval → option pyval)
    (get : metric_vars → option Z) (metric : pyval) (rest : list pyval)
    (vars0 vars1 vars : metric_vars) :
  match f metric with
  | Some value => parse_int_or_default value None = Ret (get vars1)
  | None => get vars1 = get vars0
  end →
  match last (omap f rest) with
  | Some value => parse_int_or_default value None = Ret (get vars)
  | None => get vars = get vars1
  end →
  match last (omap f (metric :: rest)) with
  | Some value => parse_int_or_default value None = Ret (get vars)
  | None => get vars = get vars0
  end.
Proof.
  intros Hstep Hrest.
  change (omap f (metric :: rest))
    with (match f metric with
          | Some y => y :: omap f rest
          | None => omap f rest
          end).
  destruct (f metric) as [v|].
  - rewrite last_cons. destruct (last (omap f rest)); [exact Hrest | congruence].
  - destruct (last (omap f rest)); [exact Hrest | congruence].
Qed.

Lemma metrics_loop_counters (metric_list : list pyval)
    (vars0 vars : metric_vars) :
  fold_outcome metric_step metric_list vars0 = Ret vars →
  match last (omap (counter_metric_value "row_count") metric_list) with
  | Some value => parse_int_or_default value None = Ret (row_count vars)
  | None => row_count vars = row_count vars0
  end ∧
  match last (omap (counter_metric_value "missing_count") metric_list) with
  | Some value => parse_int_or_default value None = Ret (missing_count vars)
  | None => missing_count vars = missing_count vars0
  end ∧
  match last (omap (counter_metric_value "unexpected_count") metric_list) with
  | Some value => parse_int_or_default value None = Ret (unexpected_count vars)
  | None => unexpected_count vars = unexpected_count vars0
  end.
Proof.
  revert vars0. induction metric_list as [|metric rest IH]; intros vars0 Hfold.
  - injection Hfold as <-. simpl. auto.
  - simpl in Hfold. apply outcome_bind_ret in Hfold as (vars1 & Hstep & Hfold).
    destruct (IH _ Hfold) as (IH1 & IH2 & IH3).
    destruct (metric_step_counters _ _ _ Hstep) as (S1 & S2 & S3).
    split_and!; eapply counter_loop_step; eassumption.
Qed.

(** In a converted check each of [rowCount], [missingCount] and
    [unexpectedCount] is what the last metric with the id [row_count],
    [missing_count], [unexpected_count] parses to, whatever came
    before: a later metric of the same id replaces the count, also by
    [None] when its value does not parse.  A count no metric names is
    [None]. *)
Theorem counters_last_metric_wins self check dataset_urn scan_id
    scan_timestamp w info ev w' :
  _convert_check_to_assertion self check dataset_urn scan_id scan_timestamp w
    = (Ret (Some info, Some ev), w') →
  ∃ d metric_list,
    check = PDict d ∧
    py_iter (dict_get d "metrics" (PList [])) = Ret metric_list ∧
    let result := AssertionRunEvent.result ev in
    counter_is "row_count" metric_list (AssertionResult.rowCount result) ∧
    counter_is "missing_count" metric_list
      (AssertionResult.missingCount result) ∧
    counter_is "unexpected_count" metric_list
      (AssertionResult.unexpectedCount result).
Proof.
  intros Hrun. apply convert_conversion in Hrun as (d & -> & _ & Hconv).
  destruct (conv_metrics _ _ _ _ _ _ _ Hconv)
    as (metric_list & vars & Hiter & Hfold & Hrow & Hmissing & Hunexpected & _).
  exists d, metric_list. split; [reflexivity|]. split; [exact Hiter|].
  destruct (metrics_loop_counters _ _ _ Hfold) as (L1 & L2 & L3).
  simpl. rewrite Hrow, Hmissing, Hunexpected. unfold counter_is.
  split_and!.
  - destruct (last _); [exact L1 | exact L1].
  - destruct (last _); [exact L2 | exact L2].
  - destruct (last _); [exact L3 | exact L3].
Qed.

(** ** What a converted check carries *)

Lemma build_assertion_info_ret check_type definition dataset_urn
    assertion_fields check_name info :
  _build_assertion_info check_type definition dataset_urn assertion_fields
    check_name = Ret info →
  (∃ ty, check_type = PStr ty) ∧
  AssertionInfo.type info = AssertionType.DATASET ∧
  AssertionInfo.customProperties info
    = [("check_name", check_name); ("soda_check_type", check_type)] ∧
  let a := AssertionInfo.datasetAssertion info in
  DatasetAssertionInfo.dataset a = dataset_urn ∧
  DatasetAssertionInfo.fields a = assertion_fields ∧
  DatasetAssertionInfo.nativeType a = check_type ∧
  DatasetAssertionInfo.nativeParameters a = [("definition", definition)].
Proof.
  unfold _build_assertion_info. intros Hinfo.
  apply outcome_bind_ret in Hinfo as (check_lower & Hlower & Hinfo).
  apply py_lower_ret in Hlower as (ty & -> & ->).
  split; [eauto|].
  destruct (str_in "null" (lower ty) || str_in "missing" (lower ty));
    [injection Hinfo as <-; simpl; auto 10|].
  destruct (str_in "unique" (lower ty));
    [injection Hinfo as <-; simpl; auto 10|].
  destruct (str_in "row_count" (lower ty) || str_in "count" (lower ty));
    [injection Hinfo as <-; simpl; auto 10|].
  destruct (str_in "schema" (lower ty));
    [injection Hinfo as <-; simpl; auto 10|].
  destruct (fields_truthy assertion_fields);
    injection Hinfo as <-; simpl; auto 10.
Qed.

(** The event of a successful conversion, field by field. *)
Lemma convert_check_body_event self check dataset_urn scan_id scan_timestamp
    w r w' :
  convert_check_body self check dataset_urn scan_id scan_timestamp w
    = (Ret r, w') →
  ∃ d info ev,
    check = PDict d ∧ r = (Some info, Some ev) ∧
    let check_name := dict_get d "name" (PStr "unknown_check") in
    let check_type := dict_get d "type" (PStr "unknown") in
    let definition := dict_get d "definition" (PStr "") in
    (∃ fields,
       build_assertion_fields dataset_urn (dict_get d "column" PNone)
         = Ret fields ∧
       _build_assertion_info check_type definition dataset_urn fields
         check_name = Ret info) ∧
    AssertionRunEvent.batchSpec ev
      = {| BatchSpec.nativeBatchId := scan_id;
           BatchSpec.query :=
             if py_truthy definition then definition else PStr "";
           BatchSpec.customProperties :=
             [ ("check_name", check_name); ("check_type", check_type);
               ("soda_scan_id", scan_id) ] |} ∧
    AssertionRunEvent.timestampMillis ev = clock_millis (ticks w) ∧
    AssertionRunEvent.asserteeUrn ev = dataset_urn ∧
    AssertionRunEvent.runId ev = strftime scan_timestamp ∧
    AssertionRunEvent.status ev = AssertionRunStatus.COMPLETE.
Proof.
  intros Hrun. unfold convert_check_body in Hrun. run_inv Hrun.
  apply py_get_ret in Hrun0 as (d & -> & ->).
  simpl in Hrun, Hrun1, Hrun2, Hrun3, Hrun4.
  injection Hrun as <-. injection Hrun1 as <-. injection Hrun2 as <-.
  injection Hrun3 as <-. injection Hrun4 as <-.
  unfold read_clock in Hrun12. injection Hrun12 as <- <-.
  eexists d, _, _. split; [reflexivity|]. split; [reflexivity|].
  simpl. split_and!; try reflexivity.
  eexists. split; eassumption.
Qed.

Lemma convert_event self check dataset_urn scan_id scan_timestamp w info ev w' :
  _convert_check_to_assertion self check dataset_urn scan_id scan_timestamp w
    = (Ret (Some info, Some ev), w') →
  ∃ d,
    check = PDict d ∧
    let check_name := dict_get d "name" (PStr "unknown_check") in
    let check_type := dict_get d "type" (PStr "unknown") in
    let definition := dict_get d "definition" (PStr "") in
    (∃ fields,
       build_assertion_fields dataset_urn (dict_get d "column" PNone)
         = Ret fields ∧
       _build_assertion_info check_type definition dataset_urn fields
         check_name = Ret info) ∧
    AssertionRunEvent.batchSpec ev
      = {| BatchSpec.nativeBatchId := scan_id;
           BatchSpec.query :=
             if py_truthy definition then definition else PStr "";
           BatchSpec.customProperties :=
             [ ("check_name", check_name); ("check_type", check_type);
               ("soda_scan_id", scan_id) ] |} ∧
    AssertionRunEvent.timestampMillis ev = clock_millis (ticks w) ∧
    AssertionRunEvent.asserteeUrn ev = dataset_urn ∧
    AssertionRunEvent.runId ev = strftime scan_timestamp ∧
    AssertionRunEvent.status ev = AssertionRunStatus.COMPLETE.
Proof.
  intros Hrun. apply convert_some_ret, convert_check_body_event in Hrun
    as (d & info' & ev' & -> & [= <- <-] & Hev).
  exists d. split; [reflexivity | exact Hev].
Qed.

(** A converted check yields a definition and an outcome that describe
    the same assertion: the definition names the dataset the outcome
    asserts on, carries the check's type as native type, its definition
    as the one native parameter and its name and type as custom
    properties, with the defaults [unknown_check], [unknown] and [""]
    for absent keys; its fields are absent when the column is falsy and
    else the one schema field URN of that column.  The outcome's batch
    carries the scan id and, as query, the definition, [""] replacing a
    falsy one; the run id is the formatted scan timestamp and the
    status is COMPLETE. *)
Theorem converted_check_payload self check dataset_urn scan_id scan_timestamp
    w info ev w' :
  _convert_check_to_assertion self check dataset_urn scan_id scan_timestamp w
    = (Ret (Some info, Some ev), w') →
  ∃ d,
    check = PDict d ∧
    let check_name := dict_get d "name" (PStr "unknown_check") in
    let check_type := dict_get d "type" (PStr "unknown") in
    let definition := dict_get d "definition" (PStr "") in
    let column := dict_get d "column" PNone in
    let a := AssertionInfo.datasetAssertion info in
    AssertionInfo.type info = AssertionType.DATASET ∧
    AssertionInfo.customProperties info
      = [("check_name", check_name); ("soda_check_type", check_type)] ∧
    DatasetAssertionInfo.dataset a = AssertionRunEvent.asserteeUrn ev ∧
    AssertionRunEvent.asserteeUrn ev = dataset_urn ∧
    DatasetAssertionInfo.nativeType a = check_type ∧
    DatasetAssertionInfo.nativeParameters a = [("definition", definition)] ∧
    (py_truthy column = false → DatasetAssertionInfo.fields a = None) ∧
    (py_truthy column = true →
     ∃ f, make_schema_field_urn dataset_urn column = Ret f ∧
          DatasetAssertionInfo.fields a = Some [f]) ∧
    BatchSpec.nativeBatchId (AssertionRunEvent.batchSpec ev) = scan_id ∧
    BatchSpec.query (AssertionRunEvent.batchSpec ev)
      = (if py_truthy definition then definition else PStr "") ∧
    BatchSpec.customProperties (AssertionRunEvent.batchSpec ev)
      = [ ("check_name", check_name); ("check_type", check_type);
          ("soda_scan_id", scan_id) ] ∧
    AssertionRunEvent.runId ev = strftime scan_timestamp ∧
    AssertionRunEvent.status ev = AssertionRunStatus.COMPLETE.
Proof.
  intros Hrun. apply convert_event in Hrun
    as (d & -> & (fields & Hfields & Hinfo) & Hbatch & _ & Hassertee & Hrun_id
        & Hstatus).
  exists d. split; [reflexivity|]. simpl.
  apply build_assertion_info_ret in Hinfo
    as (_ & Hty & Hprops & Hds & Hf & Hnt & Hnp).
  simpl in Hds, Hf, Hnt, Hnp. rewrite Hbatch. simpl.
  split_and!; try assumption; try reflexivity.
  - congruence.
  - intros Hfalsy. rewrite Hf.
    eapply build_assertion_fields_falsy; eassumption.
  - intros Htruthy. unfold build_assertion_fields in Hfields.
    rewrite Htruthy in Hfields.
    apply outcome_bind_ret in Hfields as (f & Hf' & [= <-]).
    exists f. split; [exact Hf' | exact Hf].
Qed.

(** ** Checks that cannot be converted *)

Lemma convert_check_never_raises_total self check dataset_urn scan_id
    scan_timestamp w :
  ∃ r w',
    _convert_check_to_assertion self check dataset_urn scan_id scan_timestamp w
      = (Ret r, w').
Proof.
  unfold _convert_check_to_assertion, try_except.
  destruct (convert_check_body _ _ _ _ _ w) as [[r|e] w1]; eauto.
Qed.

Lemma convert_both_or_none self check dataset_urn scan_id scan_timestamp w r w' :
  _convert_check_to_assertion self check dataset_urn scan_id scan_timestamp w
    = (Ret r, w') →
  r = (None, None) ∨ ∃ info ev, r = (Some info, Some ev).
Proof.
  unfold _convert_check_to_assertion, try_except.
  destruct (convert_check_body _ _ _ _ _ w) as [[r0|e] w1] eqn:Hbody.
  - intros [= <- <-].
    apply convert_check_body_ret in Hbody as (d & info & ev & _ & -> & _).
    eauto.
  - simpl. intros [= <- _]. auto.
Qed.

Lemma metric_step_dict (vars vars' : metric_vars) (metric : pyval) :
  metric_step vars metric = Ret vars' →
  is_dict metric ∧ ¬ infinite_counter metric.
Proof.
  intros Hstep.
  pose proof (metric_step_counters _ _ _ Hstep) as (S1 & S2 & S3).
  unfold metric_step in Hstep.
  apply outcome_bind_ret in Hstep as (id & Hid & _).
  apply py_get_ret in Hid as (m & -> & _).
  split; [eexists; reflexivity|].
  intros (counter & negative & Hin & Hvalue).
  apply list_elem_of_In in Hin. simpl in Hin.
  destruct Hin as [<- | [<- | [<- | []]]]; rewrite Hvalue in *; discriminate.
Qed.

Lemma metrics_loop_dicts (metric_list : list pyval) (vars0 vars : metric_vars) :
  fold_outcome metric_step metric_list vars0 = Ret vars →
  Forall (λ metric, is_dict metric ∧ ¬ infinite_counter metric) metric_list.
Proof.
  revert vars0. induction metric_list as [|metric rest IH]; intros vars0 Hfold.
  - constructor.
  - simpl in Hfold. apply outcome_bind_ret in Hfold as (vars1 & Hstep & Hfold).
    constructor; [eapply metric_step_dict; eassumption | eapply IH; eassumption].
Qed.

(** [_convert_check_to_assertion] returns either a definition together
    with an outcome or the pair [(None, None)], never one without the
    other.  It returns the former only for a check that is a
    dictionary whose outcome and type (with their defaults) are strings
    and whose metrics can be iterated, every metric being a dictionary
    and no counter metric having an infinite value; every other check
    gives [(None, None)]. *)
Theorem convertible_checks self check dataset_urn scan_id scan_timestamp w :
  ∃ r w',
    _convert_check_to_assertion self check dataset_urn scan_id scan_timestamp w
      = (Ret r, w') ∧
    (r = (None, None) ∨
     ∃ info ev d outcome ty metric_list,
       r = (Some info, Some ev) ∧ check = PDict d ∧
       dict_get d "outcome" (PStr "unknown") = PStr outcome ∧
       dict_get d "type" (PStr "unknown") = PStr ty ∧
       py_iter (dict_get d "metrics" (PList [])) = Ret metric_list ∧
       Forall (λ metric, is_dict metric ∧ ¬ infinite_counter metric)
         metric_list).
Proof.
  destruct (convert_check_never_raises_total self check dataset_urn scan_id
              scan_timestamp w) as (r & w' & Hrun).
  exists r, w'. split; [exact Hrun|].
  destruct (convert_both_or_none _ _ _ _ _ _ _ _ Hrun)
    as [-> | (info & ev & ->)]; [left; reflexivity | right].
  pose proof (convert_conversion _ _ _ _ _ _ _ _ _ Hrun) as (d & -> & _ & Hconv).
  destruct (conv_outcome _ _ _ _ _ _ _ Hconv) as (outcome & Houtcome & _).
  destruct (conv_metrics _ _ _ _ _ _ _ Hconv)
    as (metric_list & vars & Hiter & Hfold & _).
  destruct (conv_urn _ _ _ _ _ _ _ Hconv)
    as (fields & key & guid & _ & _ & _ & _ & Hinfo).
  apply build_assertion_info_ret in Hinfo as ((ty & Hty) & _).
  exists info, ev, d, outcome, ty, metric_list.
  split_and!; try reflexivity; try assumption.
  eapply metrics_loop_dicts; eassumption.
Qed.

(** ** Native results *)

Lemma map_outcome_ret {A B} (f : A → outcome B) (l : list A) (l' : list B) :
  map_outcome f l = Ret l' → Forall2 (λ x y, f x = Ret y) l l'.
Proof.
  revert l'. induction l as [|x l IH]; intros l' Hmap.
  - injection Hmap as <-. constructor.
  - simpl in Hmap. apply outcome_bind_ret in Hmap as (y & Hy & Hmap).
    apply outcome_bind_ret in Hmap as (ys & Hys & [= <-]).
    constructor; [exact Hy | apply IH, Hys].
Qed.

Lemma native_results_ret (d : pydict) (native : list (string * string)) :
  native_results (PDict d) = Ret native →
  Forall2
    (λ item out, fst out = fst item ∧ convert_to_string (snd item) = Ret (snd out))
    (filter (λ kv, (negb (str_in_list (fst kv) RESERVED_KEYS)
                    && negb (is_none (snd kv))) = true) d)
    native.
Proof.
  unfold native_results. simpl. intros Hmap.
  apply map_outcome_ret in Hmap.
  eapply Forall2_impl; [exact Hmap|].
  intros [k v] [k' s] Hitem. simpl in *.
  apply outcome_bind_ret in Hitem as (s' & Hs & [= <- <-]). auto.
Qed.

Lemma Forall2_same_keys {A B} (P : A → B → Prop) (l : list (string * A))
    (l' : list (string * B)) :
  Forall2 (λ item out, fst out = fst item ∧ P (snd item) (snd out)) l l' →
  map fst l' = map fst l.
Proof.
  induction 1 as [|item out l l' [Hk _] _ IH]; [reflexivity|].
  simpl. rewrite Hk, IH. reflexivity.
Qed.

Lemma reserved_key_spec (k : string) :
  str_in_list k RESERVED_KEYS = true ↔ k ∈ RESERVED_KEYS.
Proof.
  unfold str_in_list. rewrite existsb_exists. split.
  - intros (k' & Hin & Heq). apply String.eqb_eq in Heq as ->.
    apply list_elem_of_In. exact Hin.
  - intros Hin. exists k. split; [apply list_elem_of_In; exact Hin|].
    apply String.eqb_refl.
Qed.

Lemma is_none_spec (v : pyval) : is_none v = true ↔ v = PNone.
Proof. destruct v; simpl; split; (reflexivity || discriminate). Qed.

(** The native results of a converted check hold, in the order of the
    check's items, one entry for every item whose key is none of
    [name], [type], [definition], [outcome] and whose value is not
    null, the value being turned into a string; they hold nothing
    else.  So the four reserved keys never appear, and [table],
    [schema], [column] and [metrics] do whenever the check has them. *)
Theorem native_results_items self check dataset_urn scan_id scan_timestamp
    w info ev w' :
  _convert_check_to_assertion self check dataset_urn scan_id scan_timestamp w
    = (Ret (Some info, Some ev), w') →
  ∃ d,
    check = PDict d ∧
    let native :=
      AssertionResult.nativeResults (AssertionRunEvent.result ev) in
    map fst native
      = map fst (filter (λ kv, (negb (str_in_list (fst kv) RESERVED_KEYS)
                                && negb (is_none (snd kv))) = true) d) ∧
    (∀ k s, (k, s) ∈ native →
            (k ∉ RESERVED_KEYS) ∧
            ∃ v, (k, v) ∈ d ∧ v ≠ PNone ∧ convert_to_string v = Ret s) ∧
    (∀ k v, (k, v) ∈ d → k ∉ RESERVED_KEYS → v ≠ PNone →
            ∃ s, (k, s) ∈ native ∧ convert_to_string v = Ret s).
Proof.
  intros Hrun. apply convert_conversion in Hrun as (d & -> & _ & Hconv).
  destruct (conv_run _ _ _ _ _ _ _ Hconv) as (_ & _ & _ & _ & _ & Hnative).
  apply native_results_ret in Hnative.
  exists d. split; [reflexivity|]. simpl.
  set (native := AssertionResult.nativeResults (AssertionRunEvent.result ev))
    in *.
  split_and!.
  - apply (Forall2_same_keys (λ v s, convert_to_string v = Ret s)), Hnative.
  - intros k s Hin.
    apply list_elem_of_lookup in Hin as (i & Hi).
    destruct (Forall2_lookup_r _ _ _ i _ Hnative Hi)
      as ([k0 v] & Hitem & Hk & Hs).
    simpl in Hk, Hs. subst k0.
    apply list_elem_of_lookup_2, list_elem_of_filter in Hitem
      as [Hkeep Hind].
    simpl in Hkeep. apply andb_true_iff in Hkeep as [Hres Hnone].
    apply negb_true_iff in Hres, Hnone. simpl in Hnone.
    split.
    + intros Hreserved. apply reserved_key_spec in Hreserved.
      change (str_in_list k RESERVED_KEYS = false) in Hres. congruence.
    + exists v. split_and!; [exact Hind | | exact Hs].
      intros ->. discriminate Hnone.
  - intros k v Hin Hres Hnone.
    assert ((k, v) ∈ filter (λ kv, (negb (str_in_list (fst kv) RESERVED_KEYS)
                                    && negb (is_none (snd kv))) = true) d)
      as Hkept.
    { apply list_elem_of_filter. split; [|exact Hin]. cbn [fst snd].
      apply andb_true_iff. split; apply negb_true_iff.
      - destruct (str_in_list k RESERVED_KEYS) eqn:E; [|reflexivity].
        apply reserved_key_spec in E. contradiction.
      - destruct (is_none v) eqn:E; [|reflexivity].
        apply is_none_spec in E. contradiction. }
    apply list_elem_of_lookup in Hkept as (i & Hi).
    destruct (Forall2_lookup_l _ _ _ i _ Hnative Hi) as ([k' s] & Hout & Hk & Hs).
    simpl in Hk, Hs. subst k'.
    exists s. split; [eapply list_elem_of_lookup_2; exact Hout | exact Hs].
Qed.

(** ** Resolving the platform *)





(** ** Failures in building the dataset URN *)




(** ** Calls on the emitter *)

Lemma quiet_ret {A} (x : A) : quiet (mret x).
Proof. intros w r w' [= _ <-]. reflexivity. Qed.

Lemma quiet_lift {A} (o : outcome A) : quiet (lift o).
Proof. intros w r w' [= _ <-]. reflexivity. Qed.

Lemma quiet_throw {A} (e : exn) : quiet (throw e : M A).
Proof. intros w r w' [= _ <-]. reflexivity. Qed.

Lemma quiet_logger lvl msg : quiet (logger lvl msg).
Proof. intros w r w' [= _ <-]. reflexivity. Qed.

Lemma quiet_read_clock {A} (reading : nat → A) : quiet (read_clock reading).
Proof. intros w r w' [= _ <-]. reflexivity. Qed.

Lemma quiet_emitter self : quiet (DatahubRestEmitter self).
Proof.
  unfold DatahubRestEmitter. destruct (DatahubRestEmitter_raises self);
    [apply quiet_throw | apply quiet_ret].
Qed.

Lemma quiet_bind {A B} (m : M A) (f : A → M B) :
  quiet m → (∀ a, quiet (f a)) → quiet (m ≫= f).
Proof.
  intros Hm Hf w r w'. unfold mbind, M_bind.
  destruct (m w) as [[a|e] w1] eqn:Hrun.
  - intros Hf'. rewrite (Hf a _ _ _ Hf'). eapply Hm, Hrun.
  - intros [= _ <-]. eapply Hm, Hrun.
Qed.

Lemma quiet_try_except {A} (body : M A) (handler : exn → M A) :
  quiet body → (∀ e, quiet (handler e)) → quiet (try_except body handler).
Proof.
  intros Hbody Hhandler w r w'. unfold try_except.
  destruct (body w) as [[a|e] w1] eqn:Hrun.
  - intros [= _ <-]. eapply Hbody, Hrun.
  - intros Hh. rewrite (Hhandler e _ _ _ Hh). eapply Hbody, Hrun.
Qed.

Create HintDb quiet.

#[local] Hint Resolve quiet_ret quiet_lift quiet_throw quiet_logger
  quiet_read_clock quiet_emitter : quiet.

Ltac quiet_steps :=
  repeat first
    [ solve [auto with quiet]
    | apply quiet_bind; [|intros ?]
    | apply quiet_try_except; [|intros ?]
    | match goal with
      | |- quiet (if ?b then _ else _) => destruct b
      | |- quiet (match ?x with _ => _ end) => destruct x
      end ].

Lemma quiet_build_dataset_urn self data_source_name database_name schema_name
    table_name platform_instance :
  quiet (_build_dataset_urn self data_source_name database_name schema_name
           table_name platform_instance).
Proof. unfold _build_dataset_urn. cbv zeta. quiet_steps. Qed.

Lemma quiet_convert self check dataset_urn scan_id scan_timestamp :
  quiet (_convert_check_to_assertion self check dataset_urn scan_id
           scan_timestamp).
Proof.
  unfold _convert_check_to_assertion, convert_check_body. cbv zeta.
  quiet_steps.
Qed.

#[local] Hint Resolve quiet_build_dataset_urn quiet_convert : quiet.

Lemma all_returned_nil self base : all_returned self base [].
Proof. intros pre mcp post Hnew. destruct pre; discriminate. Qed.

Lemma split_across_app {A} (new1 new2 pre post : list A) (x : A) :
  (new1 ++ new2 = pre ++ x :: post)%list →
  (∃ post1, new1 = (pre ++ x :: post1)%list) ∨
  (∃ pre2, pre = (new1 ++ pre2)%list ∧ new2 = (pre2 ++ x :: post)%list).
Proof.
  intros Hsplit. apply app_eq_inv in Hsplit as [(k & -> & Hk) | (k & -> & ->)].
  - destruct k as [|y k].
    + right. exists []. simpl in Hk. rewrite !app_nil_r. auto.
    + injection Hk as <- _. left. eauto.
  - right. eauto.
Qed.

Lemma all_returned_app self base new1 new2 :
  all_returned self base new1 →
  all_returned self (base ++ new1)%list new2 →
  all_returned self base (new1 ++ new2)%list.
Proof.
  intros H1 H2 pre mcp post Hsplit.
  apply split_across_app in Hsplit as [(post1 & ->) | (pre2 & -> & ->)].
  - eapply H1. reflexivity.
  - rewrite app_assoc. eapply H2. reflexivity.
Qed.


(** ** The calls made on the emitter *)

Lemma sends_same_calls self Q n (w w1 : world) run :
  emit_calls w1 = emit_calls w →
  sends self Q n w1 run → sends self Q n w run.
Proof. unfold sends. intros ->. trivial. Qed.

Lemma sends_ret self Q n w : sends self Q n w (Ret n, w).
Proof.
  exists []. simpl. rewrite app_nil_r, Nat.add_0_r.
  split_and!; [reflexivity | reflexivity | constructor | apply all_returned_nil].
Qed.

Lemma sends_raise self Q n w e w' :
  emit_calls w' = emit_calls w → sends self Q n w (Raise e, w').
Proof.
  intros Hcalls. exists [], []. simpl. rewrite app_nil_r.
  split_and!; [exact Hcalls | constructor | apply all_returned_nil | by left].
Qed.

Lemma interrupted_weaken self (Q Q' : _ → Prop) base e partial :
  (∀ p, Q p → Q' p) →
  interrupted self Q base e partial → interrupted self Q' base e partial.
Proof.
  intros Hsub [-> | (p & pre & mcp & Hp & Hrest)]; [by left|].
  right. exists p, pre, mcp. split; [apply Hsub, Hp | exact Hrest].
Qed.

Lemma sends_weaken self (Q Q' : _ → Prop) n w run :
  (∀ p, Q p → Q' p) → sends self Q n w run → sends self Q' n w run.
Proof.
  intros Hsub. unfold sends. destruct (fst run) as [n'|e].
  - intros (pairs & Hn & Hcalls & Hall & Hret). exists pairs.
    split_and!; [exact Hn | exact Hcalls | | exact Hret].
    eapply Forall_impl; [exact Hall | exact Hsub].
  - intros (pairs & partial & Hcalls & Hall & Hret & Hcut).
    exists pairs, partial.
    split_and!; [exact Hcalls | | exact Hret |].
    + eapply Forall_impl; [exact Hall | exact Hsub].
    + eapply interrupted_weaken; [exact Hsub | exact Hcut].
Qed.

Lemma all_returned_cons self base mcp rest :
  emit_mcp_raises self base mcp = None →
  all_returned self (base ++ [mcp])%list rest →
  all_returned self base (mcp :: rest).
Proof.
  intros Hfirst Hrest pre mcp' post Hsplit.
  destruct pre as [|x pre]; simplify_eq/=.
  - rewrite app_nil_r. exact Hfirst.
  - specialize (Hrest pre mcp' post eq_refl).
    rewrite <- app_assoc in Hrest. exact Hrest.
Qed.

Lemma interrupted_at self (Q : _ → Prop) base e info ev pre mcp post :
  Q (info, ev) →
  assertion_mcps info ev = (pre ++ mcp :: post)%list →
  all_returned self base pre →
  emit_mcp_raises self (base ++ pre) mcp = Some e →
  interrupted self Q base e (pre ++ [mcp]).
Proof.
  intros Hscan Hsplit Hpre Hlast. right. exists (info, ev), pre, mcp.
  split_and!; [exact Hscan | reflexivity | | exact Hpre | exact Hlast].
  exists post. simpl. rewrite Hsplit, <- app_assoc. reflexivity.
Qed.

(** After a quiet prefix, what counts is what follows. *)
Lemma sends_after_quiet {A} self Q n w (m : M A) (f : A → M nat) :
  quiet m →
  (∀ a w1, m w = (Ret a, w1) → sends self Q n w1 (f a w1)) →
  sends self Q n w ((m ≫= f) w).
Proof.
  intros Hm Hf. unfold mbind, M_bind.
  destruct (m w) as [[a|e] w1] eqn:Hrun.
  - eapply sends_same_calls; [eapply Hm, Hrun | apply Hf; reflexivity].
  - apply sends_raise. eapply Hm, Hrun.
Qed.

(** Two runs in a row. *)
Lemma sends_then self Q n w (m : M nat) (f : nat → M nat) :
  sends self Q n w (m w) →
  (∀ n1 w1, sends self Q n1 w1 (f n1 w1)) →
  sends self Q n w ((m ≫= f) w).
Proof.
  intros Hm Hf. unfold mbind, M_bind.
  destruct (m w) as [[n1|e] w1] eqn:Hrun; [|exact Hm].
  destruct Hm as (pairs1 & -> & Hcalls1 & Hscan1 & Hret1). simpl in Hcalls1.
  specialize (Hf (n + length pairs1)%nat w1). unfold sends in *.
  destruct (f _ w1) as [[n2|e] w2]; simpl in *.
  - destruct Hf as (pairs2 & -> & Hcalls2 & Hscan2 & Hret2).
    exists (pairs1 ++ pairs2)%list. split_and!.
    + rewrite length_app. lia.
    + rewrite Hcalls2, Hcalls1. unfold mcps_of.
      rewrite flat_map_app, app_assoc. reflexivity.
    + apply Forall_app. auto.
    + unfold mcps_of in *. rewrite flat_map_app.
      apply all_returned_app; [exact Hret1|]. rewrite <- Hcalls1. exact Hret2.
  - destruct Hf as (pairs2 & partial & Hcalls2 & Hscan2 & Hret2 & Hcut).
    exists (pairs1 ++ pairs2)%list, partial.
    assert (emit_calls w ++ mcps_of (pairs1 ++ pairs2)
            = emit_calls w1 ++ mcps_of pairs2)%list as Hbase.
    { rewrite Hcalls1. unfold mcps_of.
      rewrite flat_map_app, app_assoc. reflexivity. }
    split_and!.
    + rewrite app_assoc, Hbase, <- app_assoc. exact Hcalls2.
    + apply Forall_app. auto.
    + unfold mcps_of in *. rewrite flat_map_app.
      apply all_returned_app; [exact Hret1|]. rewrite <- Hcalls1. exact Hret2.
    + rewrite Hbase. exact Hcut.
Qed.

Lemma sends_for_each {A} self (Q : A → _ → Prop) (Q' : _ → Prop) (l : list A)
    (body : nat → A → M nat) :
  (∀ x p, x ∈ l → Q x p → Q' p) →
  (∀ n x w, sends self (Q x) n w (body n x w)) →
  ∀ n w, sends self Q' n w (for_each l n body w).
Proof.
  intros Hsub Hbody. induction l as [|x l IH]; intros n w; simpl.
  - apply sends_ret.
  - apply sends_then.
    + eapply sends_weaken; [|apply Hbody].
      intros p. apply Hsub. left.
    + intros n1 w1. apply IH. intros y p Hy. apply Hsub. right. exact Hy.
Qed.

(** The three emits of one converted check. *)
Lemma sends_emit_assertion self (Q : _ → Prop) n info ev w :
  Q (info, ev) →
  sends self Q n w ((emit_assertion self info ev;; mret (n + 1)%nat) w).
Proof.
  intros Hscan. unfold mbind at 1, M_bind at 1. rewrite emit_assertion_run.
  cbv zeta. unfold sends.
  set (m1 := MetadataChangeProposalWrapper.mk _ (AssertionInfoAspect info)).
  set (m2 := MetadataChangeProposalWrapper.mk _ (DataPlatformInstanceAspect _)).
  set (m3 := MetadataChangeProposalWrapper.mk _ (AssertionRunEventAspect ev)).
  assert (assertion_mcps info ev = [m1; m2; m3]) as Hmcps by reflexivity.
  destruct (emit_mcp_raises self (emit_calls w) m1) as [e|] eqn:E1.
  { simpl. exists [], ([] ++ [m1])%list.
    split_and!; [reflexivity | constructor | apply all_returned_nil |].
    apply (interrupted_at _ _ _ _ info ev [] m1 [m2; m3]);
      [exact Hscan | exact Hmcps | apply all_returned_nil |].
    simpl. rewrite !app_nil_r. exact E1. }
  destruct (emit_mcp_raises self (emit_calls w ++ [m1]) m2) as [e|] eqn:E2.
  { simpl. exists [], ([m1] ++ [m2])%list.
    split_and!; [reflexivity | constructor | apply all_returned_nil |].
    apply (interrupted_at _ _ _ _ info ev [m1] m2 [m3]);
      [exact Hscan | exact Hmcps | |].
    - simpl. rewrite app_nil_r.
      apply all_returned_cons; [exact E1 | apply all_returned_nil].
    - simpl. rewrite app_nil_r. exact E2. }
  destruct (emit_mcp_raises self (emit_calls w ++ [m1; m2]) m3) as [e|] eqn:E3.
  { simpl. exists [], ([m1; m2] ++ [m3])%list.
    split_and!; [reflexivity | constructor | apply all_returned_nil |].
    apply (interrupted_at _ _ _ _ info ev [m1; m2] m3 []);
      [exact Hscan | exact Hmcps | |].
    - simpl. rewrite app_nil_r.
      apply all_returned_cons; [exact E1|].
      apply all_returned_cons; [exact E2 | apply all_returned_nil].
    - simpl. rewrite app_nil_r. exact E3. }
  simpl. exists [(info, ev)]. split_and!.
  - reflexivity.
  - reflexivity.
  - constructor; [exact Hscan | constructor].
  - unfold mcps_of. simpl. fold m1 m2 m3.
    apply all_returned_cons; [exact E1|].
    apply all_returned_cons; [exact E2|].
    apply all_returned_cons; [|apply all_returned_nil].
    rewrite <- app_assoc. exact E3.
Qed.

Lemma sends_process_check self dataset_urn scan_id scan_timestamp n check w :
  sends self (about scan_id scan_timestamp dataset_urn) n w
    (process_check self dataset_urn scan_id scan_timestamp n check w).
Proof.
  unfold process_check, mbind at 1, M_bind at 1.
  destruct (_convert_check_to_assertion _ _ _ _ _ w) as [[r|e] w1] eqn:Hrun.
  - pose proof (quiet_convert _ _ _ _ _ _ _ _ Hrun) as Hcalls.
    eapply sends_same_calls; [exact Hcalls|].
    destruct (convert_both_or_none _ _ _ _ _ _ _ _ Hrun)
      as [-> | (info & ev & ->)]; [apply sends_ret|].
    apply sends_emit_assertion.
    pose proof (convert_event _ _ _ _ _ _ _ _ _ Hrun)
      as (d & _ & (fields & _ & Hinfo) & Hbatch & _ & Hassertee & Hrun_id
          & Hstatus).
    apply build_assertion_info_ret in Hinfo as (_ & _ & _ & Hds & _).
    unfold about, of_scan. simpl in *. rewrite Hbatch. simpl.
    split_and!; congruence.
  - apply sends_raise. eapply quiet_convert, Hrun.
Qed.

Lemma py_get_dict (v : pyval) (k : string) (default x : pyval) :
  py_get v k default = Ret x → ∃ d, v = PDict d ∧ x = dict_get d k default.
Proof. destruct v; try discriminate. intros [= <-]. eauto. Qed.

Lemma sends_process_table self data_source_name checks scan_id scan_timestamp
    n table_info w :
  sends self (about_table self scan_id scan_timestamp data_source_name
                table_info) n w
    (process_table self data_source_name checks scan_id scan_timestamp n
       table_info w).
Proof.
  unfold process_table.
  apply sends_after_quiet; [auto with quiet | intros table_name w1 Ht].
  apply lift_ret in Ht as [Ht ->].
  apply py_get_dict in Ht as (t & -> & ->).
  simpl py_get. rewrite !lift_ret_bind.
  apply sends_after_quiet; [auto with quiet | intros platform_instance w1 Hpi].
  apply lift_ret in Hpi as [Hpi ->].
  apply sends_after_quiet; [auto with quiet | intros dataset_urn w1 Hurn].
  destruct dataset_urn as [urn|].
  - destruct (String.eqb urn "").
    + apply sends_after_quiet; [auto with quiet | intros ? ? _].
      apply sends_ret.
    + repeat (apply sends_after_quiet; [auto with quiet | intros ? ? _]).
      apply (sends_for_each self
               (λ _, about scan_id scan_timestamp urn)).
      * intros _ p _ [Hscan Hp]. split; [exact Hscan|].
        exists t. split; [reflexivity|].
        unfold urn_of_table, schema_name_of, table_name_of. rewrite Hpi.
        rewrite (build_dataset_urn_pure _ _ _ _ _ _ (World [] [] 0) w).
        rewrite Hurn, Hp.
        reflexivity.
      * intros. apply sends_process_check.
  - apply sends_after_quiet; [auto with quiet | intros ? ? _]. apply sends_ret.
Qed.

(** ** The calls of a whole scan *)

Lemma sends_tables self data_source_name checks scan_id scan_timestamp
    table_list w :
  sends self
    (about_tables self scan_id scan_timestamp data_source_name table_list) 0 w
    (for_each table_list 0%nat
       (process_table self data_source_name checks scan_id scan_timestamp) w).
Proof.
  apply (sends_for_each self
           (about_table self scan_id scan_timestamp data_source_name)).
  - intros table_info p Hin [Hscan (t & -> & Hurn)].
    split; [exact Hscan | eauto].
  - intros. apply sends_process_table.
Qed.

Lemma scan_body_trace self scan_result scan_timestamp w :
  let Q := of_scan_result self scan_result scan_timestamp w in
  let run := process_scan_body self scan_result scan_timestamp w in
  match fst run with
  | Ret result =>
      ∃ pairs,
        result = [ ("status", PStr "success");
                   ("assertions_sent", PInt (Z.of_nat (length pairs)));
                   ("scan_id", scan_id_at scan_result w) ] ∧
        emit_calls (snd run) = (emit_calls w ++ mcps_of pairs)%list ∧
        Forall Q pairs ∧
        all_returned self (emit_calls w) (mcps_of pairs)
  | Raise e =>
      ∃ pairs partial,
        emit_calls (snd run)
          = (emit_calls w ++ mcps_of pairs ++ partial)%list ∧
        Forall Q pairs ∧
        all_returned self (emit_calls w) (mcps_of pairs) ∧
        interrupted self Q (emit_calls w ++ mcps_of pairs) e partial
  end.
Proof.
  cbv zeta. rewrite process_scan_body_tables.
  set (Q := of_scan_result self scan_result scan_timestamp w).
  assert (∀ e w', emit_calls w' = emit_calls w →
            ∃ pairs partial,
              emit_calls w' = (emit_calls w ++ mcps_of pairs ++ partial)%list ∧
              Forall Q pairs ∧
              all_returned self (emit_calls w) (mcps_of pairs) ∧
              interrupted self Q (emit_calls w ++ mcps_of pairs) e partial)
    as Hquiet.
  { intros e w' ->. exists [], []. simpl. rewrite app_nil_r.
    split_and!; [reflexivity | constructor | apply all_returned_nil | by left]. }
  unfold DatahubRestEmitter.
  destruct (DatahubRestEmitter_raises self) as [e0|].
  { rewrite (bind_run_raise (throw e0) _ w e0 w eq_refl). simpl.
    by apply Hquiet. }
  rewrite (bind_run (mret tt) _ w tt w eq_refl).
  rewrite (bind_run (read_clock clock_seconds) _ w _ (ticked w) eq_refl).
  cbv zeta. fold (scan_id_at scan_result w).
  destruct (py_len (dict_get scan_result "checks" (PList [])))
    as [n_checks|e1].
  2: { rewrite lift_raise_bind. simpl. by apply Hquiet. }
  rewrite lift_ret_bind.
  match goal with |- context [(logger ?lvl ?msg ≫= ?f) (ticked w)] =>
    rewrite (bind_run (logger lvl msg) f (ticked w) tt
               (logged lvl msg (ticked w)) eq_refl)
  end.
  unfold process_tables.
  pose proof (eq_refl : scan_tables scan_result = scan_tables scan_result)
    as Htables.
  unfold scan_tables at 1 in Htables.
  destruct (py_iter (dict_get scan_result "tables" (PList [])))
    as [table_list|e2].
  2: { rewrite lift_raise_bind. simpl. by apply Hquiet. }
  rewrite lift_ret_bind.
  match goal with |- context [(for_each table_list 0%nat ?body ≫= ?f) ?w0] =>
    pose proof (sends_tables self
                  (dict_get scan_result "dataSourceName" (PStr "unknown"))
                  (dict_get scan_result "checks" (PList []))
                  (scan_id_at scan_result w) scan_timestamp table_list w0)
      as Hsends;
    destruct (for_each table_list 0%nat body w0) as [[sent|e3] w1] eqn:Hfor
  end.
  - rewrite (bind_run _ _ _ _ _ Hfor).
    destruct Hsends as (pairs & -> & Hcalls & Hscan & Hret).
    simpl in Hcalls |- *. exists pairs.
    split_and!; [reflexivity | exact Hcalls | | exact Hret].
    unfold Q, of_scan_result. rewrite <- Htables. exact Hscan.
  - rewrite (bind_run_raise _ _ _ _ _ Hfor).
    unfold Q, of_scan_result. rewrite <- Htables. exact Hsends.
Qed.



(** Whatever the scan result and the emitter do, a scan either ends with
    status ["success"] or was ended by an exception [e], which is
    reported in the error dictionary when [graceful_exceptions] is set
    and raised otherwise.  In the second case the emitter was called for
    a number of whole assertions, all of whose calls returned, and then
    possibly for the first one, two or three calls of one more, of which
    the last call is the one that raised [e]: the assertions sent before
    the failure stay sent, and an assertion may be left with its
    definition but without its outcome.  No call is made on the emitter
    after one that raised. *)
Theorem scan_failure_partial_assertion self scan_result scan_timestamp w :
  let start := scan_start scan_timestamp w in
  let run := process_scan_result self scan_result scan_timestamp w in
  (∃ result, fst run = Ret result ∧
             assoc_lookup "status" result = Some (PStr "success")) ∨
  (∃ e pairs partial,
     fst run = (if graceful_exceptions self
                then Ret [ ("status", PStr "error");
                           ("error", PStr (scan_error_message e)) ]
                else Raise e) ∧
     emit_calls (snd run) = (emit_calls w ++ mcps_of pairs ++ partial)%list ∧
     Forall (of_scan_result self scan_result (fst start) (snd start)) pairs ∧
     all_returned self (emit_calls w) (mcps_of pairs) ∧
     interrupted self (of_scan_result self scan_result (fst start) (snd start))
       (emit_calls w ++ mcps_of pairs) e partial).
Proof.
  intros start run. unfold run.
  rewrite process_scan_result_start. fold start.
  pose proof (scan_body_trace self scan_result (fst start) (snd start))
    as Htrace.
  cbv zeta in Htrace. unfold try_except.
  assert (emit_calls (snd start) = emit_calls w) as Hstart
    by (unfold start; destruct scan_timestamp; reflexivity).
  destruct (process_scan_body self scan_result (fst start) (snd start))
    as [[r|e] w1]; simpl in Htrace.
  - left. destruct Htrace as (pairs & -> & _). eexists. split; reflexivity.
  - right. destruct Htrace as (pairs & partial & Hcalls & Hall & Hret & Hcut).
    rewrite Hstart in Hcalls, Hret, Hcut. exists e, pairs, partial.
    split_and!; [|  | exact Hall | exact Hret | exact Hcut].
    + unfold mbind, M_bind, logger.
      destruct (graceful_exceptions self); reflexivity.
    + unfold mbind, M_bind, logger.
      destruct (graceful_exceptions self); exact Hcalls.
Qed.

(** ** Scans that send nothing, tables that are skipped *)

(** A scan result without tables (no [tables] entry, or an empty one)
    sends nothing, whatever checks it lists: once the emitter is
    constructed and the checks have a length, the scan ends with status
    ["success"] and [assertions_sent] [0], and no call was made on the
    emitter. *)
Theorem scan_without_tables self scan_result scan_timestamp w n_checks :
  DatahubRestEmitter_raises self = None →
  py_len (dict_get scan_result "checks" (PList [])) = Ret n_checks →
  py_iter (dict_get scan_result "tables" (PList [])) = Ret [] →
  let start := scan_start scan_timestamp w in
  ∃ w',
    process_scan_result self scan_result scan_timestamp w
    = (Ret [ ("status", PStr "success"); ("assertions_sent", PInt 0);
             ("scan_id", scan_id_at scan_result (snd start)) ], w') ∧
    emit_calls w' = emit_calls w.
Proof.
  intros Hemitter Hlen Htables start.
  rewrite process_scan_result_start. fold start.
  assert (emit_calls (snd start) = emit_calls w) as Hstart
    by (unfold start; destruct scan_timestamp; reflexivity).
  unfold try_except. rewrite process_scan_body_tables.
  unfold DatahubRestEmitter, process_tables. rewrite Hemitter. cbv zeta.
  rewrite (bind_run (mret tt) _ _ tt _ eq_refl).
  rewrite (bind_run (read_clock clock_seconds) _ _ _ (ticked (snd start))
             eq_refl).
  rewrite Hlen, Htables, lift_ret_bind.
  eexists. split; [reflexivity|]. exact Hstart.
Qed.

(** A table for which [_build_dataset_urn] returns [None] or the empty
    string is skipped: a warning that names its schema and table is
    logged, the count of assertions is returned unchanged, no call is
    made on the emitter and the scan goes on with the next table.  The
    checks are not looked at, so that even a [checks] member that cannot
    be iterated raises nothing there. *)
Theorem table_without_urn_skipped self data_source_name checks scan_id
    scan_timestamp assertions_sent (t : pydict) platform_instance w r w1 :
  instance_lookup self data_source_name = Ret platform_instance →
  _build_dataset_urn self data_source_name
    (dict_get t "databaseName" (PStr "")) (schema_name_of t) (table_name_of t)
    platform_instance w = (Ret r, w1) →
  r = None ∨ r = Some "" →
  process_table self data_source_name checks scan_id scan_timestamp
    assertions_sent (PDict t) w
  = (Ret assertions_sent,
     logged WARNING ("Could not build dataset URN for "
                     ++ py_str (schema_name_of t) ++ "."
                     ++ py_str (table_name_of t)) w1) ∧
  emit_calls w1 = emit_calls w.
Proof.
  intros Hpi Hurn Hr. split; [|eapply quiet_build_dataset_urn, Hurn].
  unfold process_table. simpl py_get. rewrite !lift_ret_bind, Hpi, lift_ret_bind.
  fold (schema_name_of t) (table_name_of t).
  rewrite (bind_run _ _ _ _ _ Hurn).
  destruct Hr as [-> | ->]; reflexivity.
Qed.

(** ** Names that are missing *)

Lemma py_eq_none (v : pyval) : py_eq PNone v = true ↔ v = PNone.
Proof. destruct v; simpl; split; (reflexivity || discriminate). Qed.

(** The join of checks and tables when names are missing.  A check
    without a [table] and without a [schema] field reads both as [None],
    and a table without [tableName] or [schemaName] reads them as the
    empty string, so that the two never join: such a check is selected
    only for a table whose [tableName] and [schemaName] are both present
    and null, and a table without [tableName] selects only the checks
    whose [table] field is the empty string. *)
Theorem join_with_missing_names (c t : pydict) :
  (assoc_lookup "table" c = None → assoc_lookup "schema" c = None →
   (check_matches (table_name_of t) (schema_name_of t) (PDict c) = Ret true ↔
    assoc_lookup "tableName" t = Some PNone ∧
    assoc_lookup "schemaName" t = Some PNone)) ∧
  (assoc_lookup "tableName" t = None →
   check_matches (table_name_of t) (schema_name_of t) (PDict c) = Ret true →
   assoc_lookup "table" c = Some (PStr "")).
Proof.
  rewrite check_matches_dict.
  unfold joins, table_name_of, schema_name_of, dict_get. split.
  - intros -> ->. split.
    + intros [= Hjoin]. apply andb_prop in Hjoin as [Htable Hschema].
      apply py_eq_none in Htable, Hschema.
      destruct (assoc_lookup "tableName" t); [|discriminate].
      destruct (assoc_lookup "schemaName" t); [|discriminate].
      subst. auto.
    + intros [-> ->]. reflexivity.
  - intros ->. intros [= Hjoin]. apply andb_prop in Hjoin as [Htable _].
    destruct (assoc_lookup "table" c) as [v|]; [|discriminate].
    apply py_eq_str in Htable as ->. reflexivity.
Qed.

(** ** The entries of a validation *)

Lemma lookup_map {A B} (f : A → B) (l : list A) (i : nat) (x : A) :
  l !! i = Some x → map f l !! i = Some (f x).
Proof.
  revert i. induction l as [|y l IH]; intros [|i]; simpl; try discriminate.
  - intros [= ->]. reflexivity.
  - apply IH.
Qed.

(** [validate_governance_policies] echoes the dataset URN and records,
    for the policy at each position, an entry at the same position with
    the policy's [name] and [type], each ["unknown"] when the policy has
    no such field, and the status ["validated"].  It logs one record,
    makes no call on the emitter and does not read the clock. *)
Theorem validate_governance_policies_entries self dataset_urn
    (policies : list pydict) scan_result w :
  ∃ results details,
    validate_governance_policies self dataset_urn policies scan_result w
    = (Ret results,
       logged INFO ("Validating " ++ py_str (PInt (Z.of_nat (length policies)))
                    ++ " governance policies for " ++ dataset_urn) w) ∧
    assoc_lookup "dataset_urn" results = Some (PStr dataset_urn) ∧
    assoc_lookup "details" results = Some (PList details) ∧
    ∀ i policy,
      policies !! i = Some policy →
      details !! i
      = Some (PDict [ ("policy", default (PStr "unknown")
                                   (assoc_lookup "name" policy));
                      ("type", default (PStr "unknown")
                                 (assoc_lookup "type" policy));
                      ("status", PStr "validated") ]).
Proof.
  eexists _, (map policy_entry policies). split_and!.
  - unfold validate_governance_policies, mbind, M_bind, logger.
    apply (validate_loop dataset_urn _ policies []).
  - reflexivity.
  - reflexivity.
  - intros i policy Hi. rewrite (lookup_map _ _ _ _ Hi).
    unfold policy_entry, dict_get.
    destruct (assoc_lookup "name" policy), (assoc_lookup "type" policy);
      reflexivity.
Qed.

(** ** Scans that cannot fail *)

Lemma returns_ret {A} (x : A) : returns (mret x).
Proof. intros w. eexists _, _. reflexivity. Qed.

Lemma returns_logger lvl msg : returns (logger lvl msg).
Proof. intros w. eexists _, _. reflexivity. Qed.

Lemma returns_read_clock {A} (reading : nat → A) : returns (read_clock reading).
Proof. intros w. eexists _, _. reflexivity. Qed.

Lemma returns_lift_bind {A B} (a : A) (f : A → M B) :
  returns (f a) → returns (lift (Ret a) ≫= f).
Proof. intros Hf w. rewrite lift_ret_bind. apply Hf. Qed.

Lemma returns_bind {A B} (m : M A) (f : A → M B) :
  returns m → (∀ a, returns (f a)) → returns (m ≫= f).
Proof.
  intros Hm Hf w. destruct (Hm w) as (a & w1 & Hrun).
  rewrite (bind_run _ _ _ _ _ Hrun). apply Hf.
Qed.

Lemma returns_for_each {A St} (l : list A) (body : St → A → M St) :
  (∀ x, x ∈ l → ∀ s, returns (body s x)) →
  ∀ s, returns (for_each l s body).
Proof.
  induction l as [|x l IH]; intros Hbody s; simpl; [apply returns_ret|].
  apply returns_bind; [apply Hbody; left|].
  intros s'. apply IH. intros y Hy. apply Hbody. right. exact Hy.
Qed.

Lemma process_check_returns self dataset_urn scan_id scan_timestamp n check :
  (∀ calls mcp, emit_mcp_raises self calls mcp = None) →
  returns (process_check self dataset_urn scan_id scan_timestamp n check).
Proof.
  intros Hemit w.
  destruct (convert_check_never_raises_total self check dataset_urn scan_id
              scan_timestamp w) as (r & w1 & Hrun).
  unfold process_check. rewrite (bind_run _ _ _ _ _ Hrun).
  destruct r as [[info|] [ev|]]; try (eexists _, _; reflexivity).
  unfold mbind, M_bind. rewrite emit_assertion_run. cbv zeta.
  rewrite !Hemit. eexists _, _. reflexivity.
Qed.

Lemma build_dataset_urn_returns self (source : string) database_name
    schema_name (table : string) platform_instance :
  returns (_build_dataset_urn self (PStr source) database_name schema_name
             (PStr table) platform_instance).
Proof.
  intros w. unfold _build_dataset_urn, mbind, M_bind, lift, try_except.
  assert (∃ platform, resolve_platform self (PStr source) = Ret platform)
    as [platform ->].
  { unfold resolve_platform. simpl.
    destruct (platform_alias self) as [alias|]; [|eauto].
    destruct (String.eqb alias ""); eauto. }
  assert (∃ name, compose_dataset_name database_name schema_name (PStr table)
                  = PStr name) as [name ->].
  { unfold compose_dataset_name.
    destruct (py_truthy database_name && py_truthy schema_name); [eauto|].
    destruct (py_truthy schema_name); eauto. }
  destruct (convert_urns_to_lowercase self); simpl;
    destruct (make_dataset_urn_with_platform_instance _ _ _ _);
    eexists _, _; reflexivity.
Qed.

Lemma process_table_returns self (source : string) (checks : list pyval)
    scan_id scan_timestamp n table_info :
  (∀ calls mcp, emit_mcp_raises self calls mcp = None) →
  Forall is_dict checks →
  named_table table_info →
  returns (process_table self (PStr source) (PList checks) scan_id
             scan_timestamp n table_info).
Proof.
  intros Hemit Hchecks (t & table & -> & Htable) w.
  rewrite (process_table_selected _ _ _ _ _ _ _ _ Hchecks).
  simpl instance_lookup. rewrite lift_ret_bind, Htable.
  revert w. apply returns_bind; [apply build_dataset_urn_returns|].
  intros [urn|].
  - destruct (String.eqb urn "").
    + apply returns_bind; [apply returns_logger | intros; apply returns_ret].
    + apply returns_bind; [apply returns_logger | intros _].
      apply returns_for_each. intros check _ n'.
      apply process_check_returns, Hemit.
  - apply returns_bind; [apply returns_logger | intros; apply returns_ret].
Qed.

(** A scan cannot fail when its input has the expected shape and the
    server accepts every call: if the emitter can be constructed and
    none of its calls raises, the data source name is a string, [checks]
    is a list of dictionaries and [tables] a list of dictionaries with a
    string as [tableName], then [process_scan_result] returns a result
    with status ["success"], whatever the checks contain and whether or
    not the URN builder accepts the names. *)
Theorem well_formed_scan_succeeds self scan_result scan_timestamp w
    (source : string) (checks tables : list pyval) :
  DatahubRestEmitter_raises self = None →
  (∀ calls mcp, emit_mcp_raises self calls mcp = None) →
  dict_get scan_result "dataSourceName" (PStr "unknown") = PStr source →
  dict_get scan_result "checks" (PList []) = PList checks →
  Forall is_dict checks →
  dict_get scan_result "tables" (PList []) = PList tables →
  Forall named_table tables →
  ∃ result w',
    process_scan_result self scan_result scan_timestamp w = (Ret result, w') ∧
    assoc_lookup "status" result = Some (PStr "success").
Proof.
  intros Hemitter Hemit Hsource Hchecks Hdicts Htables Hnamed.
  assert (returns (process_scan_body self scan_result
                     (fst (scan_start scan_timestamp w)))) as Hreturns.
  { rewrite process_scan_body_tables.
    unfold DatahubRestEmitter, process_tables. rewrite Hemitter. cbv zeta.
    rewrite Hsource, Hchecks, Htables. simpl py_len. simpl py_iter.
    apply returns_bind; [apply returns_ret | intros _].
    apply returns_bind; [apply returns_read_clock | intros now_seconds].
    apply returns_lift_bind.
    apply returns_bind; [apply returns_logger | intros _].
    apply returns_lift_bind.
    apply returns_bind; [|intros sent].
    - apply returns_for_each. intros table_info Hin n.
      apply process_table_returns; [exact Hemit | exact Hdicts|].
      eapply Forall_forall in Hnamed; [exact Hnamed | exact Hin].
    - apply returns_bind; [apply returns_logger | intros _].
      apply returns_ret. }
  destruct (Hreturns (snd (scan_start scan_timestamp w)))
    as (result & w1 & Hbody).
  pose proof (scan_body_trace self scan_result
                (fst (scan_start scan_timestamp w))
                (snd (scan_start scan_timestamp w))) as Htrace.
  cbv zeta in Htrace. rewrite Hbody in Htrace. simpl in Htrace.
  destruct Htrace as (pairs & -> & _).
  rewrite process_scan_result_start. unfold try_except. rewrite Hbody.
  eexists _, _. split; reflexivity.
Qed.

End Properties.

(** ** The theorems at work on the examples *)

Lemma result_type_by_outcome_witness :
  ∃ info ev w',
    _convert_check_to_assertion (H := Demo.sdk) Examples.handler
      Examples.price_range Examples.users_urn (PStr "test_scan_123") 0
      Examples.fresh = (Ret (Some info, Some ev), w') ∧
    AssertionResult.type (AssertionRunEvent.result ev)
      = AssertionResultType.SUCCESS ∧
    ∃ k, k ∈ SUCCESS_OUTCOMES ∧ caseless_eq (H := Demo.sdk) "PASSED" k.
Proof.
  eexists _, _, _. split; [vm_compute; reflexivity|].
  destruct (result_type_by_outcome (H := Demo.sdk) Examples.handler
              Examples.price_range Examples.users_urn (PStr "test_scan_123") 0
              Examples.fresh _ _ _ eq_refl)
    as (d & s & Hd & Hs & Hsucc & _).
  injection Hd as <-. vm_compute in Hs. injection Hs as <-.
  split; [reflexivity|]. apply Hsucc. reflexivity.
Defined.

Lemma actual_agg_value_last_wins_witness :
  ∃ info ev w',
    _convert_check_to_assertion (H := Demo.sdk) Examples.handler
      Examples.price_range Examples.users_urn (PStr "test_scan_123") 0
      Examples.fresh = (Ret (Some info, Some ev), w') ∧
    AssertionResult.actualAggValue (AssertionRunEvent.result ev)
      = Some (PInt 2).
Proof.
  eexists _, _, _. split; [vm_compute; reflexivity|].
  destruct (actual_agg_value_last_wins (H := Demo.sdk) Examples.handler
              Examples.price_range Examples.users_urn (PStr "test_scan_123") 0
              Examples.fresh _ _ _ eq_refl)
    as (d & metric_list & Hd & Hiter & Hagg).
  injection Hd as <-. vm_compute in Hiter. injection Hiter as <-.
  exact Hagg.
Defined.

(** Against C1 as stated: the check [price_range] reports [min = 1] and
    then [max = 2]; the first aggregation metric in list order has
    value [1], the converted outcome carries [2]. *)
Lemma first_agg_metric_overwritten :
  ∃ info ev w' metric_list,
    _convert_check_to_assertion (H := Demo.sdk) Examples.handler
      Examples.price_range Examples.users_urn (PStr "test_scan_123") 0
      Examples.fresh = (Ret (Some info, Some ev), w') ∧
    py_get Examples.price_range "metrics" (PList []) = Ret (PList metric_list) ∧
    head (omap agg_metric_value metric_list) = Some (PInt 1) ∧
    AssertionResult.actualAggValue (AssertionRunEvent.result ev)
      = Some (PInt 2) ∧
    AssertionResult.actualAggValue (AssertionRunEvent.result ev)
      ≠ head (omap agg_metric_value metric_list).
Proof.
  eexists _, _, _, _. split; [vm_compute; reflexivity|].
  split; [vm_compute; reflexivity|].
  split; [reflexivity|]. split; [reflexivity|]. discriminate.
Qed.

Lemma classification_first_match_witness :
  ∃ info ev w',
    _convert_check_to_assertion (H := Demo.sdk) Examples.handler
      Examples.email_unique Examples.users_urn (PStr "test_scan_123") 0
      Examples.fresh = (Ret (Some info, Some ev), w') ∧
    DatasetAssertionInfo.scope (AssertionInfo.datasetAssertion info)
      = DatasetAssertionScope.DATASET_COLUMN ∧
    DatasetAssertionInfo.aggregation (AssertionInfo.datasetAssertion info)
      = AssertionStdAggregation.UNIQUE_COUNT.
Proof.
  eexists _, _, _. split; [vm_compute; reflexivity|].
  apply (proj2 (classification_first_match (H := Demo.sdk)) Examples.handler
           Examples.email_unique_items
           Examples.users_urn (PStr "test_scan_123") 0 Examples.fresh
           _ _ _ "Unique_Values" eq_refl eq_refl);
    reflexivity.
Defined.

(** Against C3 as stated: the type [unique_not_null] contains [unique]
    and the check has a non-null column, but the rule for [null] comes
    first and the aggregation is IDENTITY; the type [unique] with the
    column [""], which is not null, is classified DATASET_ROWS. *)
Lemma unique_type_not_unique_count :
  ∃ info1 ev1 w1 info2 ev2 w2,
    (_convert_check_to_assertion (H := Demo.sdk) Examples.handler
       Examples.email_unique_not_null Examples.users_urn
       (PStr "test_scan_123") 0 Examples.fresh
       = (Ret (Some info1, Some ev1), w1) ∧
     str_in "unique" "unique_not_null" = true ∧
     py_get Examples.email_unique_not_null "column" PNone
       = Ret (PStr "email") ∧
     classification_of info1 =
       (DatasetAssertionScope.DATASET_COLUMN, AssertionStdOperator.NOT_NULL,
        AssertionStdAggregation.IDENTITY)) ∧
    (_convert_check_to_assertion (H := Demo.sdk) Examples.handler
       Examples.unique_empty_column Examples.users_urn
       (PStr "test_scan_123") 0 Examples.fresh
       = (Ret (Some info2, Some ev2), w2) ∧
     str_in "unique" "unique" = true ∧
     py_get Examples.unique_empty_column "column" PNone = Ret (PStr "") ∧
     classification_of info2 =
       (DatasetAssertionScope.DATASET_ROWS, AssertionStdOperator._NATIVE_,
        AssertionStdAggregation.UNIQUE_COUNT)).
Proof.
  eexists _, _, _, _, _, _.
  split; (split; [vm_compute; reflexivity|]); repeat split; reflexivity.
Qed.

Lemma process_scan_result_exception_policy_witness :
  fst (process_scan_result (H := Demo.sdk) Examples.handler
         Examples.null_checks_scan_result None Examples.fresh)
    = Ret [("status", PStr "error");
           ("error",
            PStr "Failed to process Soda scan result: object has no len()")] ∧
  fst (process_scan_result (H := Demo.sdk) Examples.strict_handler
         Examples.null_checks_scan_result None Examples.fresh)
    = Raise (Exn TypeError "object has no len()").
Proof.
  split.
  - erewrite (proj1 (proj1 (process_scan_result_exception_policy
                              (H := Demo.sdk) Examples.handler
                              Examples.null_checks_scan_result None
                              Examples.fresh)
                      (Exn TypeError "object has no len()") _ eq_refl)
                eq_refl).
    reflexivity.
  - erewrite (proj2 (proj1 (process_scan_result_exception_policy
                              (H := Demo.sdk) Examples.strict_handler
                              Examples.null_checks_scan_result None
                              Examples.fresh)
                      (Exn TypeError "object has no len()") _ eq_refl)
                eq_refl).
    reflexivity.
Defined.

Lemma emit_triple_then_count_witness :
  ∃ info ev w1,
    _convert_check_to_assertion (H := Demo.sdk) Examples.handler
      Examples.users_id_not_null Examples.users_urn (PStr "test_scan_123") 0
      Examples.fresh = (Ret (Some info, Some ev), w1) ∧
    process_check (H := Demo.sdk) Examples.handler Examples.users_urn
      (PStr "test_scan_123") 0 7 Examples.users_id_not_null Examples.fresh
    = (Ret 8%nat, emitted (assertion_mcps (H := Demo.sdk) info ev) w1).
Proof.
  destruct (_convert_check_to_assertion (H := Demo.sdk) Examples.handler
              Examples.users_id_not_null Examples.users_urn
              (PStr "test_scan_123") 0 Examples.fresh)
    as [[[[info|] [ev|]]|e] w1] eqn:Hconv;
    try (exfalso; vm_compute in Hconv; discriminate).
  exists info, ev, w1. split; [reflexivity|].
  destruct (emit_triple_then_count (H := Demo.sdk) Examples.handler
              Examples.users_urn (PStr "test_scan_123") 0 7%nat
              Examples.users_id_not_null Examples.fresh info ev w1 Hconv)
    as (m1 & m2 & m3 & Hmcps & _ & _ & _ & Hrun).
  rewrite Hrun, Hmcps. reflexivity.
Defined.


Lemma checks_join_tables_exactly_witness :
  joins (PStr "users") (PStr "public") Examples.capital_users_check = false ∧
  agree
    (process_scan_result (H := Demo.sdk) Examples.handler
       Examples.scan_with_unmatched_check None Examples.fresh)
    (process_scan_result (H := Demo.sdk) Examples.handler
       Examples.sample_scan_result None Examples.fresh) ∧
  fst (process_scan_result (H := Demo.sdk) Examples.handler
         Examples.scan_with_unmatched_check None Examples.fresh)
    = Ret [ ("status", PStr "success"); ("assertions_sent", PInt 2);
            ("scan_id", PStr "test_scan_123") ].
Proof.
  split; [reflexivity|]. split; [|vm_compute; reflexivity].
  apply (proj2 (proj2 (checks_join_tables_exactly (H := Demo.sdk)
                         Examples.handler))
           Examples.scan_with_unmatched_check Examples.sample_scan_result
           [Examples.users_id_not_null] [Examples.users_email_unique]
           Examples.capital_users_check None Examples.fresh).
  - reflexivity.
  - reflexivity.
  - intros k Hk. simpl.
    destruct (String.eqb k "scanId"); [reflexivity|].
    destruct (String.eqb k "dataSourceName"); [reflexivity|].
    destruct (String.eqb k "tables"); [reflexivity|].
    destruct (String.eqb k "checks") eqn:Heq; [|reflexivity].
    apply String.eqb_eq in Heq. contradiction.
  - intros table_list t [= <-] Hin.
    apply list_elem_of_singleton in Hin. injection Hin as ->. reflexivity.
Defined.

Lemma convert_check_never_raises_witness :
  fst (_convert_check_to_assertion (H := Demo.sdk) Examples.handler
         Examples.numeric_outcome_check Examples.users_urn
         (PStr "test_scan_123") 0 Examples.fresh)
    = Ret (None, None) ∧
  log (snd (_convert_check_to_assertion (H := Demo.sdk) Examples.handler
              Examples.numeric_outcome_check Examples.users_urn
              (PStr "test_scan_123") 0 Examples.fresh))
    = [(WARNING, "Failed to convert check to assertion: object has no attribute 'lower'")].
Proof.
  destruct (convert_check_never_raises (H := Demo.sdk) Examples.handler
              Examples.numeric_outcome_check Examples.users_urn
              (PStr "test_scan_123") 0 Examples.fresh)
    as (r & w' & Hrun & Hraised).
  destruct (Hraised (Exn AttributeError "object has no attribute 'lower'")
              Examples.fresh eq_refl) as (-> & Hlog & _).
  rewrite Hrun. split; [reflexivity | exact Hlog].
Defined.

Lemma build_dataset_urn_composition_witness :
  fst (_build_dataset_urn (H := Demo.sdk) Examples.handler (PStr "Postgres")
         (PStr "MyDB") (PStr "Public") (PStr "Users") None Examples.fresh)
    = Ret (Some "urn:li:dataset:(urn:li:dataPlatform:postgres,MyDB.Public.Users,TEST)") ∧
  fst (_build_dataset_urn (H := Demo.sdk) Examples.lowercase_handler
         (PStr "Postgres") (PStr "") (PStr "Public") (PStr "Users") None
         Examples.fresh)
    = Ret (Some "urn:li:dataset:(urn:li:dataPlatform:PG_Main,public.users,TEST)").
Proof.
  split.
  - rewrite (proj1 (proj2 (build_dataset_urn_composition (H := Demo.sdk)
                             Examples.handler (PStr "Postgres")
                             "MyDB" "Public" "Users" None Examples.fresh))).
    reflexivity.
  - rewrite (proj1 (proj2 (build_dataset_urn_composition (H := Demo.sdk)
                             Examples.lowercase_handler (PStr "Postgres")
                             "" "Public" "Users" None Examples.fresh))).
    reflexivity.
Defined.

Lemma validate_governance_policies_stub_witness :
  fst (validate_governance_policies (H := Demo.sdk) Examples.handler
         Examples.users_urn Examples.sample_policies None Examples.fresh)
    = Ret [ ("dataset_urn", PStr Examples.users_urn);
            ("policies_validated", PInt 2);
            ("compliant", PInt 0); ("non_compliant", PInt 0);
            ("details",
             PList [ PDict [ ("policy", PStr "Data Quality Policy");
                             ("type", PStr "data_quality");
                             ("status", PStr "validated") ];
                     PDict [ ("policy", PStr "Schema Policy");
                             ("type", PStr "schema");
                             ("status", PStr "validated") ] ]) ].
Proof.
  destruct (validate_governance_policies_stub (H := Demo.sdk) Examples.handler
              Examples.users_urn Examples.sample_policies None Examples.fresh)
    as (results & details & w' & Hrun & _).
  rewrite Hrun. vm_compute in Hrun. injection Hrun as <- _. reflexivity.
Defined.

(** The scenario of the handler's unit test: one table, a passing and a
    failing check, two assertions sent in six calls. *)
Example sample_scan_end_to_end :
  let run := process_scan_result (H := Demo.sdk) Examples.handler
               Examples.sample_scan_result None Examples.fresh in
  fst run = Ret [ ("status", PStr "success"); ("assertions_sent", PInt 2);
                  ("scan_id", PStr "test_scan_123") ] ∧
  length (emit_calls (snd run)) = 6%nat.
Proof. vm_compute. split; reflexivity. Qed.


Lemma convert_to_string_cases_witness :
  convert_to_string (H := Demo.sdk) (PStr "public") = Ret "public" ∧
  convert_to_string (H := Demo.sdk) (PInt 1000) = Ret "1000".
Proof.
  split.
  - apply (proj1 (convert_to_string_cases (H := Demo.sdk) (PStr "public"))).
    reflexivity.
  - rewrite (proj1 (proj2 (convert_to_string_cases (H := Demo.sdk)
                             (PInt 1000))) eq_refl).
    reflexivity.
Defined.

Lemma counters_last_metric_wins_witness :
  ∃ info ev w',
    _convert_check_to_assertion (H := Demo.sdk) Examples.handler
      Examples.recounted_rows Examples.users_urn (PStr "test_scan_123") 0
      Examples.fresh = (Ret (Some info, Some ev), w') ∧
    AssertionResult.rowCount (AssertionRunEvent.result ev) = Some 20.
Proof.
  destruct (_convert_check_to_assertion (H := Demo.sdk) Examples.handler
              Examples.recounted_rows Examples.users_urn
              (PStr "test_scan_123") 0 Examples.fresh)
    as [[[[info|] [ev|]]|e] w'] eqn:Hrun;
    try (exfalso; vm_compute in Hrun; discriminate).
  exists info, ev, w'. split; [reflexivity|].
  destruct (counters_last_metric_wins (H := Demo.sdk) Examples.handler
              Examples.recounted_rows Examples.users_urn
              (PStr "test_scan_123") 0 Examples.fresh info ev w' Hrun)
    as (d & metric_list & Hd & Hiter & Hrows & _).
  injection Hd as <-. injection Hiter as <-.
  unfold counter_is in Hrows. simpl in Hrows.
  injection Hrows as <-. reflexivity.
Defined.

Lemma converted_check_payload_witness :
  ∃ info ev w',
    _convert_check_to_assertion (H := Demo.sdk) Examples.handler
      Examples.users_id_not_null Examples.users_urn (PStr "test_scan_123") 0
      Examples.fresh = (Ret (Some info, Some ev), w') ∧
    AssertionRunEvent.asserteeUrn ev = Examples.users_urn ∧
    BatchSpec.nativeBatchId (AssertionRunEvent.batchSpec ev)
      = PStr "test_scan_123" ∧
    AssertionRunEvent.runId ev = "@0".
Proof.
  destruct (_convert_check_to_assertion (H := Demo.sdk) Examples.handler
              Examples.users_id_not_null Examples.users_urn
              (PStr "test_scan_123") 0 Examples.fresh)
    as [[[[info|] [ev|]]|e] w'] eqn:Hrun;
    try (exfalso; vm_compute in Hrun; discriminate).
  exists info, ev, w'. split; [reflexivity|].
  destruct (converted_check_payload (H := Demo.sdk) Examples.handler
              Examples.users_id_not_null Examples.users_urn
              (PStr "test_scan_123") 0 Examples.fresh info ev w' Hrun)
    as (d & _ & _ & _ & _ & Hurn & _ & _ & _ & _ & Hbatch & _ & _ & Hid & _).
  split_and!; [exact Hurn | exact Hbatch | exact Hid].
Defined.

Lemma convertible_checks_witness :
  ∃ info ev,
    fst (_convert_check_to_assertion (H := Demo.sdk) Examples.handler
           Examples.users_id_not_null Examples.users_urn
           (PStr "test_scan_123") 0 Examples.fresh)
      = Ret (Some info, Some ev).
Proof.
  destruct (convertible_checks (H := Demo.sdk) Examples.handler
              Examples.users_id_not_null Examples.users_urn
              (PStr "test_scan_123") 0 Examples.fresh)
    as (r & w' & Hrun & [-> | (info & ev & d & outcome & ty & metric_list
                                & -> & _)]).
  - exfalso. vm_compute in Hrun. discriminate.
  - exists info, ev. rewrite Hrun. reflexivity.
Defined.

Lemma native_results_items_witness :
  ∃ info ev w',
    _convert_check_to_assertion (H := Demo.sdk) Examples.handler
      Examples.users_id_not_null Examples.users_urn (PStr "test_scan_123") 0
      Examples.fresh = (Ret (Some info, Some ev), w') ∧
    map fst (AssertionResult.nativeResults (AssertionRunEvent.result ev))
      = ["table"; "schema"; "column"; "metrics"].
Proof.
  destruct (_convert_check_to_assertion (H := Demo.sdk) Examples.handler
              Examples.users_id_not_null Examples.users_urn
              (PStr "test_scan_123") 0 Examples.fresh)
    as [[[[info|] [ev|]]|e] w'] eqn:Hrun;
    try (exfalso; vm_compute in Hrun; discriminate).
  exists info, ev, w'. split; [reflexivity|].
  destruct (native_results_items (H := Demo.sdk) Examples.handler
              Examples.users_id_not_null Examples.users_urn
              (PStr "test_scan_123") 0 Examples.fresh info ev w' Hrun)
    as (d & Hd & Hkeys & _).
  injection Hd as <-. rewrite Hkeys. reflexivity.
Defined.




Lemma scan_failure_partial_assertion_witness :
  let run := process_scan_result (H := Demo.flaky) Examples.handler
               Examples.sample_scan_result None Examples.fresh in
  fst run = Ret [ ("status", PStr "error");
                  ("error", PStr "Failed to process Soda scan result: connection refused") ] ∧
  length (emit_calls (snd run)) = 5%nat ∧
  ∃ e pairs partial,
    emit_calls (snd run) = (mcps_of (H := Demo.flaky) pairs ++ partial)%list ∧
    interrupted (H := Demo.flaky) Examples.handler
      (of_scan_result (H := Demo.flaky) Examples.handler
         Examples.sample_scan_result 1700000000 (ticked Examples.fresh))
      (mcps_of (H := Demo.flaky) pairs) e partial.
Proof.
  cbv zeta.
  assert (fst (process_scan_result (H := Demo.flaky) Examples.handler
                 Examples.sample_scan_result None Examples.fresh)
          = Ret [ ("status", PStr "error");
                  ("error", PStr "Failed to process Soda scan result: connection refused") ])
    as Hfst by (vm_compute; reflexivity).
  split; [exact Hfst|].
  split; [vm_compute; reflexivity|].
  destruct (scan_failure_partial_assertion (H := Demo.flaky) Examples.handler
              Examples.sample_scan_result None Examples.fresh)
    as [(result & Hresult & Hstatus)
       | (e & pairs & partial & _ & Hcalls & _ & _ & Hcut)].
  - exfalso. rewrite Hfst in Hresult. injection Hresult as <-. discriminate.
  - exists e, pairs, partial. split; [exact Hcalls | exact Hcut].
Defined.

Lemma scan_without_tables_witness :
  let run := process_scan_result (H := Demo.sdk) Examples.handler
               Examples.scan_without_tables_result (Some 0) Examples.fresh in
  fst run = Ret [ ("status", PStr "success"); ("assertions_sent", PInt 0);
                  ("scan_id", PStr "test_scan_125") ] ∧
  emit_calls (snd run) = [].
Proof.
  cbv zeta.
  destruct (scan_without_tables (H := Demo.sdk) Examples.handler
              Examples.scan_without_tables_result (Some 0) Examples.fresh
              1%nat eq_refl eq_refl eq_refl)
    as (w' & Hrun & Hcalls).
  rewrite Hrun. split; [reflexivity | exact Hcalls].
Defined.

Lemma table_without_urn_skipped_witness :
  fst (process_table (H := Demo.flaky) Examples.handler (PStr "postgres")
         (PInt 0) (PStr "test_scan_123") 0 7%nat
         (PDict Examples.nameless_table) Examples.fresh)
    = Ret 7%nat.
Proof.
  rewrite (proj1 (table_without_urn_skipped (H := Demo.flaky) Examples.handler
                    (PStr "postgres") (PInt 0) (PStr "test_scan_123") 0 7%nat
                    Examples.nameless_table None Examples.fresh None _
                    eq_refl eq_refl (or_introl eq_refl))).
  reflexivity.
Defined.

Lemma join_with_missing_names_witness :
  check_matches (table_name_of Examples.null_named_table)
    (schema_name_of Examples.null_named_table) (PDict Examples.unplaced_check)
    = Ret true ∧
  check_matches (table_name_of Examples.nameless_table)
    (schema_name_of Examples.nameless_table) (PDict Examples.unplaced_check)
    ≠ Ret true.
Proof.
  split.
  - apply (proj1 (join_with_missing_names Examples.unplaced_check
                    Examples.null_named_table) eq_refl eq_refl).
    split; reflexivity.
  - intros Hjoin.
    pose proof (proj2 (join_with_missing_names Examples.unplaced_check
                         Examples.nameless_table) eq_refl Hjoin) as Htable.
    discriminate.
Defined.

Lemma validate_governance_policies_entries_witness :
  ∃ results details,
    fst (validate_governance_policies (H := Demo.sdk) Examples.handler
           Examples.users_urn Examples.unnamed_policies None Examples.fresh)
      = Ret results ∧
    assoc_lookup "details" results = Some (PList details) ∧
    details !! 0%nat
      = Some (PDict [ ("policy", PStr "unknown"); ("type", PStr "schema");
                      ("status", PStr "validated") ]).
Proof.
  destruct (validate_governance_policies_entries (H := Demo.sdk)
              Examples.handler Examples.users_urn Examples.unnamed_policies
              None Examples.fresh)
    as (results & details & Hrun & _ & Hdetails & Hentry).
  exists results, details. rewrite Hrun.
  split_and!; [reflexivity | exact Hdetails|].
  apply (Hentry 0%nat [("type", PStr "schema")] eq_refl).
Defined.

Lemma well_formed_scan_succeeds_witness :
  ∃ result w',
    process_scan_result (H := Demo.sdk) Examples.handler
      Examples.sample_scan_result None Examples.fresh = (Ret result, w') ∧
    assoc_lookup "status" result = Some (PStr "success").
Proof.
  apply (well_formed_scan_succeeds (H := Demo.sdk) Examples.handler
           Examples.sample_scan_result None Examples.fresh "postgres"
           [Examples.users_id_not_null; Examples.users_email_unique]
           [PDict [ ("tableName", PStr "users"); ("schemaName", PStr "public");
                    ("databaseName", PStr "mydb") ]]).
  - reflexivity.
  - intros calls mcp. reflexivity.
  - reflexivity.
  - reflexivity.
  - repeat constructor; eexists; reflexivity.
  - reflexivity.
  - repeat constructor. eexists _, _. split; reflexivity.
Defined.
